(** * Band alignment and vegetation index: a shallow embedding

    The development follows the Python sources of the repository:

    - [src/georeference_analysis.py]: [GeoInfo], [SceneAnalyzer],
      [AlignmentChecker];
    - [src/band_aligner.py]: [BandAligner];
    - [src/vegetation-ortho-aligned.py]: [align_band_to_reference],
      [process_aligned_ndvi];
    - [src/vegetation-ortho.py] and [vegetation-ortho.py]: the two NDVI
      scripts;
    - [tests/alignment_testing.py]: [test_scene_alignment].

    Conventions of the embedding.

    - A Python [float] / NumPy [float64] is an IEEE 754 binary64 value,
      written as a [spec_float] of the Standard Library with precision 53
      and maximal exponent 1024; the arithmetic is that of [SpecFloat],
      bit for bit (one NaN, signed zeros, infinities).
    - A 2-D NumPy array is a list of rows.  Element-wise operations follow
      NumPy's broadcasting rule and raise [ValueError] on incompatible
      shapes.
    - A raster file holds one band.  Its samples are kept as the float64
      values they become under [.astype(float)].
    - The file system is a finite map from path strings to files; a file
      is a raster or something that [rasterio.open] refuses.
    - Python dictionaries keep insertion order: they are association
      lists updated in place.
    - Statements executed for their effect run in a state-and-exception
      monad over a [World]: the files, what was printed, and the calls
      made to the libraries (file opens, PROJ conversions, GDAL warps).
    - [rasterio.warp.transform_bounds], [rasterio.warp.reproject] and the
      creation of a dataset by [rasterio.open(path, 'w', ...)] are
      external (PROJ and GDAL): they are the members of the class [Warp].
      So is the figure that matplotlib saves: the member of the class
      [Pyplot]. *)

From Stdlib Require Import ZArith List Bool Lia String Ascii.
From Stdlib Require Import Floats.SpecFloat.
From stdpp Require Import base option list strings pretty gmap fin_maps.

Local Open Scope string_scope.
Local Open Scope nat_scope.

(* ===================================================================== *)
(** * Part I: definitions                                                 *)
(* ===================================================================== *)

(** ** binary64 arithmetic *)

Module F64.

Definition prec : Z := 53.
Definition emax : Z := 1024.

Definition float := spec_float.

Definition nan : float := S754_nan.
Definition zero : float := S754_zero false.

(** Conversion of a Python [int]; exact below 2^53. *)
Definition of_Z (z : Z) : float := binary_normalize prec emax z 0 false.
Definition of_nat (n : nat) : float := of_Z (Z.of_nat n).

Definition one : float := Eval cbv in of_Z 1.
Definition neg_one : float := Eval cbv in of_Z (-1).
Definition two : float := Eval cbv in of_Z 2.

Definition add : float -> float -> float := SFadd prec emax.
Definition sub : float -> float -> float := SFsub prec emax.
Definition mul : float -> float -> float := SFmul prec emax.
Definition div : float -> float -> float := SFdiv prec emax.
Definition abs : float -> float := SFabs.

(** [x == y], [x <= y], [x < y] and [x > y] of Python. *)
Definition eqb : float -> float -> bool := SFeqb.
Definition leb : float -> float -> bool := SFleb.
Definition ltb : float -> float -> bool := SFltb.
Definition gtb (x y : float) : bool := SFltb y x.

Definition isnan (x : float) : bool :=
  match x with S754_nan => true | _ => false end.

(** NumPy's [isfinite]. *)
Definition isfinite (x : float) : bool :=
  match x with S754_zero _ | S754_finite _ _ _ => true | _ => false end.

(** [.astype(rasterio.float32)]: rounding to binary32. *)
Definition to_f32 (x : float) : float :=
  match x with
  | S754_finite s m e => binary_round 24 128 s m e
  | _ => x
  end.

(** Python's built-in [min] and [max] over four floats: the first item
    is kept unless a later one compares strictly below (above) it. *)
Definition py_min2 (acc x : float) : float := if ltb x acc then x else acc.
Definition py_max2 (acc x : float) : float := if gtb x acc then x else acc.
Definition py_min4 (x0 x1 x2 x3 : float) : float :=
  py_min2 (py_min2 (py_min2 x0 x1) x2) x3.
Definition py_max4 (x0 x1 x2 x3 : float) : float :=
  py_max2 (py_max2 (py_max2 x0 x1) x2) x3.

End F64.

Abbreviation float := F64.float.

(** ** Exceptions *)

Inductive Exn : Type :=
| RasterioIOError (path : string)   (* rasterio.open on a missing or unreadable file *)
| CRSError                          (* PROJ cannot resolve or convert a CRS *)
| WarpError                         (* GDAL refuses a warp *)
| ValueError                        (* NumPy: shapes cannot be broadcast, empty reduction *)
| IndexError                        (* NumPy: boolean index of the wrong shape *)
| AssertionError (msg : string).    (* a failed [assert] *)

Inductive result (A : Type) : Type :=
| Ok (a : A)
| Raise (e : Exn).
Arguments Ok {A} a.
Arguments Raise {A} e.

#[export] Instance result_ret : MRet result := fun _ a => Ok a.
#[export] Instance result_bind : MBind result := fun _ _ k m =>
  match m with Ok a => k a | Raise e => Raise e end.

(** ** NumPy arrays *)

Module np.

Abbreviation ndarray A := (list (list A)).

(** [x.shape]: rows, then columns. *)
Definition shape {A} (x : ndarray A) : nat * nat :=
  (length x, length (hd [] x)).

Definition item {A} (dflt : A) (x : ndarray A) (i j : nat) : A :=
  nth j (nth i x []) dflt.

(** [x[i, j]] where it exists. *)
Definition cell {A} (x : ndarray A) (i j : nat) : option A :=
  row ← x !! i; row !! j.

(** The array of the given shape whose cell [(i, j)] is [g i j]. *)
Definition tabulate {A} (h w : nat) (g : nat -> nat -> A) : ndarray A :=
  map (fun i => map (g i) (seq 0 w)) (seq 0 h).

Definition zeros (h w : nat) : ndarray float :=
  tabulate h w (fun _ _ => F64.zero).

(** Broadcasting of one dimension: equal lengths, or one of them is 1. *)
Definition broadcast_dim (n m : nat) : option nat :=
  if n =? m then Some n
  else if n =? 1 then Some m
  else if m =? 1 then Some n
  else None.

(** Index into a dimension of length [n] under broadcasting. *)
Definition bidx (n i : nat) : nat := if n =? 1 then 0 else i.

(** A binary ufunc applied with broadcasting. *)
Definition ufunc2 {A B C} (dA : A) (dB : B) (f : A -> B -> C)
    (x : ndarray A) (y : ndarray B) : result (ndarray C) :=
  let '(hx, wx) := shape x in
  let '(hy, wy) := shape y in
  match broadcast_dim hx hy, broadcast_dim wx wy with
  | Some h, Some w =>
      Ok (tabulate h w (fun i j =>
            f (item dA x (bidx hx i) (bidx wx j))
              (item dB y (bidx hy i) (bidx wy j))))
  | _, _ => Raise ValueError
  end.

Definition add := ufunc2 F64.nan F64.nan F64.add.
Definition subtract := ufunc2 F64.nan F64.nan F64.sub.
Definition divide := ufunc2 F64.nan F64.nan F64.div.

(** [x == v] for a scalar [v]. *)
Definition equal_scalar (x : ndarray float) (v : float) : ndarray bool :=
  map (map (fun a => F64.eqb a v)) x.

(** [np.where(mask, v, x)] for a scalar [v]. *)
Definition where_scalar (mask : ndarray bool) (v : float)
    (x : ndarray float) : result (ndarray float) :=
  ufunc2 false F64.nan (fun (m : bool) a => if m then v else a) mask x.

(** [x[mask] = v]: the boolean index must have the shape of [x]. *)
Definition setitem_mask (x : ndarray float) (mask : ndarray bool)
    (v : float) : result (ndarray float) :=
  if decide (shape mask = shape x) then
    Ok (tabulate (length x) (length (hd [] x))
          (fun i j => if item false mask i j then v else item F64.nan x i j))
  else Raise IndexError.

(** [np.fmin] and [np.fmax]: the other operand wins over a NaN. *)
Definition fmin (x y : float) : float :=
  if F64.leb x y || F64.isnan y then x else y.
Definition fmax (x y : float) : float :=
  if F64.leb y x || F64.isnan y then x else y.

(** [np.nanmin(x)] and [np.nanmax(x)] of an [ndarray]: [fmin.reduce] and
    [fmax.reduce] over all cells; NaN when every cell is NaN; an empty
    array has no minimum. *)
Definition nanmin (x : ndarray float) : result float :=
  match concat x with
  | [] => Raise ValueError
  | a :: l => Ok (fold_left fmin l a)
  end.
Definition nanmax (x : ndarray float) : result float :=
  match concat x with
  | [] => Raise ValueError
  | a :: l => Ok (fold_left fmax l a)
  end.

(** [np.clip(x, lo, hi)]: [min(max(x, lo), hi)], a NaN stays a NaN. *)
Definition clip1 (lo hi x : float) : float :=
  if F64.isnan x then x
  else
    let y := if F64.gtb x lo then x else lo in
    if F64.ltb y hi then y else hi.
Definition clip (x : ndarray float) (lo hi : float) : ndarray float :=
  map (map (clip1 lo hi)) x.

Definition astype_float32 (x : ndarray float) : ndarray float :=
  map (map F64.to_f32) x.

End np.

Abbreviation ndarray A := (np.ndarray A).

(** ** The index computations of the three scripts *)

(** [src/vegetation-ortho-aligned.py], [process_aligned_ndvi]:
    [ndvi = (nir - red) / (nir + red)] and then
    [ndvi = np.where((nir + red) == 0, 0, ndvi)]. *)
Definition ndvi_where (nir red : ndarray float) : result (ndarray float) :=
  d ← np.subtract nir red;
  s ← np.add nir red;
  ndvi ← np.divide d s;
  s' ← np.add nir red;
  np.where_scalar (np.equal_scalar s' F64.zero) F64.zero ndvi.

(** Both [vegetation-ortho.py] scripts:
    [ndvi = (nir - red) / (nir + red)] and then
    [ndvi[(nir + red) == 0] = np.nan]. *)
Definition ndvi_masked (nir red : ndarray float) : result (ndarray float) :=
  d ← np.subtract nir red;
  s ← np.add nir red;
  ndvi ← np.divide d s;
  s' ← np.add nir red;
  np.setitem_mask ndvi (np.equal_scalar s' F64.zero) F64.nan.

Definition out_of_range : string := "NDVI values out of range".

(** [assert -1 <= v <= 1, "NDVI values out of range"]. *)
Definition assert_in_range (v : float) : result unit :=
  if F64.leb F64.neg_one v && F64.leb v F64.one then Ok tt
  else Raise (AssertionError out_of_range).

(** [src/vegetation-ortho.py]: the masked index followed by the two
    assertions on [np.nanmin] and [np.nanmax]. *)
Definition ndvi_asserted (nir red : ndarray float) : result (ndarray float) :=
  ndvi ← ndvi_masked nir red;
  lo ← np.nanmin ndvi;
  _ ← assert_in_range lo;
  hi ← np.nanmax ndvi;
  _ ← assert_in_range hi;
  Ok ndvi.

(** [vegetation-ortho.py] at the root: the masked index followed by
    [ndvi = np.clip(ndvi, -1, 1)]. *)
Definition ndvi_clipped (nir red : ndarray float) : result (ndarray float) :=
  ndvi ← ndvi_masked nir red;
  Ok (np.clip ndvi F64.neg_one F64.one).

(** ** Python strings, paths and dictionaries *)

Module py.

(** [s.endswith(suffix)] *)
Definition endswith (s suffix : string) : bool :=
  let n := String.length s in
  let k := String.length suffix in
  (k <=? n) && String.eqb (substring (n - k) k s) suffix.

(** [sub in s] *)
Fixpoint contains (sub s : string) : bool :=
  String.prefix sub s ||
  match s with
  | EmptyString => false
  | String _ s' => contains sub s'
  end.

(** [s.replace(old, new)] for a non-empty [old]: every occurrence, from
    the left, without overlap.  [skip] counts the characters of a match
    that are still to be dropped. *)
Fixpoint replace_from (old new : string) (skip : nat) (s : string) : string :=
  match s with
  | EmptyString => EmptyString
  | String ch s' =>
      match skip with
      | S k => replace_from old new k s'
      | O =>
          if String.prefix old s
          then new ++ replace_from old new (String.length old - 1) s'
          else String ch (replace_from old new 0 s')
      end
  end.
Definition replace (s old new : string) : string := replace_from old new 0 s.

(** [os.path.join(dir, name)] and [dir / name] *)
Definition join (dir name : string) : string := dir ++ "/" ++ name.

(** [Path(p).name]: what follows the last slash. *)
Fixpoint name (p : string) : string :=
  match p with
  | EmptyString => EmptyString
  | String ch p' =>
      if Ascii.eqb ch "/" || contains "/" p' then name p' else p
  end.

(** [Path(p).parent] for a path with a slash: what precedes the last
    slash. *)
Fixpoint parent (p : string) : string :=
  match p with
  | EmptyString => EmptyString
  | String ch p' => if contains "/" p' then String ch (parent p') else EmptyString
  end.

(** [p[len(prefix):]] when [p] starts with [prefix]. *)
Fixpoint strip_prefix (prefix p : string) : option string :=
  match prefix, p with
  | EmptyString, _ => Some p
  | String a prefix', String b p' =>
      if Ascii.eqb a b then strip_prefix prefix' p' else None
  | String _ _, EmptyString => None
  end.

(** A dictionary, in insertion order. *)
Abbreviation dict V := (list (string * V)).

Fixpoint get {V} (d : dict V) (k : string) : option V :=
  match d with
  | [] => None
  | (k', v) :: d' => if String.eqb k' k then Some v else get d' k
  end.

(** [d[k] = v]: a present key keeps its place. *)
Fixpoint set {V} (d : dict V) (k : string) (v : V) : dict V :=
  match d with
  | [] => [(k, v)]
  | (k', v') :: d' =>
      if String.eqb k' k then (k', v) :: d' else (k', v') :: set d' k v
  end.

Definition keys {V} (d : dict V) : list string := map fst d.
Definition values {V} (d : dict V) : list V := map snd d.
Definition items {V} (d : dict V) : list (string * V) := d.
Definition len {V} (d : dict V) : nat := length d.

End py.

(** ** rasterio *)

Module rasterio.

(** An opaque spatial reference, here by its EPSG code. *)
Inductive CRS : Type := EPSG (code : N).
#[export] Instance CRS_eq_dec : EqDecision CRS.
Proof. solve_decision. Defined.

Definition from_epsg (code : N) : CRS := EPSG code.

(** The six coefficients [(a, b, c, d, e, f)] of an affine transform:
    [x = a * col + b * row + c], [y = d * col + e * row + f]. *)
Record Affine : Type := mkAffine {
  a : float; b : float; c : float; d : float; e : float; f : float }.

(** [transform * (col, row)] *)
Definition apply (t : Affine) (vx vy : float) : float * float :=
  (F64.add (F64.add (F64.mul vx (a t)) (F64.mul vy (b t))) (c t),
   F64.add (F64.add (F64.mul vx (d t)) (F64.mul vy (e t))) (f t)).

(** [BoundingBox(left, bottom, right, top)], unpacked by the sources as
    [west, south, east, north]. *)
Record Bounds : Type := mkBounds {
  west : float; south : float; east : float; north : float }.

(** The keyword arguments of [rasterio.open(path, 'w', ...)], which are
    also what [src.profile] returns. *)
Record Profile : Type := mkProfile {
  driver : string;
  dtype : string;
  nodata : option float;
  width : nat;
  height : nat;
  crs : option CRS;
  transform : Affine }.

Definition update_dtype (p : Profile) (dt : string) : Profile :=
  mkProfile (driver p) dt (nodata p) (width p) (height p) (crs p) (transform p).

(** A raster file of one band.  Width and height are those of the
    sample array. *)
Record Dataset : Type := mkDataset {
  ds_driver : string;
  ds_dtype : string;
  ds_nodata : option float;
  ds_crs : option CRS;
  ds_transform : Affine;
  samples : ndarray float }.

Definition ds_height (src : Dataset) : nat := length (samples src).
Definition ds_width (src : Dataset) : nat := length (hd [] (samples src)).

(** [src.profile] *)
Definition profile (src : Dataset) : Profile :=
  mkProfile (ds_driver src) (ds_dtype src) (ds_nodata src)
            (ds_width src) (ds_height src) (ds_crs src) (ds_transform src).

(** [src.bounds], as rasterio computes it from the transform, the width
    and the height: the extent of the pixel grid in the dataset's CRS. *)
Definition bounds (src : Dataset) : Bounds :=
  let t := ds_transform src in
  let w := F64.of_nat (ds_width src) in
  let h := F64.of_nat (ds_height src) in
  if F64.eqb (b t) (d t) && F64.eqb (d t) F64.zero then
    mkBounds (c t) (F64.add (f t) (F64.mul (e t) h))
             (F64.add (c t) (F64.mul (a t) w)) (f t)
  else
    let '(c0x, c0y) := (c t, f t) in
    let '(c1x, c1y) := apply t F64.zero h in
    let '(c2x, c2y) := apply t w h in
    let '(c3x, c3y) := apply t w F64.zero in
    mkBounds (F64.py_min4 c0x c1x c2x c3x) (F64.py_min4 c0y c1y c2y c3y)
             (F64.py_max4 c0x c1x c2x c3x) (F64.py_max4 c0y c1y c2y c3y).

Inductive File : Type :=
| Raster (src : Dataset)
| NotARaster.

Inductive Resampling : Type := nearest | bilinear | cubic.

(** What PROJ and GDAL carry out.  [reproject] fills the destination
    array it is given, which keeps its shape: what it returns here is the
    value stored in each cell.  [create] is [rasterio.open(path, 'w',
    **profile)] in a file system: GDAL accepts or refuses the path and
    the profile, and decides what the path holds once the call has
    returned or raised ([None]: no file). *)
Class Warp : Type := {
  transform_bounds : option CRS -> CRS -> Bounds -> result Bounds;
  reproject :
    forall (source : ndarray float) (destination : ndarray float)
           (src_transform : Affine) (src_crs : option CRS)
           (dst_transform : Affine) (dst_crs : option CRS)
           (resampling : Resampling),
      result (nat -> nat -> float);
  create : gmap string File -> string -> Profile -> option File * result unit }.

End rasterio.

(** ** matplotlib *)

Module plt.

(** [plt.figure(figsize=(10, 8))], [plt.imshow(data, cmap="RdYlGn")],
    [plt.colorbar(label="NDVI")], [plt.title("NDVI")],
    [plt.savefig(path, dpi=300, bbox_inches='tight')] and [plt.close()]
    in a file system: what the path holds afterwards ([None]: no file),
    and whether one of the calls raised. *)
Class Pyplot : Type := {
  savefig : gmap string rasterio.File -> string -> ndarray float
            -> option rasterio.File * result unit }.

End plt.

(** ** The world the programs run in *)

(** What the programs print. *)
Inductive Message : Type :=
(* georeference_analysis.AlignmentChecker.check *)
| OnlyOneBandFound
| SpatialAlignmentCheck (ref_band : string)
| SpatiallyMisaligned (band_name : string)
| BoundsDifferBy (max_diff : float)
| ShapeVersus (ref_shape band_shape : nat * nat)
| AllBandsAligned
(* band_aligner.BandAligner *)
| AligningToMatch (band_file reference_file : string)
| SavedFile (output_file : string)
| SceneNotFound (scene_name : string)
| ReferenceBandNotFound (reference_band scene_name : string)
| AligningScene (scene_name reference_band : string)
| CopyingReference (band_name : string)
| FoundScenesToAlign (n : nat)
| OutputDirectory (output_dir : string)
| Rule
| SceneAligned (scene_name : string)
| ErrorAligningScene (scene_name : string) (e : Exn)
(* vegetation-ortho-aligned.py *)
| FoundScenesWithAlignment (n : nat)
| ProcessingScene (i n : nat) (scene_name : string)
| NoMatchingB5 (red_file : string)
| UsingB4AsReference
| CopyingReferenceB4
| CalculatingNdviFromAligned
| NdviSaved (ndvi_output : string)
(* vegetation-ortho.py *)
| UsingAlignedBands (dir : string)
| UsingOriginalBands (dir : string)
| FoundScenes (n : nat)
| LoadingRedBand (red_file : string)
| LoadingNirBand (nir_file : string)
| CalculatingNdvi
| NdviInValidRange (lo hi : float)
| SavingNdviRaster (j : nat)
| NdviPlotSaved (j : nat)
(* georeference_analysis.AlignmentChecker.check_crs *)
| CrsConsistencyCheck (ref_band : string)
| ReferenceCrs (ref_crs : option rasterio.CRS)
| DifferentCrs (band_name : string) (band_crs : option rasterio.CRS)
| SameCrs (band_name : string)
| AllBandsConsistentCrs
| CrsMismatchesDetected
(* georeference_analysis.AlignmentChecker.check_raw_bounds *)
| RawCoordinateBounds
| Dashes (n : nat)
| BandHeading (band_name : string)
| BandCrs (band_crs : option rasterio.CRS)
| RawBounds (bounds : rasterio.Bounds)
| DifferenceFrom (ref_band : string) (max_diff : float)
| BlankLine
| RawBoundsNote
(* tests/alignment_testing.py, TestSuite.test_scene_alignment *)
| TestingSceneAlignment
| BandsTested (band_names : list string)
| BasicAlignment (is_aligned : bool)
| CrsConsistencySection
| SpatialAlignmentSection
| RawBoundsCheckSection.

(** The calls that leave the program. *)
Inductive Call : Type :=
| OpenRead (path : string)
| OpenWrite (path : string)
| TransformBounds (src_crs : option rasterio.CRS) (b : rasterio.Bounds)
| Reproject (source : ndarray float) (src_transform : rasterio.Affine)
            (src_crs : option rasterio.CRS) (dst_transform : rasterio.Affine)
            (dst_crs : option rasterio.CRS)
| SaveFig (path : string).

Record World : Type := mkWorld {
  files : gmap string rasterio.File;
  stdout : list Message;
  calls : list Call }.

Definition IO (A : Type) : Type := World -> World * result A.

Definition io_ret {A} (a : A) : IO A := fun w => (w, Ok a).

(** Sequencing: an exception ends the computation, and what was done
    before it stays done. *)
Definition io_bind {A B} (m : IO A) (k : A -> IO B) : IO B := fun w =>
  match m w with
  | (w', Ok a) => k a w'
  | (w', Raise e) => (w', Raise e)
  end.

Declare Scope io_scope.
Delimit Scope io_scope with io.
Notation "x ← y ; z" := (io_bind y (fun x => z))
  (at level 20, y at level 100, z at level 200, only parsing) : io_scope.
Notation "x ;; z" := (io_bind x (fun _ => z))
  (at level 100, z at level 200, only parsing, right associativity) : io_scope.
Local Open Scope io_scope.

Definition print (m : Message) : IO unit := fun w =>
  (mkWorld (files w) (stdout w ++ [m]) (calls w), Ok tt).

Definition called (c : Call) : IO unit := fun w =>
  (mkWorld (files w) (stdout w) (calls w ++ [c]), Ok tt).

(** A pure computation that may raise. *)
Definition lift {A} (r : result A) : IO A := fun w => (w, r).

(** [try: body  except Exception as e: handler(e)] *)
Definition try_except {A} (body : IO A) (handler : Exn -> IO A) : IO A := fun w =>
  match body w with
  | (w', Ok a) => (w', Ok a)
  | (w', Raise e) => handler e w'
  end.

(** [with rasterio.open(path) as src] *)
Definition rasterio_open (path : string) : IO rasterio.Dataset :=
  called (OpenRead path);;
  fun w =>
    match files w !! path with
    | Some (rasterio.Raster src) => (w, Ok src)
    | _ => (w, Raise (RasterioIOError path))
    end.

Definition dataset_of (p : rasterio.Profile) (data : ndarray float) : rasterio.Dataset :=
  rasterio.mkDataset (rasterio.driver p) (rasterio.dtype p) (rasterio.nodata p)
                     (rasterio.crs p) (rasterio.transform p) data.

(** [rasterio.open(path, 'w', **profile)]: the path holds what GDAL
    left there, whether the call returns or raises. *)
Definition rasterio_create `{W : rasterio.Warp} (path : string)
    (p : rasterio.Profile) : IO unit :=
  called (OpenWrite path);;
  fun w =>
    let opened := rasterio.create (files w) path p in
    (mkWorld (partial_alter (fun _ => opened.1) path (files w))
             (stdout w) (calls w), opened.2).

(** [dst.write(data, 1)] on the dataset opened with profile [p] under
    [path], and the end of the [with] block.  The array has the height
    and width of the profile wherever these programs write one, and the
    file then holds it; an array of another shape is taken to be refused,
    and the file stays as the open left it. *)
Definition dst_write (path : string) (p : rasterio.Profile)
    (data : ndarray float) : IO unit := fun w =>
  if decide (np.shape data = (rasterio.height p, rasterio.width p)) then
    (mkWorld (<[path := rasterio.Raster (dataset_of p data)]> (files w))
             (stdout w) (calls w), Ok tt)
  else (w, Raise ValueError).

(** [with rasterio.open(path, 'w', **profile) as dst: dst.write(data, 1)] *)
Definition rasterio_write `{W : rasterio.Warp} (path : string)
    (p : rasterio.Profile) (data : ndarray float) : IO unit :=
  rasterio_create path p;;
  dst_write path p data.

(** The figure of [data], from [plt.figure] to [plt.close], saved under
    [path]. *)
Definition plt_savefig `{P : plt.Pyplot} (path : string)
    (data : ndarray float) : IO unit :=
  called (SaveFig path);;
  fun w =>
    let saved := plt.savefig (files w) path data in
    (mkWorld (partial_alter (fun _ => saved.1) path (files w))
             (stdout w) (calls w), saved.2).

(** [Path(p).exists()] *)
Definition path_exists (p : string) : IO bool := fun w =>
  (w, Ok (bool_decide (is_Some (files w !! p)))).

(** The names in directory [dir], in the order the system yields them. *)
Definition entries (fs : gmap string rasterio.File) (dir : string) : list string :=
  omap (fun '(p, _) =>
          match py.strip_prefix (dir ++ "/") p with
          | Some n => if py.contains "/" n then None else Some n
          | None => None
          end)
       (map_to_list fs).

(** [os.listdir(dir)] *)
Definition listdir (dir : string) : IO (list string) := fun w =>
  (w, Ok (entries (files w) dir)).

(** ** [src/georeference_analysis.py] *)

Module georeference_analysis.

Import rasterio.

(** The dictionary returned by [GeoInfo.get_info]. *)
Record Info : Type := mkInfo {
  info_file : string;
  info_crs : option CRS;
  bounds_wgs84 : Bounds;
  center_wgs84 : float * float;
  shape : nat * nat;
  pixel_size : float * float }.

(** [==] on two tuples of four floats; [!=] is its negation.  The floats
    of two calls of [get_info] are distinct objects, so the comparison is
    that of their values. *)
Definition bounds_eq (x y : Bounds) : bool :=
  F64.eqb (west x) (west y) && F64.eqb (south x) (south y) &&
  F64.eqb (east x) (east y) && F64.eqb (north x) (north y).

Definition shape_eq (x y : nat * nat) : bool := bool_decide (x = y).

Section with_warp.

Context `{W : Warp}.

(** [GeoInfo(filepath).get_info()] *)
Definition get_info (filepath : string) : IO Info :=
  src ← rasterio_open filepath;
  bw ← (if negb (bool_decide (ds_crs src = Some (from_epsg 4326))) then
          called (TransformBounds (ds_crs src) (bounds src));;
          lift (transform_bounds (ds_crs src) (from_epsg 4326) (bounds src))
        else io_ret (bounds src));
  io_ret (mkInfo (py.name filepath)
                 (ds_crs src)
                 bw
                 (F64.div (F64.add (west bw) (east bw)) F64.two,
                  F64.div (F64.add (south bw) (north bw)) F64.two)
                 (ds_height src, ds_width src)
                 (F64.abs (a (ds_transform src)), F64.abs (e (ds_transform src)))).

(** The loop of [SceneAnalyzer.check_alignment] over the bands after
    the first. *)
Fixpoint others_match (ref_info : Info) (band_files : list string) : IO bool :=
  match band_files with
  | [] => io_ret true
  | band_file :: rest =>
      band_info ← get_info band_file;
      if negb (bounds_eq (bounds_wgs84 band_info) (bounds_wgs84 ref_info))
         || negb (shape_eq (shape band_info) (shape ref_info))
      then io_ret false
      else others_match ref_info rest
  end.

(** [SceneAnalyzer(bands).check_alignment()] *)
Definition check_alignment (bands : py.dict string) : IO bool :=
  if py.len bands <? 2 then io_ret true
  else
    match py.values bands with
    | first_band :: rest =>
        ref_info ← get_info first_band;
        others_match ref_info rest
    | [] => io_ret true
    end.

(** The loop of [AlignmentChecker.check]; the result is [all_aligned]. *)
Fixpoint check_bands (ref_band : string) (ref_info : Info)
    (band_items : list (string * string)) (all_aligned : bool) : IO bool :=
  match band_items with
  | [] => io_ret all_aligned
  | (band_name, band_file) :: rest =>
      if String.eqb band_name ref_band then
        check_bands ref_band ref_info rest all_aligned
      else
        band_info ← get_info band_file;
        let bounds_match :=
          bounds_eq (bounds_wgs84 ref_info) (bounds_wgs84 band_info) in
        let shape_match := shape_eq (shape ref_info) (shape band_info) in
        if negb (bounds_match && shape_match) then
          print (SpatiallyMisaligned band_name);;
          let ref_bounds := bounds_wgs84 ref_info in
          let band_bounds := bounds_wgs84 band_info in
          let max_diff :=
            F64.py_max4
              (F64.abs (F64.sub (west ref_bounds) (west band_bounds)))
              (F64.abs (F64.sub (south ref_bounds) (south band_bounds)))
              (F64.abs (F64.sub (east ref_bounds) (east band_bounds)))
              (F64.abs (F64.sub (north ref_bounds) (north band_bounds))) in
          print (BoundsDifferBy max_diff);;
          (if negb (shape_eq (shape ref_info) (shape band_info))
           then print (ShapeVersus (shape ref_info) (shape band_info))
           else io_ret tt);;
          check_bands ref_band ref_info rest false
        else check_bands ref_band ref_info rest all_aligned
  end.

(** [AlignmentChecker(bands).check()] *)
Definition check (bands : py.dict string) : IO unit :=
  if py.len bands <? 2 then print OnlyOneBandFound
  else
    match py.items bands with
    | (ref_band, ref_file) :: _ =>
        ref_info ← get_info ref_file;
        print (SpatialAlignmentCheck ref_band);;
        all_aligned ← check_bands ref_band ref_info (py.items bands) true;
        if all_aligned then print AllBandsAligned else io_ret tt
    | [] => io_ret tt
    end.

(** The dictionary returned by [SceneAnalyzer.get_summary]:
    [{'error': ...}], or the three entries ['bands_found'],
    ['bands_aligned'] and ['georeference']. *)
Inductive Summary : Type :=
| SummaryError (error : string)
| SummaryOf (bands_found : list string) (bands_aligned : bool)
            (georeference : Info).

(** [SceneAnalyzer(bands).get_summary()] *)
Definition get_summary (bands : py.dict string) : IO Summary :=
  match py.values bands with
  | [] => io_ret (SummaryError "No bands found")
  | first_band :: _ =>
      geo_info ← get_info first_band;
      let bands_found := py.keys bands in
      bands_aligned ← check_alignment bands;
      io_ret (SummaryOf bands_found bands_aligned geo_info)
  end.

(** The loop of [AlignmentChecker.check_crs]; the result is
    [crs_consistent].  The ['crs'] entries are the strings of two CRS,
    which are equal exactly when the CRS are, a CRS being given by its
    EPSG code. *)
Fixpoint check_crs_bands (ref_band : string) (ref_crs : option CRS)
    (band_items : list (string * string)) (crs_consistent : bool) : IO bool :=
  match band_items with
  | [] => io_ret crs_consistent
  | (band_name, band_file) :: rest =>
      if String.eqb band_name ref_band then
        check_crs_bands ref_band ref_crs rest crs_consistent
      else
        band_info ← get_info band_file;
        if negb (bool_decide (info_crs band_info = ref_crs)) then
          print (DifferentCrs band_name (info_crs band_info));;
          check_crs_bands ref_band ref_crs rest false
        else
          print (SameCrs band_name);;
          check_crs_bands ref_band ref_crs rest crs_consistent
  end.

(** [AlignmentChecker(bands).check_crs()] *)
Definition check_crs (bands : py.dict string) : IO unit :=
  if py.len bands <? 2 then print OnlyOneBandFound
  else
    match py.items bands with
    | (ref_band, ref_file) :: _ =>
        ref_info ← get_info ref_file;
        let ref_crs := info_crs ref_info in
        print (CrsConsistencyCheck ref_band);;
        print (ReferenceCrs ref_crs);;
        crs_consistent ← check_crs_bands ref_band ref_crs (py.items bands) true;
        if crs_consistent then print AllBandsConsistentCrs
        else print CrsMismatchesDetected
    | [] => io_ret tt
    end.

(** [max(abs(x.left - y.left), abs(x.bottom - y.bottom),
         abs(x.right - y.right), abs(x.top - y.top))] *)
Definition max_diff (x y : Bounds) : float :=
  F64.py_max4 (F64.abs (F64.sub (west x) (west y)))
              (F64.abs (F64.sub (south x) (south y)))
              (F64.abs (F64.sub (east x) (east y)))
              (F64.abs (F64.sub (north x) (north y))).

(** The loop of [AlignmentChecker.check_raw_bounds].  [ref_bounds] is
    [None] until the reference band has been read; a bounding box, being
    a tuple of four, counts as true in [if ref_bounds:]. *)
Fixpoint check_raw_bounds_bands (ref_band : string)
    (band_items : list (string * string)) (ref_bounds : option Bounds)
    : IO unit :=
  match band_items with
  | [] => io_ret tt
  | (band_name, band_file) :: rest =>
      src ← rasterio_open band_file;
      let bounds := bounds src in
      let crs := ds_crs src in
      print (BandHeading band_name);;
      print (BandCrs crs);;
      print (RawBounds bounds);;
      ref_bounds ←
        (if String.eqb band_name ref_band then io_ret (Some bounds)
         else
           match ref_bounds with
           | Some rb =>
               print (DifferenceFrom ref_band (max_diff bounds rb));;
               io_ret ref_bounds
           | None => io_ret ref_bounds
           end);
      print BlankLine;;
      check_raw_bounds_bands ref_band rest ref_bounds
  end.

(** [AlignmentChecker(bands).check_raw_bounds()] *)
Definition check_raw_bounds (bands : py.dict string) : IO unit :=
  if py.len bands <? 2 then print OnlyOneBandFound
  else
    print RawCoordinateBounds;;
    print (Dashes 40);;
    match py.keys bands with
    | ref_band :: _ =>
        check_raw_bounds_bands ref_band (py.items bands) None;;
        print RawBoundsNote
    | [] => lift (Raise IndexError)
    end.

End with_warp.

End georeference_analysis.

(** ** [src/band_aligner.py] *)

Module band_aligner.

Import rasterio.

Record BandAligner : Type := mkBandAligner {
  data_dir : string;
  output_dir : string;
  scenes : py.dict (py.dict string) }.

(** [data_dir.glob("*" + suffix)] *)
Definition glob_suffix (fs : gmap string File) (dir suffix : string) : list string :=
  List.filter (fun n => py.endswith n suffix) (entries fs dir).

(** One turn of the loop of [_find_scenes], for the B4 file of name
    [file_name]. *)
Definition add_scene (fs : gmap string File) (dir : string)
    (scenes : py.dict (py.dict string)) (file_name : string)
    : py.dict (py.dict string) :=
  let scene_name := py.replace file_name "_SR_B4.TIF" "" in
  let scenes := py.set scenes scene_name [("B4", py.join dir file_name)] in
  let b5_file := py.join dir (py.replace file_name "B4.TIF" "B5.TIF") in
  if bool_decide (is_Some (fs !! b5_file)) then
    match py.get scenes scene_name with
    | Some bands => py.set scenes scene_name (py.set bands "B5" b5_file)
    | None => scenes
    end
  else scenes.

(** [BandAligner._find_scenes] *)
Definition _find_scenes (fs : gmap string File) (dir : string)
    : py.dict (py.dict string) :=
  fold_left (add_scene fs dir) (glob_suffix fs dir "_SR_B4.TIF") [].

(** [BandAligner(data_dir, output_dir)]; directories need not be made. *)
Definition __init__ (data_dir : string) (output_dir : option string)
    : IO BandAligner := fun w =>
  let output_dir :=
    match output_dir with
    | Some d => d
    | None => py.join (py.join (py.parent data_dir) "data") "aligned_bands"
    end in
  (w, Ok (mkBandAligner data_dir output_dir (_find_scenes (files w) data_dir))).

(** The name of the aligned file of a band. *)
Definition aligned_name (scene_name band_name : string) : string :=
  scene_name ++ "_" ++ band_name ++ "_aligned.TIF".

Section with_warp.

Context `{W : Warp}.

(** [BandAligner.align_band_to_reference] *)
Definition align_band_to_reference
    (band_file reference_file output_file : string) : IO unit :=
  print (AligningToMatch (py.name band_file) (py.name reference_file));;
  ref ← rasterio_open reference_file;
  let ref_transform := ds_transform ref in
  let ref_crs := ds_crs ref in
  let ref_width := ds_width ref in
  let ref_height := ds_height ref in
  src ← rasterio_open band_file;
  let aligned_data := np.zeros ref_height ref_width in
  called (Reproject (samples src) (ds_transform src) (ds_crs src)
                    ref_transform ref_crs);;
  filled ← lift (reproject (samples src) aligned_data
                           (ds_transform src) (ds_crs src)
                           ref_transform ref_crs bilinear);
  let aligned_data := np.tabulate ref_height ref_width filled in
  let profile := update_dtype (profile ref) (ds_dtype src) in
  rasterio_write output_file profile aligned_data;;
  print (SavedFile (py.name output_file)).

(** The loop of [align_scene] over the bands of the scene. *)
Fixpoint align_bands (self : BandAligner) (scene_name reference_band : string)
    (reference_file : string) (band_items : list (string * string))
    (aligned_files : py.dict string) : IO (py.dict string) :=
  match band_items with
  | [] => io_ret aligned_files
  | (band_name, band_file) :: rest =>
      let aligned_file :=
        py.join (output_dir self) (aligned_name scene_name band_name) in
      (if String.eqb band_name reference_band then
         print (CopyingReference band_name);;
         src ← rasterio_open band_file;
         rasterio_write aligned_file (profile src) (samples src);;
         print (SavedFile (py.name aligned_file))
       else
         align_band_to_reference band_file reference_file aligned_file);;
      align_bands self scene_name reference_band reference_file rest
                  (py.set aligned_files band_name aligned_file)
  end.

(** [BandAligner.align_scene]; [None] is Python's [None]. *)
Definition align_scene (self : BandAligner) (scene_name reference_band : string)
    : IO (option (py.dict string)) :=
  match py.get (scenes self) scene_name with
  | None => print (SceneNotFound scene_name);; io_ret None
  | Some scene_bands =>
      match py.get scene_bands reference_band with
      | None =>
          print (ReferenceBandNotFound reference_band scene_name);;
          io_ret None
      | Some reference_file =>
          print (AligningScene scene_name reference_band);;
          aligned_files ← align_bands self scene_name reference_band
                            reference_file (py.items scene_bands) [];
          io_ret (Some aligned_files)
      end
  end.

(** The loop of [align_all_scenes]. *)
Fixpoint align_each (self : BandAligner) (reference_band : string)
    (scene_names : list string)
    (aligned_scenes : py.dict (option (py.dict string)))
    : IO (py.dict (option (py.dict string))) :=
  match scene_names with
  | [] => io_ret aligned_scenes
  | scene_name :: rest =>
      aligned_scenes ←
        try_except
          (aligned_files ← align_scene self scene_name reference_band;
           let aligned_scenes := py.set aligned_scenes scene_name aligned_files in
           print (SceneAligned scene_name);;
           io_ret aligned_scenes)
          (fun e =>
             print (ErrorAligningScene scene_name e);;
             io_ret aligned_scenes);
      align_each self reference_band rest aligned_scenes
  end.

(** [BandAligner.align_all_scenes] *)
Definition align_all_scenes (self : BandAligner) (reference_band : string)
    : IO (py.dict (option (py.dict string))) :=
  print (FoundScenesToAlign (py.len (scenes self)));;
  print (OutputDirectory (output_dir self));;
  print Rule;;
  align_each self reference_band (py.keys (scenes self)) [].

End with_warp.

(** The loop of [get_aligned_scene_paths] over the band labels. *)
Fixpoint aligned_paths_of (self : BandAligner) (scene_name : string)
    (bands : list string) (aligned_paths : py.dict string)
    : IO (py.dict string) :=
  match bands with
  | [] => io_ret aligned_paths
  | band :: rest =>
      let aligned_file :=
        py.join (output_dir self) (aligned_name scene_name band) in
      found ← path_exists aligned_file;
      aligned_paths_of self scene_name rest
        (if found then py.set aligned_paths band aligned_file
         else aligned_paths)
  end.

(** [BandAligner.get_aligned_scene_paths] *)
Definition get_aligned_scene_paths (self : BandAligner) (scene_name : string)
    : IO (py.dict string) :=
  aligned_paths_of self scene_name ["B4"; "B5"] [].

End band_aligner.

(** ** [src/vegetation-ortho-aligned.py] *)

Module vegetation_ortho_aligned.

Import rasterio.

Definition float32 : string := "float32".

Section with_warp.

Context `{W : Warp}.

(** [align_band_to_reference] *)
Definition align_band_to_reference
    (band_file reference_file output_file : string) : IO unit :=
  print (AligningToMatch (py.name band_file) (py.name reference_file));;
  ref ← rasterio_open reference_file;
  let ref_transform := ds_transform ref in
  let ref_crs := ds_crs ref in
  let ref_width := ds_width ref in
  let ref_height := ds_height ref in
  src ← rasterio_open band_file;
  let aligned_data := np.zeros ref_height ref_width in
  called (Reproject (samples src) (ds_transform src) (ds_crs src)
                    ref_transform ref_crs);;
  filled ← lift (reproject (samples src) aligned_data
                           (ds_transform src) (ds_crs src)
                           ref_transform ref_crs bilinear);
  let aligned_data := np.tabulate ref_height ref_width filled in
  rasterio_write output_file
    (mkProfile "GTiff" (ds_dtype src) None ref_width ref_height
               ref_crs ref_transform)
    aligned_data;;
  print (SavedFile output_file).

(** One turn of the loop of [process_aligned_ndvi]; [continue] ends the
    turn. *)
Definition process_scene (output_dir aligned_dir : string) (i n : nat)
    (red_path : string) : IO unit :=
  let scene_name := py.replace (py.name red_path) "_SR_B4.TIF" "" in
  print (ProcessingScene (i + 1) n scene_name);;
  let nir_path := py.replace red_path "B4.TIF" "B5.TIF" in
  found ← path_exists nir_path;
  if negb found then print (NoMatchingB5 (py.name red_path))
  else
    let aligned_red := py.join aligned_dir (scene_name ++ "_B4_aligned.TIF") in
    let aligned_nir := py.join aligned_dir (scene_name ++ "_B5_aligned.TIF") in
    print UsingB4AsReference;;
    align_band_to_reference nir_path red_path aligned_nir;;
    print CopyingReferenceB4;;
    src ← rasterio_open red_path;
    rasterio_write aligned_red (profile src) (samples src);;
    print CalculatingNdviFromAligned;;
    red_src ← rasterio_open aligned_red;
    let red := samples red_src in
    let profile := profile red_src in
    nir_src ← rasterio_open aligned_nir;
    let nir := samples nir_src in
    ndvi ← lift (ndvi_where nir red);
    let ndvi_output := py.join output_dir ("ndvi_aligned_" ++ scene_name ++ ".tif") in
    let profile := update_dtype profile float32 in
    rasterio_write ndvi_output profile (np.astype_float32 ndvi);;
    print (NdviSaved ndvi_output).

Fixpoint process_scenes (output_dir aligned_dir : string) (i n : nat)
    (b4_files : list string) : IO unit :=
  match b4_files with
  | [] => io_ret tt
  | red_path :: rest =>
      process_scene output_dir aligned_dir i n red_path;;
      process_scenes output_dir aligned_dir (S i) n rest
  end.

(** [process_aligned_ndvi()], [ROOT] being the repository root. *)
Definition process_aligned_ndvi (ROOT : string) : IO unit :=
  let data_filepath := py.join (py.join ROOT "src") "usgs_data" in
  let output_dir := py.join ROOT "data" in
  let aligned_dir := py.join output_dir "aligned_bands" in
  names ← listdir data_filepath;
  let b4_files :=
    map (py.join data_filepath)
        (List.filter (fun f => py.contains "B4" f && py.endswith f ".TIF")
                     names) in
  print (FoundScenesWithAlignment (length b4_files));;
  process_scenes output_dir aligned_dir 0 (length b4_files) b4_files.

End with_warp.

End vegetation_ortho_aligned.

(** ** [src/vegetation-ortho.py] *)

Module vegetation_ortho.

Import rasterio.

Section with_libraries.

Context `{W : Warp} `{P : plt.Pyplot}.

(** One turn of the loop over [b4_files].  The index is written under the
    number [j] of the turn, and so is the plot, which the source names
    [j-1] after it has added one to [j].  Directories are no part of the
    file system here: [os.makedirs('data', exist_ok=True)] has nothing to
    do. *)
Definition scene (use_aligned : bool) (n j : nat) (red_path : string) : IO unit :=
  print (ProcessingScene j n (py.name red_path));;
  let nir_path :=
    if use_aligned then py.replace red_path "_B4_aligned.TIF" "_B5_aligned.TIF"
    else py.replace red_path "B4.TIF" "B5.TIF" in
  print (LoadingRedBand (py.name red_path));;
  red_src ← rasterio_open red_path;
  let red := samples red_src in
  let profile := profile red_src in
  print (LoadingNirBand (py.name nir_path));;
  nir_src ← rasterio_open nir_path;
  let nir := samples nir_src in
  print CalculatingNdvi;;
  ndvi ← lift (ndvi_asserted nir red);
  lo ← lift (np.nanmin ndvi);
  hi ← lift (np.nanmax ndvi);
  print (NdviInValidRange lo hi);;
  let profile := update_dtype profile vegetation_ortho_aligned.float32 in
  print (SavingNdviRaster j);;
  rasterio_write ("data/ndvi_" ++ pretty j ++ ".tif") profile
                 (np.astype_float32 ndvi);;
  plt_savefig ("data/ndvi_plot_" ++ pretty j ++ ".png") ndvi;;
  print (NdviPlotSaved j).

Fixpoint scenes (use_aligned : bool) (n j : nat) (b4_files : list string) : IO unit :=
  match b4_files with
  | [] => io_ret tt
  | red_path :: rest =>
      scene use_aligned n j red_path;;
      scenes use_aligned n (j + 1) rest
  end.

(** The script, [ROOT] being the repository root. *)
Definition main (ROOT : string) : IO unit :=
  let data_filepath := py.join (py.join ROOT "src") "usgs_data" in
  let aligned_filepath := py.join (py.join ROOT "data") "aligned_bands" in
  aligned_names ← listdir aligned_filepath;
  let use_aligned :=
    existsb (fun n => py.endswith n "_aligned.TIF") aligned_names in
  (if use_aligned then print (UsingAlignedBands aligned_filepath)
   else print (UsingOriginalBands data_filepath));;
  let data_source := if use_aligned then aligned_filepath else data_filepath in
  names ← listdir data_source;
  let b4_files :=
    map (py.join data_source)
        (List.filter (fun f => py.endswith f ".TIF" && py.contains "B4" f)
                     names) in
  let b4_files :=
    List.filter (fun f => if use_aligned then py.contains "_aligned.TIF" f
                          else negb (py.contains "_aligned.TIF" f))
                b4_files in
  print (FoundScenes (length b4_files));;
  scenes use_aligned (length b4_files) 1 b4_files.

End with_libraries.

End vegetation_ortho.

(** ** [vegetation-ortho.py] at the root of the repository *)

Module vegetation_ortho_root.

Import rasterio.

Definition data_filepath : string := "/tree/data".

Section with_libraries.

Context `{W : Warp} `{P : plt.Pyplot}.

(** One turn of the loop over [b4_files].  The index is written under the
    number [j] of the turn, and so is the plot, which the source names
    [j-1] after it has added one to [j]; the plot is that of the clipped
    index.  Directories are no part of the file system here:
    [os.makedirs('data', exist_ok=True)] has nothing to do. *)
Definition scene (n j : nat) (red_path : string) : IO unit :=
  print (ProcessingScene (j + 1) n (py.name red_path));;
  let nir_path := py.replace red_path "B4.TIF" "B5.TIF" in
  print (LoadingRedBand (py.name red_path));;
  red_src ← rasterio_open red_path;
  let red := samples red_src in
  let profile := profile red_src in
  print (LoadingNirBand (py.name nir_path));;
  nir_src ← rasterio_open nir_path;
  let nir := samples nir_src in
  print CalculatingNdvi;;
  ndvi ← lift (ndvi_clipped nir red);
  let profile := update_dtype profile vegetation_ortho_aligned.float32 in
  print (SavingNdviRaster j);;
  rasterio_write ("data/ndvi_" ++ pretty j ++ ".tif") profile
                 (np.astype_float32 ndvi);;
  plt_savefig ("data/ndvi_plot_" ++ pretty j ++ ".png") ndvi.

Fixpoint scenes (n j : nat) (b4_files : list string) : IO unit :=
  match b4_files with
  | [] => io_ret tt
  | red_path :: rest => scene n j red_path;; scenes n (j + 1) rest
  end.

Definition main : IO unit :=
  names ← listdir data_filepath;
  let b4_files :=
    map (py.join data_filepath)
        (List.filter (fun f => py.contains "B4" f && py.endswith f ".TIF")
                     names) in
  print (FoundScenes (length b4_files));;
  scenes (length b4_files) 1 b4_files.

End with_libraries.

End vegetation_ortho_root.

(** ** [tests/alignment_testing.py] *)

Module alignment_testing.

(** An entry of [TestSuite.results]. *)
Record TestResult : Type := mkTestResult {
  scene : list string;
  aligned : bool;
  bands_count : nat }.

Section with_warp.

Context `{W : rasterio.Warp}.

(** [TestSuite.test_scene_alignment]: what it returns, and [self.results]
    after the call. *)
Definition test_scene_alignment (results : list TestResult)
    (scene_bands : py.dict string) : IO (bool * list TestResult) :=
  print TestingSceneAlignment;;
  print (BandsTested (py.keys scene_bands));;
  is_aligned ← georeference_analysis.check_alignment scene_bands;
  print (BasicAlignment is_aligned);;
  print CrsConsistencySection;;
  georeference_analysis.check_crs scene_bands;;
  print SpatialAlignmentSection;;
  georeference_analysis.check scene_bands;;
  print RawBoundsCheckSection;;
  georeference_analysis.check_raw_bounds scene_bands;;
  let result :=
    mkTestResult (py.keys scene_bands) is_aligned (py.len scene_bands) in
  io_ret (is_aligned, (results ++ [result])%list).

End with_warp.

End alignment_testing.

(** ** Notions used in the statements *)

(** The grid of a dataset: CRS, transform, width and height. *)
Definition grid (src : rasterio.Dataset)
    : option rasterio.CRS * rasterio.Affine * nat * nat :=
  (rasterio.ds_crs src, rasterio.ds_transform src,
   rasterio.ds_width src, rasterio.ds_height src).

(** None of the four bounds is NaN. *)
Definition bounds_are_numbers (b : rasterio.Bounds) : Prop :=
  F64.isnan (rasterio.west b) = false /\ F64.isnan (rasterio.south b) = false /\
  F64.isnan (rasterio.east b) = false /\ F64.isnan (rasterio.north b) = false.

(** The verdict that [align_all_scenes] prints for a scene: aligned, or
    the exception that stopped it. *)
Definition verdict (m : Message) : option (string * option Exn) :=
  match m with
  | SceneAligned scene_name => Some (scene_name, None)
  | ErrorAligningScene scene_name e => Some (scene_name, Some e)
  | _ => None
  end.
Definition verdicts (out : list Message) : list (string * option Exn) :=
  omap verdict out.


(** The messages with which [AlignmentChecker.check] reports one band. *)
Definition misaligned_report (ref_info band_info : georeference_analysis.Info)
    (band_name : string) : list Message :=
  let ref_bounds := georeference_analysis.bounds_wgs84 ref_info in
  let band_bounds := georeference_analysis.bounds_wgs84 band_info in
  [SpatiallyMisaligned band_name;
   BoundsDifferBy
     (F64.py_max4
        (F64.abs (F64.sub (rasterio.west ref_bounds) (rasterio.west band_bounds)))
        (F64.abs (F64.sub (rasterio.south ref_bounds) (rasterio.south band_bounds)))
        (F64.abs (F64.sub (rasterio.east ref_bounds) (rasterio.east band_bounds)))
        (F64.abs (F64.sub (rasterio.north ref_bounds) (rasterio.north band_bounds))))]
  ++ (if georeference_analysis.shape_eq (georeference_analysis.shape ref_info)
                                        (georeference_analysis.shape band_info)
      then []
      else [ShapeVersus (georeference_analysis.shape ref_info)
                        (georeference_analysis.shape band_info)]).

(** A band passes when its bounds are equal to those of the reference,
    float by float, and its shape is the same. *)
Definition passes (ref_info band_info : georeference_analysis.Info) : Prop :=
  georeference_analysis.bounds_eq
    (georeference_analysis.bounds_wgs84 band_info)
    (georeference_analysis.bounds_wgs84 ref_info) = true /\
  georeference_analysis.shape band_info = georeference_analysis.shape ref_info.

(** What [_find_scenes] records for a scene: it comes from an existing
    file whose name ends in [_SR_B4.TIF], which is its B4 band. *)
Definition from_B4_file (fs : gmap string rasterio.File) (dir : string)
    (scene_name : string) (bands : py.dict string) : Prop :=
  exists file_name,
    py.endswith file_name "_SR_B4.TIF" = true /\
    is_Some (fs !! py.join dir file_name) /\
    scene_name = py.replace file_name "_SR_B4.TIF" "" /\
    py.get bands "B4" = Some (py.join dir file_name).

(** A computation is quiet when all it does to the output is to append
    messages that are not verdicts on a scene. *)
Definition quiet {A} (m : IO A) : Prop :=
  forall w, exists out,
    stdout (m w).1 = (stdout w ++ out)%list /\ verdicts out = [].

(** The dataset that an alignment to [ref] writes under profile [p]. *)
Definition aligned_dataset (p : rasterio.Profile) (ref : rasterio.Dataset)
    (filled : nat -> nat -> float) : rasterio.Dataset :=
  dataset_of p (np.tabulate (rasterio.ds_height ref) (rasterio.ds_width ref) filled).

(** The exception, if any, with which the block of a write ends: that of
    the open, or that of [dst.write]. *)
Definition write_refused `{W : rasterio.Warp} (fs : gmap string rasterio.File)
    (path : string) (p : rasterio.Profile) (data : ndarray float) : option Exn :=
  match (rasterio.create fs path p).2 with
  | Raise e => Some e
  | Ok _ =>
      if decide (np.shape data = (rasterio.height p, rasterio.width p))
      then None else Some ValueError
  end.


(** [q] is [-p]: both are NaN, or [q == -p]. *)
Definition negation_of (p q : float) : Prop :=
  F64.isnan p = true /\ F64.isnan q = true \/ F64.eqb q (SFopp p) = true.

(** None of the four bounds is NaN or infinite. *)
Definition bounds_are_finite (b : rasterio.Bounds) : Prop :=
  F64.isfinite (rasterio.west b) = true /\ F64.isfinite (rasterio.south b) = true /\
  F64.isfinite (rasterio.east b) = true /\ F64.isfinite (rasterio.north b) = true.

(** The lines that [check_raw_bounds] prints for a band after the
    first. *)
Definition raw_bounds_lines (ref_band : string) (ref_bounds : rasterio.Bounds)
    (band_name : string) (src : rasterio.Dataset) : list Message :=
  [BandHeading band_name; BandCrs (rasterio.ds_crs src);
   RawBounds (rasterio.bounds src);
   DifferenceFrom ref_band
     (georeference_analysis.max_diff (rasterio.bounds src) ref_bounds);
   BlankLine].

(** A computation prints only messages of a kind, whatever it returns. *)
Definition prints_only {A} (P : Message -> Prop) (m : IO A) : Prop :=
  forall w, exists out,
    stdout (m w).1 = (stdout w ++ out)%list /\ Forall P out.

(** A computation writes only files whose path is of a kind, whatever it
    returns: every other path holds what it held. *)
Definition writes_only {A} (P : string -> Prop) (m : IO A) : Prop :=
  forall w p, ~ P p -> files (m w).1 !! p = files w !! p.

(** ** The alignment rule in the words of the specification *)

Module spec.

(** "a fixed tolerance (default 1e-6 degrees)" *)
Definition tolerance : float := Eval cbv in F64.div F64.one (F64.of_Z 1000000).

Definition within_tolerance (x y : float) : bool :=
  F64.leb (F64.abs (F64.sub x y)) tolerance.

(** "A band is aligned iff both its WGS84 bounds match the reference
    within a fixed tolerance AND its shape matches exactly." *)
Definition aligned (ref_info band_info : georeference_analysis.Info) : bool :=
  let r := georeference_analysis.bounds_wgs84 ref_info in
  let x := georeference_analysis.bounds_wgs84 band_info in
  within_tolerance (rasterio.west x) (rasterio.west r) &&
  within_tolerance (rasterio.south x) (rasterio.south r) &&
  within_tolerance (rasterio.east x) (rasterio.east r) &&
  within_tolerance (rasterio.north x) (rasterio.north r) &&
  georeference_analysis.shape_eq (georeference_analysis.shape band_info)
                                 (georeference_analysis.shape ref_info).

End spec.

(** ** Sample scenes *)

Module sample.

Import rasterio.

(** A stand-in for PROJ and GDAL: bounds of a known CRS are passed on as
    they are, and a warp copies the source cell of the same row and
    column, 0 where there is none.  A dataset without rows or columns
    cannot be created, and the path is left as it was; any other is
    created full of zeros. *)
Definition cell_copy : Warp := {|
  transform_bounds src_crs _ b :=
    match src_crs with Some _ => Ok b | None => Raise CRSError end;
  reproject source _ _ _ _ _ _ :=
    Ok (fun i j => np.item F64.zero source i j);
  create fs path p :=
    if (width p =? 0) || (height p =? 0)
    then (fs !! path, Raise (RasterioIOError path))
    else (Some (Raster (dataset_of p (np.zeros (height p) (width p)))), Ok tt) |}.

(** A stand-in for matplotlib: the figure of an array with a cell is
    saved as a file that is no raster; an array without cells cannot be
    drawn, and the path is left as it was. *)
Definition png_writer : plt.Pyplot := {|
  plt.savefig := fun fs path data =>
    match np.shape data with
    | (0, _) | (_, 0) => (fs !! path, Raise ValueError)
    | _ => (Some NotARaster, Ok tt)
    end |}.

Definition band (l : list (list Z)) : ndarray float := map (map F64.of_Z) l.

(** 30 m pixels, north up, in UTM zone 13N. *)
Definition utm_grid : Affine :=
  mkAffine (F64.of_Z 30) F64.zero (F64.of_Z 500000)
           F64.zero (F64.of_Z (-30)) (F64.of_Z 4000000).
Definition utm : option CRS := Some (EPSG 32613).

Definition b4 : Dataset :=
  mkDataset "GTiff" "uint16" None utm utm_grid (band [[100; 100]; [100; 100]]%Z).
Definition b5 : Dataset :=
  mkDataset "GTiff" "uint16" None utm utm_grid (band [[300; 300]; [300; 300]]%Z).

(** The same pixels, the origin moved east by 15 m. *)
Definition shifted_grid : Affine :=
  mkAffine (F64.of_Z 30) F64.zero (F64.of_Z 500015)
           F64.zero (F64.of_Z (-30)) (F64.of_Z 4000000).
Definition b5_shifted : Dataset :=
  mkDataset "GTiff" "uint16" None utm shifted_grid (band [[300; 300]; [300; 300]]%Z).

(** Two bands in WGS84 whose origins differ by 1e-7 degrees. *)
Definition pixel : float := Eval cbv in F64.div F64.one (F64.of_Z 4096).
Definition neg_pixel : float := Eval cbv in F64.div F64.neg_one (F64.of_Z 4096).
Definition nudge : float := Eval cbv in F64.div F64.one (F64.of_Z 10000000).
Definition wgs_grid : Affine :=
  mkAffine pixel F64.zero (F64.of_Z 10) F64.zero neg_pixel (F64.of_Z 45).
Definition nudged_grid : Affine :=
  mkAffine pixel F64.zero (F64.add (F64.of_Z 10) nudge)
           F64.zero neg_pixel (F64.of_Z 45).
Definition g4 : Dataset :=
  mkDataset "GTiff" "uint16" None (Some (from_epsg 4326)) wgs_grid
            (band [[100; 100]; [100; 100]]%Z).
Definition g5 : Dataset :=
  mkDataset "GTiff" "uint16" None (Some (from_epsg 4326)) nudged_grid
            (band [[300; 300]; [300; 300]]%Z).

Definition world_of (l : list (string * File)) : World :=
  mkWorld (list_to_map l) [] [].

(** One complete scene, and the B4 file of a scene that cannot be read. *)
Definition usgs : World :=
  world_of [("usgs_data/LC08_SR_B4.TIF", Raster b4);
            ("usgs_data/LC08_SR_B5.TIF", Raster b5);
            ("usgs_data/LC09_SR_B4.TIF", NotARaster)].

(** A scene whose B5 band lies on another grid. *)
Definition usgs_shifted : World :=
  world_of [("usgs_data/LC08_SR_B4.TIF", Raster b4);
            ("usgs_data/LC08_SR_B5.TIF", Raster b5_shifted)].

Definition degrees : World :=
  world_of [("deg/S_B4.TIF", Raster g4); ("deg/S_B5.TIF", Raster g5)].
(** The aligner that [BandAligner("usgs_data", "out")] builds in [usgs]. *)
Definition aligner : band_aligner.BandAligner :=
  band_aligner.mkBandAligner "usgs_data" "out"
    (band_aligner._find_scenes (files usgs) "usgs_data").

Definition degree_bands : py.dict string :=
  [("B4", "deg/S_B4.TIF"); ("B5", "deg/S_B5.TIF")].

(** A B4 file without its B5 file. *)
Definition lonely : World :=
  world_of [("/src/usgs_data/LC08_SR_B4.TIF", Raster b4)].

Definition empty : World := world_of [].

(** Two complete scenes; the B4 file of the one listed first cannot be
    read. *)
Definition unreadable : World :=
  world_of [("/src/usgs_data/LC08_SR_B4.TIF", Raster b4);
            ("/src/usgs_data/LC08_SR_B5.TIF", Raster b5);
            ("/src/usgs_data/LC09_SR_B4.TIF", NotARaster);
            ("/src/usgs_data/LC09_SR_B5.TIF", Raster b5)].


(** 0.5, as float64 and as float32. *)
Definition half : float := Eval cbv in F64.div F64.one F64.two.
Definition half32 : float := Eval cbv in F64.to_f32 half.

(** Two bands whose first pixel is 0 in both. *)
Definition dark_red : ndarray float := band [[0; 100]]%Z.
Definition dark_nir : ndarray float := band [[0; 300]]%Z.
Definition dark_sum : ndarray float := band [[0; 400]]%Z.

Definition usgs_bands : py.dict string :=
  [("B4", "usgs_data/LC08_SR_B4.TIF"); ("B5", "usgs_data/LC08_SR_B5.TIF")].

End sample.

(* ===================================================================== *)
(** * Part II: theorems                                                   *)
(* ===================================================================== *)

(** ** Order of binary64 values *)

Section float_order.

Local Ltac order_cases :=
  repeat match goal with
    | |- context [(?a ?= ?b)%Z] => destruct (Z.compare_spec a b)
    | |- context [(?a ?= ?b)%positive] => destruct (Pos.compare_spec a b)
    | H : context [(?a ?= ?b)%Z] |- _ => destruct (Z.compare_spec a b)
    | H : context [(?a ?= ?b)%positive] |- _ => destruct (Pos.compare_spec a b)
    end;
  simpl in *; try congruence; try lia.

Local Ltac by_cases x :=
  destruct x as [[]|[]| |[] ? ?]; simpl in *; try congruence.

Lemma f64_leb_trans (x y z : float) :
  F64.leb x y = true -> F64.leb y z = true -> F64.leb x z = true.
Proof.
  unfold F64.leb, SFleb, SFcompare.
  by_cases x; by_cases y; by_cases z;
    change (Pos.compare_cont Eq) with Pos.compare in *;
    intros H1 H2; order_cases.
Qed.

Lemma f64_leb_total (x y : float) :
  F64.isnan x = false -> F64.isnan y = false ->
  F64.leb x y = false -> F64.ltb y x = true.
Proof.
  unfold F64.leb, F64.ltb, SFleb, SFltb, SFcompare.
  by_cases x; by_cases y;
    change (Pos.compare_cont Eq) with Pos.compare in *;
    intros _ _ H; order_cases.
Qed.

Lemma f64_ltb_leb (x y : float) : F64.ltb x y = true -> F64.leb x y = true.
Proof.
  unfold F64.leb, F64.ltb, SFleb, SFltb.
  destruct (SFcompare x y) as [[]|]; congruence.
Qed.

Lemma f64_leb_not_nan (x y : float) :
  F64.leb x y = true -> F64.isnan x = false /\ F64.isnan y = false.
Proof.
  unfold F64.leb, SFleb, SFcompare. by_cases x; by_cases y; auto.
Qed.

Lemma f64_leb_refl (x : float) : F64.isnan x = false -> F64.leb x x = true.
Proof.
  unfold F64.leb, SFleb, SFcompare. by_cases x; intros _;
    change (Pos.compare_cont Eq) with Pos.compare in *;
    rewrite Z.compare_refl, Pos.compare_refl; reflexivity.
Qed.

Lemma f64_eqb_sym (x y : float) : F64.eqb x y = F64.eqb y x.
Proof.
  unfold F64.eqb, SFeqb, SFcompare. by_cases x; by_cases y;
    change (Pos.compare_cont Eq) with Pos.compare in *;
    rewrite (Z.compare_antisym e0 e), (Pos.compare_antisym m0 m);
    destruct (e0 ?= e)%Z, (m0 ?= m)%positive; reflexivity.
Qed.

Lemma f64_eqb_refl (x : float) : F64.isnan x = false -> F64.eqb x x = true.
Proof.
  unfold F64.eqb, SFeqb, SFcompare. by_cases x; intros _;
    change (Pos.compare_cont Eq) with Pos.compare in *;
    rewrite Z.compare_refl, Pos.compare_refl; reflexivity.
Qed.

End float_order.

(** ** Arrays built cell by cell *)

Lemma lookup_map {A B} (f : B -> A) (l : list B) (i : nat) :
  map f l !! i = f <$> (l !! i).
Proof. revert i; induction l as [|b l IH]; intros [|i]; simpl; auto. Qed.

Section tabulate_facts.

Context {A : Type}.
Implicit Types (g : nat -> nat -> A) (x : ndarray A).

Lemma length_tabulate h w g : length (np.tabulate h w g) = h.
Proof. unfold np.tabulate. now rewrite length_map, length_seq. Qed.

Lemma cell_tabulate h w g i j :
  np.cell (np.tabulate h w g) i j =
  if (i <? h) && (j <? w) then Some (g i j) else None.
Proof.
  unfold np.cell, np.tabulate. rewrite lookup_map.
  destruct (Nat.ltb_spec i h) as [Hi|Hi].
  - rewrite lookup_seq_lt by lia. cbn [fmap option_fmap option_map mbind option_bind].
    rewrite lookup_map.
    destruct (Nat.ltb_spec j w) as [Hj|Hj].
    + now rewrite lookup_seq_lt by lia.
    + now rewrite lookup_seq_ge by lia.
  - now rewrite lookup_seq_ge by lia.
Qed.

Lemma cell_tabulate_Some h w g i j v :
  np.cell (np.tabulate h w g) i j = Some v <-> i < h /\ j < w /\ v = g i j.
Proof.
  rewrite cell_tabulate.
  destruct (Nat.ltb_spec i h), (Nat.ltb_spec j w); simpl;
    split; try (intros [= <-]); try (intros (? & ? & ->)); auto; lia.
Qed.

Lemma item_tabulate (d : A) h w g i j :
  i < h -> j < w -> np.item d (np.tabulate h w g) i j = g i j.
Proof.
  intros Hi Hj. unfold np.item, np.tabulate.
  rewrite (nth_indep _ [] (map (g 0) (seq 0 w)))
    by now rewrite length_map, length_seq.
  rewrite (map_nth (fun i => map (g i) (seq 0 w)) (seq 0 h) 0 i).
  rewrite seq_nth by lia. simpl.
  rewrite (nth_indep _ d (g i 0)) by now rewrite length_map, length_seq.
  rewrite (map_nth (g i) (seq 0 w) 0 j).
  now rewrite seq_nth by lia.
Qed.

Lemma shape_tabulate h w g :
  np.shape (np.tabulate h w g) = (h, if h =? 0 then 0 else w).
Proof.
  unfold np.shape. rewrite length_tabulate. f_equal.
  destruct h as [|h]; [reflexivity|].
  unfold np.tabulate. simpl. now rewrite length_map, length_seq.
Qed.

Lemma tabulate_ext h w g g' :
  (forall i j, i < h -> j < w -> g i j = g' i j) ->
  np.tabulate h w g = np.tabulate h w g'.
Proof.
  intros E. unfold np.tabulate.
  apply map_ext_in. intros i Hi. apply in_seq in Hi.
  apply map_ext_in. intros j Hj. apply in_seq in Hj.
  apply E; lia.
Qed.

Lemma tabulate_zero_rows w g : np.tabulate 0 w g = [].
Proof. reflexivity. Qed.

Lemma cell_In x i j (v : A) : np.cell x i j = Some v -> In v (concat x).
Proof.
  unfold np.cell. destruct (x !! i) as [row|] eqn:Hrow; simpl; [|discriminate].
  intros Hv. apply in_concat. exists row. split.
  - apply list_elem_of_In. eapply list_elem_of_lookup_2; eauto.
  - apply list_elem_of_In. eapply list_elem_of_lookup_2; eauto.
Qed.

Lemma In_cell x (v : A) : In v (concat x) -> exists i j, np.cell x i j = Some v.
Proof.
  intros H. apply in_concat in H as (row & Hrow & Hv).
  apply list_elem_of_In, list_elem_of_lookup_1 in Hrow as [i Hi].
  apply list_elem_of_In, list_elem_of_lookup_1 in Hv as [j Hj].
  exists i, j. unfold np.cell. now rewrite Hi.
Qed.

End tabulate_facts.

Lemma map_map_tabulate {A B} (f : A -> B) h w (g : nat -> nat -> A) :
  map (map f) (np.tabulate h w g) = np.tabulate h w (fun i j => f (g i j)).
Proof.
  unfold np.tabulate. rewrite map_map. apply map_ext. intros i.
  now rewrite map_map.
Qed.

Lemma broadcast_dim_same n : np.broadcast_dim n n = Some n.
Proof. unfold np.broadcast_dim. now rewrite Nat.eqb_refl. Qed.

Lemma bidx_lt n i : i < n -> np.bidx n i = i.
Proof. unfold np.bidx. destruct (Nat.eqb_spec n 1); lia. Qed.

(** A ufunc on two arrays of one shape works cell by cell. *)
Lemma ufunc2_tabulate {A B C} (dA : A) (dB : B) (f : A -> B -> C) h w g1 g2 :
  np.ufunc2 dA dB f (np.tabulate h w g1) (np.tabulate h w g2) =
  Ok (np.tabulate h w (fun i j => f (g1 i j) (g2 i j))).
Proof.
  unfold np.ufunc2. rewrite !shape_tabulate, !broadcast_dim_same. f_equal.
  destruct h as [|h]; [reflexivity|]. simpl.
  apply tabulate_ext. intros i j Hi Hj.
  rewrite !bidx_lt by lia. now rewrite !item_tabulate by lia.
Qed.

Lemma setitem_mask_tabulate h w g (gm : nat -> nat -> bool) v :
  np.setitem_mask (np.tabulate h w g) (np.tabulate h w gm) v =
  Ok (np.tabulate h w (fun i j => if gm i j then v else g i j)).
Proof.
  unfold np.setitem_mask. rewrite !shape_tabulate.
  destruct (decide _) as [_|N]; [|congruence]. f_equal.
  rewrite length_tabulate.
  destruct h as [|h]; [reflexivity|].
  unfold np.tabulate at 1. simpl hd. rewrite length_map, length_seq.
  apply tabulate_ext. intros i j Hi Hj. now rewrite !item_tabulate by lia.
Qed.

(** What a successful ufunc returns. *)
Lemma ufunc2_Ok {A B C} (dA : A) (dB : B) (f : A -> B -> C) x y r :
  np.ufunc2 dA dB f x y = Ok r ->
  exists h w,
    np.broadcast_dim (length x) (length y) = Some h /\
    np.broadcast_dim (length (hd [] x)) (length (hd [] y)) = Some w /\
    r = np.tabulate h w (fun i j =>
          f (np.item dA x (np.bidx (length x) i) (np.bidx (length (hd [] x)) j))
            (np.item dB y (np.bidx (length y) i) (np.bidx (length (hd [] y)) j))).
Proof.
  unfold np.ufunc2, np.shape.
  destruct (np.broadcast_dim (length x) (length y)) as [h|]; [|discriminate].
  destruct (np.broadcast_dim _ _) as [w|]; [|discriminate].
  intros [= <-]. eauto.
Qed.

(** ** The normalized difference, cell by cell *)

Lemma bind_Ok {A B} (m : result A) (k : A -> result B) (b : B) :
  (m ≫= k) = Ok b -> exists a, m = Ok a /\ k a = Ok b.
Proof. destruct m as [a|e]; [eauto | discriminate]. Qed.

(** The sum, the difference and both variants of the index exist together
    and are given by the same cell functions. *)
Lemma ndvi_cells (nir red s : ndarray float) :
  np.add nir red = Ok s ->
  exists h w gd gs,
    s = np.tabulate h w gs /\
    np.subtract nir red = Ok (np.tabulate h w gd) /\
    ndvi_where nir red =
      Ok (np.tabulate h w (fun i j =>
            if F64.eqb (gs i j) F64.zero then F64.zero
            else F64.div (gd i j) (gs i j))) /\
    ndvi_masked nir red =
      Ok (np.tabulate h w (fun i j =>
            if F64.eqb (gs i j) F64.zero then F64.nan
            else F64.div (gd i j) (gs i j))).
Proof.
  intros Hs. pose proof Hs as Hs'.
  apply ufunc2_Ok in Hs' as (h & w & Hh & Hw & ->).
  set (gs := fun i j : nat => F64.add _ _) in *.
  pose (gd := fun i j : nat =>
    F64.sub
      (np.item F64.nan nir (np.bidx (length nir) i) (np.bidx (length (hd [] nir)) j))
      (np.item F64.nan red (np.bidx (length red) i) (np.bidx (length (hd [] red)) j))).
  assert (Hd : np.subtract nir red = Ok (np.tabulate h w gd)).
  { unfold np.subtract, np.ufunc2, np.shape. now rewrite Hh, Hw. }
  exists h, w, gd, gs. split; [reflexivity|]. split; [exact Hd|].
  unfold ndvi_where, ndvi_masked. rewrite Hd, Hs.
  unfold mbind, result_bind, np.divide, np.where_scalar, np.equal_scalar.
  rewrite ufunc2_tabulate, map_map_tabulate.
  now rewrite ufunc2_tabulate, setitem_mask_tabulate.
Qed.

(** Without a sum there is no index. *)
Lemma ndvi_needs_sum (nir red : ndarray float) e :
  np.add nir red = Raise e ->
  ndvi_where nir red = Raise ValueError /\ ndvi_masked nir red = Raise ValueError.
Proof.
  unfold ndvi_where, ndvi_masked, np.add, np.subtract, np.ufunc2.
  destruct (np.shape nir) as [hx wx], (np.shape red) as [hy wy].
  destruct (np.broadcast_dim hx hy), (np.broadcast_dim wx wy); try discriminate; auto.
Qed.

(** ** Reductions that skip NaN *)

Lemma fmin_eq (x y : float) :
  np.fmin x y = if F64.leb x y || F64.isnan y then x else y.
Proof. reflexivity. Qed.

Lemma fmax_eq (x y : float) :
  np.fmax x y = if F64.leb y x || F64.isnan y then x else y.
Proof. reflexivity. Qed.

Lemma fmin_reduce_lower (l : list float) (a x : float) :
  In x (a :: l) -> F64.isnan x = false ->
  F64.leb (fold_left np.fmin l a) x = true.
Proof.
  revert a x. induction l as [|y l IH]; intros a x Hin Hx.
  - destruct Hin as [->|[]]. now apply f64_leb_refl.
  - cbn [fold_left]. destruct Hin as [->|[->|Hin]].
    + rewrite fmin_eq. destruct (F64.leb x y || F64.isnan y) eqn:E.
      * apply IH; [now left | assumption].
      * apply orb_false_iff in E as [E1 E2].
        apply f64_leb_trans with y.
        -- apply IH; [now left | assumption].
        -- now apply f64_ltb_leb, f64_leb_total.
    + rewrite fmin_eq, Hx, orb_false_r.
      destruct (F64.leb a x) eqn:E.
      * apply f64_leb_trans with a; [|assumption].
        apply IH; [now left|]. now apply f64_leb_not_nan in E.
      * apply IH; [now left | assumption].
    + apply IH; [now right | assumption].
Qed.

Lemma fmax_reduce_upper (l : list float) (a x : float) :
  In x (a :: l) -> F64.isnan x = false ->
  F64.leb x (fold_left np.fmax l a) = true.
Proof.
  revert a x. induction l as [|y l IH]; intros a x Hin Hx.
  - destruct Hin as [->|[]]. now apply f64_leb_refl.
  - cbn [fold_left]. destruct Hin as [->|[->|Hin]].
    + rewrite fmax_eq. destruct (F64.leb y x || F64.isnan y) eqn:E.
      * apply IH; [now left | assumption].
      * apply orb_false_iff in E as [E1 E2].
        apply f64_leb_trans with y.
        -- now apply f64_ltb_leb, f64_leb_total.
        -- apply IH; [now left | assumption].
    + rewrite fmax_eq, Hx, orb_false_r.
      destruct (F64.leb x a) eqn:E.
      * apply f64_leb_trans with a; [assumption|].
        apply IH; [now left|]. now apply f64_leb_not_nan in E.
      * apply IH; [now left | assumption].
    + apply IH; [now right | assumption].
Qed.

Lemma assert_in_range_Ok (v : float) :
  assert_in_range v = Ok tt <->
  F64.leb F64.neg_one v = true /\ F64.leb v F64.one = true.
Proof.
  unfold assert_in_range.
  destruct (F64.leb F64.neg_one v), (F64.leb v F64.one); simpl;
    split; try discriminate; auto; intros []; discriminate.
Qed.

Lemma assert_in_range_cases (v : float) :
  assert_in_range v = Ok tt \/
  assert_in_range v = Raise (AssertionError out_of_range).
Proof. unfold assert_in_range. destruct (_ && _); auto. Qed.

(** Passing both assertions bounds every cell that is not NaN. *)
Lemma asserted_cells_in_range (v : ndarray float) (lo hi : float) :
  np.nanmin v = Ok lo -> np.nanmax v = Ok hi ->
  assert_in_range lo = Ok tt -> assert_in_range hi = Ok tt ->
  forall p, In p (concat v) -> F64.isnan p = false ->
  F64.leb F64.neg_one p = true /\ F64.leb p F64.one = true.
Proof.
  unfold np.nanmin, np.nanmax.
  destruct (concat v) as [|a l]; [discriminate|].
  intros [= <-] [= <-] Hlo%assert_in_range_Ok Hhi%assert_in_range_Ok p Hp Hnan.
  split.
  - apply f64_leb_trans with (fold_left np.fmin l a); [tauto|].
    now apply fmin_reduce_lower.
  - apply f64_leb_trans with (fold_left np.fmax l a); [|tauto].
    now apply fmax_reduce_upper.
Qed.

Lemma clip1_in_range (x : float) :
  F64.isnan (np.clip1 F64.neg_one F64.one x) = false ->
  F64.leb F64.neg_one (np.clip1 F64.neg_one F64.one x) = true /\
  F64.leb (np.clip1 F64.neg_one F64.one x) F64.one = true.
Proof.
  unfold np.clip1. destruct (F64.isnan x) eqn:Hx; [congruence|]. intros _.
  destruct (F64.gtb x F64.neg_one) eqn:E1.
  - destruct (F64.ltb x F64.one) eqn:E2.
    + split; now apply f64_ltb_leb.
    + split; reflexivity.
  - assert (Hle : F64.leb x F64.neg_one = true).
    { destruct (F64.leb x F64.neg_one) eqn:E; [reflexivity|].
      apply f64_leb_total in E; [|assumption|reflexivity].
      unfold F64.gtb in E1. unfold F64.ltb in E. congruence. }
    change (F64.ltb F64.neg_one F64.one) with true. cbn iota.
    split; reflexivity.
Qed.

(** The asserted index is the masked index, and passed both assertions. *)
Lemma asserted_index_in_range (nir red v out : ndarray float) :
  ndvi_masked nir red = Ok v ->
  ndvi_asserted nir red = Ok out ->
  forall p, In p (concat out) -> F64.isnan p = false ->
  F64.leb F64.neg_one p = true /\ F64.leb p F64.one = true.
Proof.
  intros Hv. unfold ndvi_asserted. rewrite Hv.
  unfold mbind, result_bind.
  destruct (np.nanmin v) as [lo|] eqn:Hlo; [|discriminate].
  destruct (assert_in_range lo) as [[]|] eqn:Hlo'; [|discriminate].
  destruct (np.nanmax v) as [hi|] eqn:Hhi; [|discriminate].
  destruct (assert_in_range hi) as [[]|] eqn:Hhi'; [|discriminate].
  intros [= <-]. eapply asserted_cells_in_range; eauto.
Qed.

(** ** Claims on the index *)

(** C1.  Range of the index.  In [src/vegetation-ortho.py] the index is
    returned only after [np.nanmin] and [np.nanmax] have passed the two
    assertions; then every cell that is not NaN, hence every finite cell,
    lies between -1 and 1.  When a cell of the masked index that is not
    NaN lies outside, the script stops with the [AssertionError]
    "NDVI values out of range".  In the root script the index is clipped,
    and every cell that is not NaN lies between -1 and 1 as well. *)
Theorem ndvi_finite_pixels_in_unit_range (nir red : ndarray float) :
  (forall out i j p,
      ndvi_asserted nir red = Ok out ->
      np.cell out i j = Some p -> F64.isnan p = false ->
      F64.leb F64.neg_one p = true /\ F64.leb p F64.one = true) /\
  (forall v i j p,
      ndvi_masked nir red = Ok v ->
      np.cell v i j = Some p -> F64.isnan p = false ->
      F64.leb F64.neg_one p && F64.leb p F64.one = false ->
      ndvi_asserted nir red = Raise (AssertionError out_of_range)) /\
  (forall out i j p,
      ndvi_clipped nir red = Ok out ->
      np.cell out i j = Some p -> F64.isnan p = false ->
      F64.leb F64.neg_one p = true /\ F64.leb p F64.one = true).
Proof.
  split; [|split].
  - intros out i j p Hout Hp Hnan.
    destruct (ndvi_masked nir red) as [v|e] eqn:Hv.
    + eapply asserted_index_in_range; eauto using cell_In.
    + unfold ndvi_asserted in Hout. rewrite Hv in Hout. discriminate.
  - intros v i j p Hv Hp Hnan Hout.
    destruct (ndvi_asserted nir red) as [out|e] eqn:Ha.
    + assert (out = v) as ->.
      { unfold ndvi_asserted in Ha. rewrite Hv in Ha.
        unfold mbind, result_bind in Ha.
        destruct (np.nanmin v); [|discriminate].
        destruct (assert_in_range _); [|discriminate].
        destruct (np.nanmax v); [|discriminate].
        destruct (assert_in_range _); [|discriminate]. congruence. }
      destruct (asserted_index_in_range _ _ _ _ Hv Ha p (cell_In _ _ _ _ Hp) Hnan)
        as [H1 H2].
      rewrite H1, H2 in Hout. discriminate.
    + unfold ndvi_asserted in Ha. rewrite Hv in Ha.
      unfold mbind, result_bind in Ha.
      apply cell_In in Hp.
      unfold np.nanmin, np.nanmax in Ha.
      destruct (concat v) as [|a l]; [destruct Hp|].
      destruct (assert_in_range_cases (fold_left np.fmin l a)) as [E|E];
        rewrite E in Ha; [|congruence].
      destruct (assert_in_range_cases (fold_left np.fmax l a)) as [E'|E'];
        rewrite E' in Ha; congruence.
  - intros out i j p Hout Hp Hnan.
    unfold ndvi_clipped in Hout.
    destruct (ndvi_masked nir red) as [v|e]; [|discriminate].
    injection Hout as <-.
    apply cell_In in Hp. unfold np.clip in Hp.
    apply in_concat in Hp as (row & Hrow & Hp).
    apply in_map_iff in Hrow as (row0 & <- & _).
    apply in_map_iff in Hp as (x & <- & _).
    now apply clip1_in_range.
Qed.

(** C2.  Fill value.  Whenever the sum [nir + red] exists, both variants
    of the index exist, and at every cell where the sum compares equal to
    0 the index holds the fill value of its script: 0 in
    [process_aligned_ndvi], NaN (assigned, not computed) in the
    [vegetation-ortho.py] scripts.  Bands that are zero everywhere give an
    index that is the fill value everywhere. *)
Theorem zero_sum_pixels_hold_fill_value (nir red s : ndarray float) :
  np.add nir red = Ok s ->
  (exists out, ndvi_where nir red = Ok out /\
     forall i j v, np.cell s i j = Some v -> F64.eqb v F64.zero = true ->
       np.cell out i j = Some F64.zero) /\
  (exists out, ndvi_masked nir red = Ok out /\
     forall i j v, np.cell s i j = Some v -> F64.eqb v F64.zero = true ->
       np.cell out i j = Some F64.nan) /\
  (forall h w,
     ndvi_where (np.zeros h w) (np.zeros h w) =
       Ok (np.tabulate h w (fun _ _ => F64.zero)) /\
     ndvi_masked (np.zeros h w) (np.zeros h w) =
       Ok (np.tabulate h w (fun _ _ => F64.nan))).
Proof.
  intros Hs.
  destruct (ndvi_cells nir red s Hs) as (h & w & gd & gs & -> & _ & Hw & Hm).
  split; [|split].
  - eexists; split; [exact Hw|]. intros i j v Hc Hz.
    apply cell_tabulate_Some in Hc as (Hi & Hj & ->).
    apply cell_tabulate_Some. now rewrite Hz.
  - eexists; split; [exact Hm|]. intros i j v Hc Hz.
    apply cell_tabulate_Some in Hc as (Hi & Hj & ->).
    apply cell_tabulate_Some. now rewrite Hz.
  - intros h' w'.
    unfold ndvi_where, ndvi_masked, np.zeros, np.add, np.subtract, np.divide,
      np.where_scalar, np.equal_scalar, mbind, result_bind.
    rewrite !ufunc2_tabulate, map_map_tabulate.
    now rewrite ufunc2_tabulate, setitem_mask_tabulate.
Qed.

(** ** Reading georeference information *)

Section get_info_facts.

Import rasterio georeference_analysis.
Context `{W : Warp}.

(** The record that [get_info] builds once the WGS84 bounds are known. *)
Lemma get_info_eq (filepath : string) (w : World) :
  get_info filepath w =
  match files w !! filepath with
  | Some (Raster src) =>
      let info bw :=
        mkInfo (py.name filepath) (ds_crs src) bw
          (F64.div (F64.add (west bw) (east bw)) F64.two,
           F64.div (F64.add (south bw) (north bw)) F64.two)
          (ds_height src, ds_width src)
          (F64.abs (a (ds_transform src)), F64.abs (e (ds_transform src))) in
      if bool_decide (ds_crs src = Some (from_epsg 4326)) then
        (mkWorld (files w) (stdout w) (calls w ++ [OpenRead filepath]),
         Ok (info (bounds src)))
      else
        (mkWorld (files w) (stdout w)
           ((calls w ++ [OpenRead filepath]) ++
            [TransformBounds (ds_crs src) (bounds src)]),
         match transform_bounds (ds_crs src) (from_epsg 4326) (bounds src) with
         | Ok bw => Ok (info bw)
         | Raise e => Raise e
         end)
  | _ =>
      (mkWorld (files w) (stdout w) (calls w ++ [OpenRead filepath]),
       Raise (RasterioIOError filepath))
  end.
Proof.
  unfold get_info, io_bind, rasterio_open, called, lift, io_ret. cbn.
  destruct (files w !! filepath) as [[src|]|]; try reflexivity.
  cbn. destruct (bool_decide _); cbn; [reflexivity|].
  destruct (transform_bounds _ _ _); reflexivity.
Qed.

Lemma get_info_files (filepath : string) (w : World) :
  files (get_info filepath w).1 = files w /\
  stdout (get_info filepath w).1 = stdout w.
Proof.
  rewrite get_info_eq.
  destruct (files w !! filepath) as [[src|]|]; cbn; auto.
  destruct (bool_decide _); cbn; auto.
Qed.

(** What [get_info] returns depends on the files only. *)
Lemma get_info_result_ext (filepath : string) (w1 w2 : World) :
  files w1 = files w2 -> (get_info filepath w1).2 = (get_info filepath w2).2.
Proof.
  intros E. rewrite !get_info_eq, E.
  destruct (files w2 !! filepath) as [[src|]|]; cbn; auto.
  destruct (bool_decide _); cbn; auto.
Qed.

(** Datasets on one grid have the same bounds and shape. *)
Lemma get_info_same_grid (p1 p2 : string) (w1 w2 : World) (s1 s2 : Dataset)
    (info1 : Info) :
  files w1 !! p1 = Some (Raster s1) -> files w2 !! p2 = Some (Raster s2) ->
  grid s1 = grid s2 ->
  (get_info p1 w1).2 = Ok info1 ->
  exists info2, (get_info p2 w2).2 = Ok info2 /\
    bounds_wgs84 info2 = bounds_wgs84 info1 /\ shape info2 = shape info1.
Proof.
  intros H1 H2 G. rewrite !get_info_eq, H1, H2. cbn zeta.
  assert (B : bounds s1 = bounds s2).
  { unfold bounds. unfold grid in G. injection G as Hc Ht Hw Hh.
    now rewrite Ht, Hw, Hh. }
  unfold grid in G. injection G as Hc Ht Hw Hh.
  rewrite Hc, Ht, Hw, Hh, B.
  destruct (bool_decide _); cbn.
  - intros [= <-]. eexists; split; [reflexivity|]. auto.
  - destruct (transform_bounds _ _ _); [|discriminate].
    intros [= <-]. eexists; split; [reflexivity|]. auto.
Qed.

End get_info_facts.

(** ** Checking alignment *)

Section alignment_facts.

Import rasterio georeference_analysis.
Context `{W : Warp}.

Lemma passes_dec (ref_info band_info : Info) :
  negb (bounds_eq (bounds_wgs84 band_info) (bounds_wgs84 ref_info))
    || negb (shape_eq (shape band_info) (shape ref_info)) = false <->
  passes ref_info band_info.
Proof.
  unfold passes, shape_eq. rewrite orb_false_iff, !negb_false_iff.
  now rewrite bool_decide_eq_true.
Qed.

Lemma others_match_files (ref_info : Info) (rest : list string) (w : World) :
  files (others_match ref_info rest w).1 = files w /\
  stdout (others_match ref_info rest w).1 = stdout w.
Proof.
  revert w. induction rest as [|band_file rest IH]; intros w; [now cbn|].
  cbn [others_match]. unfold io_bind.
  destruct (get_info_files band_file w) as [Hf Hs].
  destruct (get_info band_file w) as [w1 [band_info|err]]; cbn in *; [|auto].
  destruct (_ || _); cbn; [auto|].
  destruct (IH w1) as [Hf' Hs']. split; congruence.
Qed.

Lemma others_match_true (ref_info : Info) (rest : list string) (w : World) :
  (others_match ref_info rest w).2 = Ok true <->
  Forall (fun band_file => exists band_info,
            (get_info band_file w).2 = Ok band_info /\ passes ref_info band_info)
         rest.
Proof.
  revert w. induction rest as [|band_file rest IH]; intros w.
  - cbn. split; auto.
  - cbn [others_match]. unfold io_bind.
    destruct (get_info_files band_file w) as [Hf _].
    rewrite Forall_cons.
    destruct (get_info band_file w) as [w1 [band_info|err]] eqn:E; cbn in *.
    + destruct (_ || _) eqn:P; cbn.
      * split; [discriminate|]. intros [(bi & [= <-] & HP) _].
        apply passes_dec in HP. congruence.
      * rewrite IH. apply passes_dec in P. split.
        -- intros HF. split; [eauto|].
           eapply Forall_impl; [exact HF|]. cbn. intros f (bi & Hbi & HP).
           exists bi. split; [|exact HP].
           rewrite <- Hbi. now apply get_info_result_ext.
        -- intros [_ HF]. eapply Forall_impl; [exact HF|].
           cbn. intros f (bi & Hbi & HP). exists bi. split; [|exact HP].
           rewrite <- Hbi. now apply get_info_result_ext.
    + split; [discriminate|]. intros [(bi & [=] & _) _].
Qed.

Lemma check_alignment_true (bands : py.dict string) (first_band : string)
    (rest : list string) (w : World) :
  2 <= py.len bands -> py.values bands = first_band :: rest ->
  ((check_alignment bands w).2 = Ok true <->
   exists ref_info, (get_info first_band w).2 = Ok ref_info /\
     Forall (fun band_file => exists band_info,
               (get_info band_file w).2 = Ok band_info /\
               passes ref_info band_info) rest).
Proof.
  intros Hlen Hv. unfold check_alignment. rewrite Hv.
  destruct (Nat.ltb_spec (py.len bands) 2) as [|_]; [lia|].
  unfold io_bind.
  destruct (get_info_files first_band w) as [Hf _].
  destruct (get_info first_band w) as [w1 [ref_info|err]] eqn:E; cbn in *.
  - rewrite others_match_true. split.
    + intros HF. exists ref_info. split; [reflexivity|].
      eapply Forall_impl; [exact HF|]. cbn. intros f (bi & Hbi & HP).
      exists bi. split; [|exact HP]. rewrite <- Hbi.
      now apply get_info_result_ext.
    + intros (ri & [= <-] & HF).
      eapply Forall_impl; [exact HF|]. cbn. intros f (bi & Hbi & HP).
      exists bi. split; [|exact HP]. rewrite <- Hbi.
      now apply get_info_result_ext.
  - split; [discriminate|]. intros (ri & [=] & _).
Qed.

Lemma bounds_eq_sym (x y : Bounds) : bounds_eq x y = bounds_eq y x.
Proof.
  unfold bounds_eq.
  now rewrite (f64_eqb_sym (west x)), (f64_eqb_sym (south x)),
    (f64_eqb_sym (east x)), (f64_eqb_sym (north x)).
Qed.

Lemma passes_dec' (ref_info band_info : Info) :
  bounds_eq (bounds_wgs84 ref_info) (bounds_wgs84 band_info)
    && shape_eq (shape ref_info) (shape band_info) = true <->
  passes ref_info band_info.
Proof.
  unfold passes, shape_eq. rewrite andb_true_iff, bool_decide_eq_true.
  rewrite bounds_eq_sym. intuition congruence.
Qed.

(** The loop of [AlignmentChecker.check] reports a band as misaligned
    exactly when it does not pass. *)
Lemma check_bands_report (ref_band : string) (ref_info : Info)
    (band_items : list (string * string)) (all_aligned : bool) (w : World) :
  (forall name file, In (name, file) band_items -> name <> ref_band ->
     exists info, (get_info file w).2 = Ok info) ->
  exists w' out b,
    check_bands ref_band ref_info band_items all_aligned w = (w', Ok b) /\
    files w' = files w /\ stdout w' = (stdout w ++ out)%list /\
    (forall name, In (SpatiallyMisaligned name) out <->
       exists file info, In (name, file) band_items /\ name <> ref_band /\
         (get_info file w).2 = Ok info /\ ~ passes ref_info info) /\
    ~ In AllBandsAligned out /\
    (b = true <-> all_aligned = true /\
                  forall name, ~ In (SpatiallyMisaligned name) out).
Proof.
  revert all_aligned w.
  induction band_items as [|[band_name band_file] rest IH]; intros acc w Hread.
  - exists w, [], acc. cbn. rewrite app_nil_r.
    split; [reflexivity|]. split; [reflexivity|]. split; [reflexivity|].
    split; [|split].
    + intros name. split; [intros [] | intros (? & ? & [] & _)].
    + intros [].
    + split; [intros ->; split; [reflexivity | intros ? []] | now intros [-> _]].
  - cbn [check_bands].
    destruct (String.eqb_spec band_name ref_band) as [->|Hne].
    + destruct (IH acc w) as (w' & out & b & E & Hf & Hs & Hm & Ha & Hb).
      { intros n f Hin. apply Hread. now right. }
      exists w', out, b.
      split; [exact E|]. split; [exact Hf|]. split; [exact Hs|].
      split; [|split; [exact Ha | exact Hb]].
      intros name. rewrite Hm. split.
      * intros (f & i & Hin & ?). exists f, i. split; [now right | assumption].
      * intros (f & i & [[= -> ->]|Hin] & Hn & Hi & HP); [congruence|].
        exists f, i. auto.
    + destruct (Hread band_name band_file (or_introl eq_refl) Hne)
        as [info Hinfo].
      unfold io_bind at 1.
      destruct (get_info_files band_file w) as [Hf1 Hs1].
      destruct (get_info band_file w) as [w1 r1] eqn:E1. cbn in Hinfo, Hf1, Hs1.
      subst r1.
      assert (Hext : forall f w2, files w2 = files w ->
                (get_info f w2).2 = (get_info f w).2)
        by (intros; now apply get_info_result_ext).
      destruct (bounds_eq _ _ && shape_eq _ _) eqn:P; cbn [negb].
      * apply passes_dec' in P.
        destruct (IH acc w1) as (w' & out & b & E & Hf & Hs & Hm & Ha & Hb).
        { intros n f Hin Hn. rewrite Hext by assumption.
          apply (Hread n f); [now right|assumption]. }
        exists w', out, b.
        split; [exact E|]. split; [congruence|]. split; [congruence|].
        split; [|split; [exact Ha | exact Hb]].
        intros name. rewrite Hm. split.
        -- intros (f & i & Hin & Hn & Hi & HP).
           exists f, i. rewrite Hext in Hi by assumption.
           split; [now right | auto].
        -- intros (f & i & [[= -> ->]|Hin] & Hn & Hi & HP).
           ++ rewrite E1 in Hi. cbn in Hi. injection Hi as <-. tauto.
           ++ exists f, i. rewrite Hext by assumption. auto.
      * assert (HP : ~ passes ref_info info).
        { intros HP%passes_dec'. congruence. }
        destruct (IH false (mkWorld (files w1)
                    (stdout w1 ++ misaligned_report ref_info info band_name)
                    (calls w1)))
          as (w' & out & b & E & Hf & Hs & Hm & Ha & Hb).
        { intros n f Hin Hn. rewrite Hext by (cbn; assumption).
          apply (Hread n f); [now right|assumption]. }
        exists w', (misaligned_report ref_info info band_name ++ out)%list, b.
        cbn in Hf, Hs.
        split.
        { rewrite <- E. unfold io_bind, print, io_ret, misaligned_report. cbn.
          destruct (shape_eq _ _); cbn; rewrite <- ?app_assoc; reflexivity. }
        split; [congruence|].
        split; [rewrite Hs, Hs1, app_assoc; reflexivity|].
        assert (Hrep : forall m, In m (misaligned_report ref_info info band_name) ->
                  m <> AllBandsAligned /\
                  forall name, m = SpatiallyMisaligned name -> name = band_name).
        { intros m Hin. unfold misaligned_report in Hin.
          destruct (shape_eq _ _); cbn in Hin;
            repeat destruct Hin as [<-|Hin]; try destruct Hin;
            (split; [discriminate | intros ? [=]; congruence]). }
        split; [|split].
        -- intros name. rewrite in_app_iff, Hm. split.
           ++ intros [Hin|(f & i & Hin & Hn & Hi & HP')].
              ** exists band_file, info.
                 apply Hrep in Hin as [_ Hin]. rewrite (Hin name eq_refl).
                 rewrite E1. cbn. auto.
              ** exists f, i. rewrite Hext in Hi by (cbn; assumption).
                 split; [now right | auto].
           ++ intros (f & i & [[= -> ->]|Hin] & Hn & Hi & HP').
              ** left. unfold misaligned_report. now left.
              ** right. exists f, i.
                 rewrite Hext by (cbn; assumption). auto.
        -- rewrite in_app_iff. intros [Hin|Hin]; [|tauto].
           now apply Hrep in Hin as [Hin _].
        -- split.
           ++ intros ->. destruct Hb as [Hb _].
              destruct (Hb eq_refl) as [? _]. discriminate.
           ++ intros [_ Hno]. exfalso. apply (Hno band_name).
              apply in_app_iff. left. unfold misaligned_report. now left.
Qed.

End alignment_facts.

(** ** Claims on georeference information and alignment checks *)

Section alignment_claims.

Import rasterio georeference_analysis.
Context `{W : Warp}.

(** C3, as amended.  For a mapping of two or more bands, the first
    being the reference: [SceneAnalyzer.check_alignment] returns [True]
    exactly when the reference and every other band can be read and each
    other band has WGS84 bounds equal to those of the reference, float
    by float, and the same shape; and when all bands can be read,
    [AlignmentChecker.check] prints that a band is spatially misaligned
    exactly when its bounds are not equal in that sense or its shape
    differs, and prints that all bands are aligned exactly when it
    reported none.  No tolerance enters either comparison. *)
Theorem alignment_is_exact_equality (bands : py.dict string)
    (ref_band ref_file : string) (more : list (string * string)) (w : World) :
  bands = (ref_band, ref_file) :: more -> 2 <= py.len bands ->
  ((check_alignment bands w).2 = Ok true <->
     exists ref_info, (get_info ref_file w).2 = Ok ref_info /\
       Forall (fun band_file => exists band_info,
                 (get_info band_file w).2 = Ok band_info /\
                 passes ref_info band_info) (py.values more)) /\
  (forall ref_info,
     (get_info ref_file w).2 = Ok ref_info ->
     (forall name file, In (name, file) more -> name <> ref_band ->
        exists info, (get_info file w).2 = Ok info) ->
     exists out,
       (check bands w).2 = Ok tt /\
       stdout (check bands w).1 = (stdout w ++ out)%list /\
       (forall name, In (SpatiallyMisaligned name) out <->
          exists file info, In (name, file) more /\ name <> ref_band /\
            (get_info file w).2 = Ok info /\ ~ passes ref_info info) /\
       (In AllBandsAligned out <->
          forall name, ~ In (SpatiallyMisaligned name) out)).
Proof.
  intros -> Hlen. split.
  - now apply check_alignment_true.
  - intros ref_info Href Hread.
    destruct (get_info_files ref_file w) as [Hf1 Hs1].
    destruct (get_info ref_file w) as [w1 r1] eqn:E1. cbn in Href, Hf1, Hs1.
    subst r1.
    set (w2 := mkWorld (files w1) (stdout w1 ++ [SpatialAlignmentCheck ref_band])
                       (calls w1)).
    assert (Hext : forall f, (get_info f w2).2 = (get_info f w).2)
      by (intros; now apply get_info_result_ext).
    destruct (check_bands_report ref_band ref_info
                ((ref_band, ref_file) :: more) true w2)
      as (w' & out & b & E & Hf & Hs & Hm & Ha & Hb).
    { intros n f [[= -> ->]|Hin] Hn; [congruence|]. rewrite Hext. eauto. }
    assert (Hm' : forall name, In (SpatiallyMisaligned name) out <->
              exists file info, In (name, file) more /\ name <> ref_band /\
                (get_info file w).2 = Ok info /\ ~ passes ref_info info).
    { intros name. rewrite Hm. split.
      - intros (f & i & [[= -> ->]|Hin] & Hn & Hi & HP); [congruence|].
        exists f, i. rewrite <- Hext. auto.
      - intros (f & i & Hin & Hn & Hi & HP). exists f, i. rewrite Hext.
        split; [now right | auto]. }
    assert (Hcheck : check ((ref_band, ref_file) :: more) w =
              (if b then print AllBandsAligned else io_ret tt) w').
    { unfold check.
      destruct (Nat.ltb_spec (py.len ((ref_band, ref_file) :: more)) 2) as [|_];
        [lia|].
      unfold py.items, io_bind. rewrite E1. cbn [print].
      fold w2. now rewrite E. }
    rewrite Hcheck. cbn in Hs.
    destruct b.
    + exists ([SpatialAlignmentCheck ref_band] ++ out ++ [AllBandsAligned])%list.
      assert (Hiff : forall name,
                In (SpatiallyMisaligned name)
                   ([SpatialAlignmentCheck ref_band] ++ out ++ [AllBandsAligned]) <->
                In (SpatiallyMisaligned name) out).
      { intros name. cbn. rewrite in_app_iff. cbn. intuition discriminate. }
      cbn [print fst snd stdout]. split; [reflexivity|].
      split; [rewrite Hs, Hs1, <- !app_assoc; reflexivity|].
      destruct Hb as [Hb _]. destruct (Hb eq_refl) as [_ Hno].
      split.
      * intros name. now rewrite Hiff.
      * split; [intros _ name; rewrite Hiff; apply Hno|].
        intros _. cbn. right. apply in_app_iff. right. now left.
    + exists ([SpatialAlignmentCheck ref_band] ++ out)%list.
      assert (Hiff : forall name,
                In (SpatiallyMisaligned name)
                   ([SpatialAlignmentCheck ref_band] ++ out) <->
                In (SpatiallyMisaligned name) out).
      { intros name. cbn. intuition discriminate. }
      cbn [io_ret fst snd stdout]. split; [reflexivity|].
      split; [rewrite Hs, Hs1, <- !app_assoc; reflexivity|].
      split.
      * intros name. now rewrite Hiff.
      * split.
        -- cbn. intros [[=]|Hin]. tauto.
        -- intros Hno. exfalso.
           assert (Hfalse : ~ (true = true /\
                     forall name, ~ In (SpatiallyMisaligned name) out)).
           { intros H. apply Hb in H. discriminate. }
           apply Hfalse. split; [reflexivity|]. intros name Hin.
           apply (Hno name). now apply Hiff.
Qed.

(** C7.  For a raster whose CRS is EPSG:4326, [get_info] returns the
    bounds of the dataset as they are, and its only call is the opening
    of the file; for any other CRS the bounds of the dataset are handed
    to [transform_bounds], whose result, or whose exception, is that of
    [get_info]. *)
Theorem wgs84_bounds_are_native_bounds (filepath : string) (src : Dataset)
    (w : World) :
  files w !! filepath = Some (Raster src) ->
  (ds_crs src = Some (from_epsg 4326) ->
     calls (get_info filepath w).1 = (calls w ++ [OpenRead filepath])%list /\
     exists info, (get_info filepath w).2 = Ok info /\
                  bounds_wgs84 info = bounds src) /\
  (ds_crs src <> Some (from_epsg 4326) ->
     calls (get_info filepath w).1 =
       (calls w ++ [OpenRead filepath;
                    TransformBounds (ds_crs src) (bounds src)])%list /\
     match transform_bounds (ds_crs src) (from_epsg 4326) (bounds src) with
     | Ok bw => exists info, (get_info filepath w).2 = Ok info /\
                             bounds_wgs84 info = bw
     | Raise err => (get_info filepath w).2 = Raise err
     end).
Proof.
  intros Hsrc. rewrite get_info_eq, Hsrc. cbn zeta. split; intros Hcrs.
  - rewrite bool_decide_eq_true_2 by assumption. cbn. eauto.
  - rewrite bool_decide_eq_false_2 by assumption. cbn.
    split; [now rewrite <- app_assoc|].
    destruct (transform_bounds _ _ _); cbn; eauto.
Qed.

(** C10.  With fewer than two bands [check_alignment] returns [True]
    and leaves the world as it was: no file is opened, whatever the file
    system holds. *)
Theorem few_bands_are_aligned (bands : py.dict string) (w : World) :
  py.len bands < 2 -> check_alignment bands w = (w, Ok true).
Proof.
  intros Hlen. unfold check_alignment.
  destruct (Nat.ltb_spec (py.len bands) 2); [reflexivity | lia].
Qed.

End alignment_claims.

(** C3, counterexample.  Two bands in EPSG:4326 with equal shapes whose
    origins differ by 1e-7 degrees: within the tolerance of 1e-6 degrees,
    yet [check_alignment] returns [False] and [check] reports the band as
    misaligned. *)
Lemma tolerance_is_not_applied :
  exists ref_info band_info,
    (georeference_analysis.get_info (W := sample.cell_copy)
       "deg/S_B4.TIF" sample.degrees).2 = Ok ref_info /\
    (georeference_analysis.get_info (W := sample.cell_copy)
       "deg/S_B5.TIF" sample.degrees).2 = Ok band_info /\
    spec.aligned ref_info band_info = true /\
    (georeference_analysis.check_alignment (W := sample.cell_copy)
       sample.degree_bands sample.degrees).2 = Ok false /\
    In (SpatiallyMisaligned "B5")
       (stdout (georeference_analysis.check (W := sample.cell_copy)
                  sample.degree_bands sample.degrees).1).
Proof.
  eexists _, _. split; [vm_compute; reflexivity|].
  split; [vm_compute; reflexivity|].
  split; [vm_compute; reflexivity|].
  split; [vm_compute; reflexivity|].
  vm_compute. right. left. reflexivity.
Qed.

(** ** Scene discovery *)

Section dictionaries.

Context {V : Type}.
Implicit Types (d : py.dict V) (k : string) (v : V).

Lemma get_set_eq d k v : py.get (py.set d k v) k = Some v.
Proof.
  induction d as [|[k' v'] d IH]; cbn.
  - now rewrite String.eqb_refl.
  - destruct (String.eqb_spec k' k) as [->|Hne]; cbn.
    + now rewrite String.eqb_refl.
    + apply String.eqb_neq in Hne. now rewrite Hne.
Qed.

Lemma get_set_ne d k k' v : k <> k' -> py.get (py.set d k v) k' = py.get d k'.
Proof.
  intros Hne. induction d as [|[k0 v0] d IH]; cbn.
  - apply String.eqb_neq in Hne. now rewrite Hne.
  - destruct (String.eqb_spec k0 k) as [->|Hne0]; cbn.
    + apply String.eqb_neq in Hne. now rewrite Hne.
    + now rewrite IH.
Qed.

Lemma In_set d k v k' v' :
  In (k', v') (py.set d k v) -> (k' = k /\ v' = v) \/ In (k', v') d.
Proof.
  induction d as [|[k0 v0] d IH]; cbn.
  - intros [[= <- <-]|[]]. now left.
  - destruct (String.eqb_spec k0 k) as [->|Hne]; cbn.
    + intros [[= <- <-]|Hin]; auto.
    + intros [E|Hin]; auto. apply IH in Hin. tauto.
Qed.

Lemma get_is_Some_set d k k' v :
  is_Some (py.get (py.set d k v) k') <-> k' = k \/ is_Some (py.get d k').
Proof.
  destruct (string_dec k k') as [->|Hne].
  - rewrite get_set_eq. split; eauto.
  - rewrite get_set_ne by assumption. intuition congruence.
Qed.

Lemma keys_set_fresh d k v :
  py.get d k = None -> py.keys (py.set d k v) = (py.keys d ++ [k])%list.
Proof.
  induction d as [|[k0 v0] d IH]; cbn; [reflexivity|].
  destruct (String.eqb k0 k); [discriminate|]. intros H. cbn.
  unfold py.keys in IH. now rewrite IH.
Qed.

End dictionaries.

Lemma string_app_assoc (x y z : string) : (x ++ y) ++ z = x ++ (y ++ z).
Proof.
  induction x as [|ch x IH]; [reflexivity|].
  change (String ch ((x ++ y) ++ z) = String ch (x ++ (y ++ z))). now f_equal.
Qed.

Lemma strip_prefix_Some (prefix p n : string) :
  py.strip_prefix prefix p = Some n -> p = prefix ++ n.
Proof.
  revert p. induction prefix as [|ch prefix IH]; intros p; cbn.
  - now intros [= ->].
  - destruct p as [|ch' p]; [discriminate|].
    destruct (Ascii.eqb_spec ch ch') as [->|]; [|discriminate].
    intros H. now rewrite (IH _ H).
Qed.

(** A listed name is the name of a file of the directory. *)
Lemma entries_exist (fs : gmap string rasterio.File) (dir n : string) :
  In n (entries fs dir) -> is_Some (fs !! py.join dir n).
Proof.
  unfold entries. intros Hin. apply list_elem_of_In, list_elem_of_omap in Hin.
  destruct Hin as ([p file] & Hp & Hn).
  apply elem_of_map_to_list in Hp.
  destruct (py.strip_prefix (dir ++ "/") p) as [n'|] eqn:E; [|discriminate].
  destruct (py.contains "/" n'); [discriminate|]. injection Hn as ->.
  apply strip_prefix_Some in E. unfold py.join.
  rewrite <- string_app_assoc, <- E, Hp. eauto.
Qed.

Section find_scenes.

Import rasterio band_aligner.

Lemma add_scene_invariant fs dir scenes file_name :
  In file_name (glob_suffix fs dir "_SR_B4.TIF") ->
  (forall k v, In (k, v) scenes -> from_B4_file fs dir k v) ->
  forall k v, In (k, v) (add_scene fs dir scenes file_name) ->
              from_B4_file fs dir k v.
Proof.
  intros Hglob Hinv k v.
  apply filter_In in Hglob as [Hentry Hsuffix].
  apply entries_exist in Hentry.
  assert (Hnew : forall b5, from_B4_file fs dir
            (py.replace file_name "_SR_B4.TIF" "")
            (py.set [("B4", py.join dir file_name)] "B5" b5)).
  { intros b5. exists file_name. repeat split; auto. }
  assert (Hnew' : from_B4_file fs dir
            (py.replace file_name "_SR_B4.TIF" "")
            [("B4", py.join dir file_name)]).
  { exists file_name. repeat split; auto. }
  unfold add_scene. destruct (bool_decide _).
  - rewrite get_set_eq.
    intros [[-> ->]|[[-> ->]|Hin]%In_set]%In_set; auto.
  - intros [[-> ->]|Hin]%In_set; auto.
Qed.

Lemma find_scenes_invariant fs dir names scenes :
  (forall n, In n names -> In n (glob_suffix fs dir "_SR_B4.TIF")) ->
  (forall k v, In (k, v) scenes -> from_B4_file fs dir k v) ->
  forall k v, In (k, v) (fold_left (add_scene fs dir) names scenes) ->
              from_B4_file fs dir k v.
Proof.
  revert scenes. induction names as [|n names IH]; intros scenes Hn Hinv;
    cbn [fold_left]; [exact Hinv|].
  apply IH; [intros; apply Hn; now right|].
  apply add_scene_invariant; [apply Hn; now left | exact Hinv].
Qed.

(** C9.  Every scene that [_find_scenes] returns has a B4 band: the
    scene is named after an existing file of the data directory whose
    name ends in [_SR_B4.TIF], and that file is its B4 band.  A file that
    does not match, a B5 file in particular, names no scene. *)
Theorem every_scene_has_B4 (fs : gmap string File) (dir : string)
    (scene_name : string) (bands : py.dict string) :
  In (scene_name, bands) (_find_scenes fs dir) ->
  exists file_name,
    py.endswith file_name "_SR_B4.TIF" = true /\
    is_Some (fs !! py.join dir file_name) /\
    scene_name = py.replace file_name "_SR_B4.TIF" "" /\
    py.get bands "B4" = Some (py.join dir file_name).
Proof.
  unfold _find_scenes. apply find_scenes_invariant; [auto|].
  intros k v [].
Qed.

End find_scenes.

(** ** Steps of a computation *)

Section steps.

Context {B : Type} `{W : rasterio.Warp} `{P : plt.Pyplot}.

Lemma bind_ret {A} (a : A) (k : A -> IO B) (w : World) :
  io_bind (io_ret a) k w = k a w.
Proof. reflexivity. Qed.

Lemma bind_print (m : Message) (k : unit -> IO B) (w : World) :
  io_bind (print m) k w = k tt (mkWorld (files w) (stdout w ++ [m]) (calls w)).
Proof. reflexivity. Qed.

Lemma bind_called (c : Call) (k : unit -> IO B) (w : World) :
  io_bind (called c) k w = k tt (mkWorld (files w) (stdout w) (calls w ++ [c])).
Proof. reflexivity. Qed.

Lemma bind_lift {A} (r : result A) (k : A -> IO B) (w : World) :
  io_bind (lift r) k w =
  match r with Ok a => k a w | Raise e => (w, Raise e) end.
Proof. unfold io_bind, lift. now destruct r. Qed.

Lemma bind_open (path : string) (k : rasterio.Dataset -> IO B) (w : World) :
  io_bind (rasterio_open path) k w =
  match files w !! path with
  | Some (rasterio.Raster src) =>
      k src (mkWorld (files w) (stdout w) (calls w ++ [OpenRead path]))
  | _ => (mkWorld (files w) (stdout w) (calls w ++ [OpenRead path]),
          Raise (RasterioIOError path))
  end.
Proof.
  unfold io_bind, rasterio_open, called. cbn.
  now destruct (files w !! path) as [[src|]|].
Qed.

Lemma insert_partial_alter (fs : gmap string rasterio.File) (path : string)
    (f : option rasterio.File) (x : rasterio.File) :
  <[path := x]> (partial_alter (fun _ => f) path fs) = <[path := x]> fs.
Proof.
  unfold insert, map_insert. now rewrite partial_alter_partial_alter_eq.
Qed.

Lemma bind_write (path : string) (p : rasterio.Profile) (data : ndarray float)
    (k : unit -> IO B) (w : World) :
  io_bind (rasterio_write path p data) k w =
  match write_refused (files w) path p data with
  | None =>
      k tt (mkWorld (<[path := rasterio.Raster (dataset_of p data)]> (files w))
                    (stdout w) (calls w ++ [OpenWrite path]))
  | Some e =>
      (mkWorld (partial_alter (fun _ => (rasterio.create (files w) path p).1)
                              path (files w))
               (stdout w) (calls w ++ [OpenWrite path]), Raise e)
  end.
Proof.
  unfold io_bind, rasterio_write, rasterio_create, dst_write, called,
    write_refused.
  cbn. destruct (rasterio.create (files w) path p) as [f [[]|e]]; cbn;
    [|reflexivity].
  destruct (decide _); cbn; [|reflexivity].
  now rewrite insert_partial_alter.
Qed.

Lemma bind_savefig (path : string) (data : ndarray float)
    (k : unit -> IO B) (w : World) :
  io_bind (plt_savefig path data) k w =
  match (plt.savefig (files w) path data).2 with
  | Ok _ =>
      k tt (mkWorld (partial_alter (fun _ => (plt.savefig (files w) path data).1)
                                   path (files w))
                    (stdout w) (calls w ++ [SaveFig path]))
  | Raise e =>
      (mkWorld (partial_alter (fun _ => (plt.savefig (files w) path data).1)
                              path (files w))
               (stdout w) (calls w ++ [SaveFig path]), Raise e)
  end.
Proof.
  unfold io_bind, plt_savefig, called. cbn.
  now destruct (plt.savefig (files w) path data) as [f [[]|e]].
Qed.

Lemma bind_exists (path : string) (k : bool -> IO B) (w : World) :
  io_bind (path_exists path) k w =
  k (bool_decide (is_Some (files w !! path))) w.
Proof. reflexivity. Qed.

Lemma bind_run {A} (m : IO A) (k : A -> IO B) (w w1 : World) (a : A) :
  m w = (w1, Ok a) -> io_bind m k w = k a w1.
Proof. intros E. unfold io_bind. now rewrite E. Qed.

Lemma bind_run_Raise {A} (m : IO A) (k : A -> IO B) (w w1 : World) (e : Exn) :
  m w = (w1, Raise e) -> io_bind m k w = (w1, Raise e).
Proof. intros E. unfold io_bind. now rewrite E. Qed.

(** A sequence that ends normally is made of two parts that do. *)
Lemma bind_Ok_inv {A} (m : IO A) (k : A -> IO B) (w w' : World) (b : B) :
  io_bind m k w = (w', Ok b) ->
  exists w1 a, m w = (w1, Ok a) /\ k a w1 = (w', Ok b).
Proof.
  unfold io_bind. destruct (m w) as [w1 [a|e]]; [eauto | discriminate].
Qed.

Lemma bind_bind {A A'} (m : IO A) (f : A -> IO A') (k : A' -> IO B) (w : World) :
  io_bind (io_bind m f) k w = io_bind m (fun a => io_bind (f a) k) w.
Proof. unfold io_bind. now destruct (m w) as [w1 [a|e]]. Qed.

End steps.

Lemma write_eq `{W : rasterio.Warp} (path : string) (p : rasterio.Profile)
    (data : ndarray float) (w : World) :
  rasterio_write path p data w =
  match write_refused (files w) path p data with
  | None =>
      (mkWorld (<[path := rasterio.Raster (dataset_of p data)]> (files w))
               (stdout w) (calls w ++ [OpenWrite path]), Ok tt)
  | Some e =>
      (mkWorld (partial_alter (fun _ => (rasterio.create (files w) path p).1)
                              path (files w))
               (stdout w) (calls w ++ [OpenWrite path]), Raise e)
  end.
Proof.
  rewrite <- (bind_write path p data io_ret w). unfold io_bind, io_ret.
  now destruct (rasterio_write path p data w) as [w1 [[]|e]].
Qed.

Lemma savefig_eq `{P : plt.Pyplot} (path : string) (data : ndarray float)
    (w : World) :
  plt_savefig path data w =
  (mkWorld (partial_alter (fun _ => (plt.savefig (files w) path data).1)
                          path (files w))
           (stdout w) (calls w ++ [SaveFig path]),
   (plt.savefig (files w) path data).2).
Proof. reflexivity. Qed.

Ltac io_step :=
  first [ rewrite bind_bind | rewrite bind_print | rewrite bind_called
        | rewrite bind_ret | rewrite bind_lift | rewrite bind_open
        | rewrite bind_write | rewrite bind_savefig | rewrite bind_exists
        | rewrite write_eq | rewrite savefig_eq ];
  cbn [files stdout calls].

Ltac io_step_in H :=
  first [ rewrite bind_bind in H | rewrite bind_print in H
        | rewrite bind_called in H | rewrite bind_ret in H
        | rewrite bind_lift in H | rewrite bind_open in H
        | rewrite bind_write in H | rewrite bind_savefig in H
        | rewrite bind_exists in H | rewrite write_eq in H
        | rewrite savefig_eq in H ];
  cbn [files stdout calls] in H.

(** ** Aligning one band *)

Lemma shape_tabulate_of_shape {A B} (x : ndarray A) (g : nat -> nat -> B) :
  np.shape (np.tabulate (length x) (length (hd [] x)) g) =
  (length x, length (hd [] x)).
Proof.
  rewrite shape_tabulate. destruct x; reflexivity.
Qed.

Lemma dataset_of_profile (src : rasterio.Dataset) :
  dataset_of (rasterio.profile src) (rasterio.samples src) = src.
Proof. now destruct src. Qed.

Section align_band_facts.

Import rasterio.
Context `{W : Warp}.

(** All that a successful [BandAligner.align_band_to_reference] does. *)
Lemma class_align_Ok (band_file reference_file output_file : string)
    (w w' : World) :
  band_aligner.align_band_to_reference band_file reference_file output_file w
    = (w', Ok tt) ->
  exists ref src filled,
    files w !! reference_file = Some (Raster ref) /\
    files w !! band_file = Some (Raster src) /\
    reproject (samples src) (np.zeros (ds_height ref) (ds_width ref))
              (ds_transform src) (ds_crs src) (ds_transform ref) (ds_crs ref)
              bilinear = Ok filled /\
    files w' =
      <[output_file :=
          Raster (aligned_dataset (update_dtype (profile ref) (ds_dtype src))
                                  ref filled)]> (files w) /\
    stdout w' =
      (stdout w ++ [AligningToMatch (py.name band_file) (py.name reference_file);
                    SavedFile (py.name output_file)])%list /\
    calls w' =
      (calls w ++ [OpenRead reference_file; OpenRead band_file;
                   Reproject (samples src) (ds_transform src) (ds_crs src)
                             (ds_transform ref) (ds_crs ref);
                   OpenWrite output_file])%list.
Proof.
  unfold band_aligner.align_band_to_reference. do 2 io_step.
  destruct (files w !! reference_file) as [[ref|]|]; try discriminate.
  io_step.
  destruct (files w !! band_file) as [[src|]|]; try discriminate.
  do 2 io_step.
  destruct (reproject _ _ _ _ _ _ _) as [filled|] eqn:E; try discriminate.
  io_step.
  destruct (write_refused _ _ _ _); [discriminate|].
  unfold print. cbn. intros [= <-]. exists ref, src, filled. cbn.
  repeat split; auto; now rewrite <- !app_assoc.
Qed.

(** All that a successful [align_band_to_reference] of the script does. *)
Lemma script_align_Ok (band_file reference_file output_file : string)
    (w w' : World) :
  vegetation_ortho_aligned.align_band_to_reference
    band_file reference_file output_file w = (w', Ok tt) ->
  exists ref src filled,
    files w !! reference_file = Some (Raster ref) /\
    files w !! band_file = Some (Raster src) /\
    reproject (samples src) (np.zeros (ds_height ref) (ds_width ref))
              (ds_transform src) (ds_crs src) (ds_transform ref) (ds_crs ref)
              bilinear = Ok filled /\
    files w' =
      <[output_file :=
          Raster (aligned_dataset
                    (mkProfile "GTiff" (ds_dtype src) None (ds_width ref)
                               (ds_height ref) (ds_crs ref) (ds_transform ref))
                    ref filled)]> (files w) /\
    stdout w' =
      (stdout w ++ [AligningToMatch (py.name band_file) (py.name reference_file);
                    SavedFile output_file])%list /\
    calls w' =
      (calls w ++ [OpenRead reference_file; OpenRead band_file;
                   Reproject (samples src) (ds_transform src) (ds_crs src)
                             (ds_transform ref) (ds_crs ref);
                   OpenWrite output_file])%list.
Proof.
  unfold vegetation_ortho_aligned.align_band_to_reference. do 2 io_step.
  destruct (files w !! reference_file) as [[ref|]|]; try discriminate.
  io_step.
  destruct (files w !! band_file) as [[src|]|]; try discriminate.
  do 2 io_step.
  destruct (reproject _ _ _ _ _ _ _) as [filled|] eqn:E; try discriminate.
  io_step.
  destruct (write_refused _ _ _ _); [discriminate|].
  unfold print. cbn. intros [= <-]. exists ref, src, filled. cbn.
  repeat split; auto; now rewrite <- !app_assoc.
Qed.

Lemma aligned_dataset_grid (p : Profile) (ref : Dataset) filled :
  crs p = ds_crs ref -> transform p = ds_transform ref ->
  grid (aligned_dataset p ref filled) = grid ref.
Proof.
  intros Hc Ht. unfold grid, aligned_dataset, dataset_of, ds_width, ds_height.
  cbn. rewrite Hc, Ht.
  pose proof (shape_tabulate_of_shape (samples ref) filled) as S.
  unfold np.shape in S. injection S as S1 S2.
  unfold ds_width, ds_height. now rewrite S1, S2.
Qed.

End align_band_facts.

Section aligned_grid_claim.

Import rasterio georeference_analysis.
Context `{W : Warp}.

Lemma bounds_eq_refl (b : Bounds) : bounds_are_numbers b -> bounds_eq b b = true.
Proof.
  intros (H1 & H2 & H3 & H4). unfold bounds_eq.
  now rewrite !f64_eqb_refl.
Qed.

(** A file on the grid of the reference passes the check against it. *)
Lemma same_grid_checks (l1 l2 reference_file output_file : string)
    (ref out : Dataset) (ref_info : Info) (w : World) :
  files w !! reference_file = Some (Raster ref) ->
  files w !! output_file = Some (Raster out) ->
  grid out = grid ref ->
  (get_info reference_file w).2 = Ok ref_info ->
  bounds_are_numbers (bounds_wgs84 ref_info) ->
  (check_alignment [(l1, reference_file); (l2, output_file)] w).2 = Ok true.
Proof.
  intros Href Hout Hgrid Hinfo Hnum. symmetry in Hgrid.
  apply (check_alignment_true _ reference_file [output_file]);
    [cbn; lia | reflexivity |].
  exists ref_info. split; [assumption|].
  constructor; [|constructor].
  destruct (get_info_same_grid reference_file output_file w w ref out ref_info)
    as (info & Hi & Hb & Hs); auto.
  exists info. split; [assumption|]. split; [|assumption].
  rewrite Hb. now apply bounds_eq_refl.
Qed.

(** C5.  Whenever [align_band_to_reference] returns, in [BandAligner]
    or in the script, the file it wrote carries the grid of the reference
    file: same CRS, transform, width and height.  Checking the reference
    together with that file, in either order, then returns [True],
    provided the WGS84 bounds of the reference can be computed and none
    of them is NaN. *)
Theorem aligned_band_lies_on_reference_grid
    (band_file reference_file output_file : string) (w w' : World) :
  band_aligner.align_band_to_reference band_file reference_file output_file w
    = (w', Ok tt) \/
  vegetation_ortho_aligned.align_band_to_reference
    band_file reference_file output_file w = (w', Ok tt) ->
  exists ref out,
    files w !! reference_file = Some (Raster ref) /\
    files w' !! output_file = Some (Raster out) /\
    grid out = grid ref /\
    forall l1 l2 ref_info,
      (get_info reference_file w').2 = Ok ref_info ->
      bounds_are_numbers (bounds_wgs84 ref_info) ->
      (check_alignment [(l1, reference_file); (l2, output_file)] w').2 = Ok true /\
      (check_alignment [(l2, output_file); (l1, reference_file)] w').2 = Ok true.
Proof.
  intros H.
  assert (exists ref out,
            files w !! reference_file = Some (Raster ref) /\
            files w' = <[output_file := Raster out]> (files w) /\
            grid out = grid ref) as (ref & out & Href & Hw' & Hgrid).
  { destruct H as [H|H].
    - apply class_align_Ok in H as (ref & src & filled & Href & _ & _ & Hf & _).
      exists ref, (aligned_dataset (update_dtype (profile ref) (ds_dtype src))
                                   ref filled).
      repeat split; auto. now apply aligned_dataset_grid.
    - apply script_align_Ok in H as (ref & src & filled & Href & _ & _ & Hf & _).
      exists ref, (aligned_dataset
                     (mkProfile "GTiff" (ds_dtype src) None (ds_width ref)
                                (ds_height ref) (ds_crs ref) (ds_transform ref))
                     ref filled).
      repeat split; auto. now apply aligned_dataset_grid. }
  assert (Hout : files w' !! output_file = Some (Raster out))
    by (rewrite Hw'; apply lookup_insert_eq).
  exists ref, out. split; [exact Href|]. split; [exact Hout|].
  split; [exact Hgrid|].
  intros l1 l2 ref_info Hinfo Hnum.
  assert (exists ref', files w' !! reference_file = Some (Raster ref') /\
                       grid out = grid ref') as (ref' & Href' & Hgrid').
  { destruct (decide (reference_file = output_file)) as [->|Hne].
    - exists out. auto.
    - exists ref. split; [|exact Hgrid].
      rewrite Hw', lookup_insert_ne by congruence. exact Href. }
  destruct (get_info_same_grid reference_file output_file w' w' ref' out ref_info)
    as (out_info & Hout_info & Hb & _); auto.
  split.
  - eapply same_grid_checks; eauto.
  - eapply same_grid_checks; eauto. now rewrite Hb.
Qed.

End aligned_grid_claim.

(** ** Quiet computations *)

Lemma verdicts_app (out1 out2 : list Message) :
  verdicts (out1 ++ out2) = (verdicts out1 ++ verdicts out2)%list.
Proof. apply omap_app. Qed.

Section quiet_facts.

Context {A : Type}.

Lemma quiet_ret (a : A) : quiet (io_ret a).
Proof. intros w. exists []. cbn. now rewrite app_nil_r. Qed.

Lemma quiet_lift (r : result A) : quiet (lift r).
Proof. intros w. exists []. cbn. now rewrite app_nil_r. Qed.

Lemma quiet_bind {B} (m : IO B) (k : B -> IO A) :
  quiet m -> (forall b, quiet (k b)) -> quiet (io_bind m k).
Proof.
  intros Hm Hk w. unfold io_bind.
  destruct (Hm w) as (out1 & H1 & V1).
  destruct (m w) as [w1 [b|e]]; cbn in H1.
  - destruct (Hk b w1) as (out2 & H2 & V2).
    exists (out1 ++ out2)%list. rewrite H2, H1, verdicts_app, V1, V2.
    now rewrite app_assoc.
  - exists out1. auto.
Qed.

Lemma quiet_if (b : bool) (m1 m2 : IO A) :
  quiet m1 -> quiet m2 -> quiet (if b then m1 else m2).
Proof. now destruct b. Qed.

End quiet_facts.

Lemma quiet_print (m : Message) : verdict m = None -> quiet (print m).
Proof.
  intros Hm w. exists [m]. cbn. unfold verdicts. cbn. now rewrite Hm.
Qed.

Lemma quiet_called (c : Call) : quiet (called c).
Proof. intros w. exists []. cbn. now rewrite app_nil_r. Qed.

Lemma quiet_open (path : string) : quiet (rasterio_open path).
Proof.
  intros w. exists []. unfold rasterio_open. rewrite bind_called.
  destruct (files _ !! path) as [[src|]|]; cbn; now rewrite app_nil_r.
Qed.

Lemma quiet_write `{W : rasterio.Warp} (path : string) (p : rasterio.Profile)
    (data : ndarray float) :
  quiet (rasterio_write path p data).
Proof.
  intros w. exists []. rewrite write_eq.
  destruct (write_refused _ _ _ _); cbn; now rewrite app_nil_r.
Qed.

Ltac quiet_steps :=
  repeat first
    [ apply quiet_ret | apply quiet_lift | apply quiet_called
    | apply quiet_open | apply quiet_write
    | apply quiet_print; reflexivity
    | apply quiet_bind; [|intros]
    | apply quiet_if ].

Section batch_facts.

Import rasterio band_aligner.
Context `{W : Warp}.

Lemma quiet_align_band (band_file reference_file output_file : string) :
  quiet (align_band_to_reference band_file reference_file output_file).
Proof. unfold align_band_to_reference. quiet_steps. Qed.

Lemma quiet_align_bands self scene_name reference_band reference_file
    band_items aligned_files :
  quiet (align_bands self scene_name reference_band reference_file
                     band_items aligned_files).
Proof.
  revert aligned_files.
  induction band_items as [|[band_name band_file] rest IH]; intros acc;
    cbn [align_bands]; [apply quiet_ret|].
  apply quiet_bind; [|intros; apply IH].
  apply quiet_if; [quiet_steps | apply quiet_align_band].
Qed.

Lemma quiet_align_scene self scene_name reference_band :
  quiet (align_scene self scene_name reference_band).
Proof.
  unfold align_scene.
  destruct (py.get (scenes self) scene_name) as [scene_bands|]; [|quiet_steps].
  destruct (py.get scene_bands reference_band); [|quiet_steps].
  apply quiet_bind; [quiet_steps|intros].
  apply quiet_bind; [apply quiet_align_bands | intros; apply quiet_ret].
Qed.

(** One turn of the loop of [align_all_scenes] ends normally, with one
    verdict on its scene. *)
Lemma align_each_step self reference_band scene_name aligned_scenes (w : World) :
  exists w1 out v acc,
    try_except
      (io_bind (align_scene self scene_name reference_band) (fun aligned_files =>
         let aligned_scenes := py.set aligned_scenes scene_name aligned_files in
         io_bind (print (SceneAligned scene_name)) (fun _ => io_ret aligned_scenes)))
      (fun e => io_bind (print (ErrorAligningScene scene_name e))
                        (fun _ => io_ret aligned_scenes)) w = (w1, Ok acc) /\
    stdout w1 = (stdout w ++ out)%list /\
    verdicts out = [(scene_name, v)] /\
    match v with
    | None => exists aligned_files,
                (align_scene self scene_name reference_band w).2 = Ok aligned_files /\
                acc = py.set aligned_scenes scene_name aligned_files
    | Some e => (align_scene self scene_name reference_band w).2 = Raise e /\
                acc = aligned_scenes
    end.
Proof.
  unfold try_except, io_bind.
  destruct (quiet_align_scene self scene_name reference_band w) as (out & Hs & Hv).
  destruct (align_scene self scene_name reference_band w) as [w1 [files|e]];
    cbn in *.
  - eexists _, (out ++ [SceneAligned scene_name])%list, None, _.
    split; [reflexivity|]. cbn. rewrite Hs, verdicts_app, Hv, app_assoc.
    repeat split; eauto.
  - eexists _, (out ++ [ErrorAligningScene scene_name e])%list, (Some e), _.
    split; [reflexivity|]. cbn. rewrite Hs, verdicts_app, Hv, app_assoc.
    repeat split; eauto.
Qed.

(** The loop of [align_all_scenes] never raises, and gives every scene
    one verdict, in order; the scenes it records are those found
    aligned, and an exception it reports is one that [align_scene]
    raised. *)
Lemma align_each_verdicts self reference_band scene_names aligned_scenes w :
  exists w' out result,
    align_each self reference_band scene_names aligned_scenes w = (w', Ok result) /\
    stdout w' = (stdout w ++ out)%list /\
    (verdicts out).*1 = scene_names /\
    (forall scene_name,
       is_Some (py.get result scene_name) <->
       is_Some (py.get aligned_scenes scene_name) \/
       In (scene_name, None) (verdicts out)) /\
    (forall scene_name e,
       In (scene_name, Some e) (verdicts out) ->
       exists w0, (align_scene self scene_name reference_band w0).2 = Raise e).
Proof.
  revert aligned_scenes w.
  induction scene_names as [|scene_name rest IH]; intros acc w.
  - exists w, [], acc. cbn. rewrite app_nil_r. repeat split; auto.
    + intros [?|[]]; auto.
    + intros ? ? [].
  - cbn [align_each].
    destruct (align_each_step self reference_band scene_name acc w)
      as (w1 & out1 & v & acc1 & E & Hs1 & Hv1 & Hacc).
    rewrite (bind_run _ _ _ _ _ E).
    destruct (IH acc1 w1) as (w' & out & result & E' & Hs & Hv & Hres & Herr).
    exists w', (out1 ++ out)%list, result.
    split; [exact E'|]. split; [now rewrite Hs, Hs1, app_assoc|].
    rewrite verdicts_app, Hv1. cbn. split; [now rewrite Hv|]. split.
    + intros s. rewrite Hres. destruct v as [e|].
      * destruct Hacc as [_ ->]. split; [tauto|].
        intros [?|[[=]|?]]; auto.
      * destruct Hacc as (aligned_files & _ & ->).
        rewrite get_is_Some_set. split.
        -- intros [[->|?]|?]; auto.
        -- intros [?|[[= ->]|?]]; auto.
    + intros s e [[= -> ->]|Hin]; [|eauto].
      destruct Hacc as [Hraise _]. eauto.
Qed.

(** One turn of the loop of [align_all_scenes], by how [align_scene]
    ends. *)
Lemma align_each_cons self reference_band scene_name rest aligned_scenes w :
  let turn := align_scene self scene_name reference_band w in
  align_each self reference_band (scene_name :: rest) aligned_scenes w =
  align_each self reference_band rest
    match turn.2 with
    | Ok aligned_files => py.set aligned_scenes scene_name aligned_files
    | Raise _ => aligned_scenes
    end
    (mkWorld (files turn.1)
       (stdout turn.1 ++
          [match turn.2 with
           | Ok _ => SceneAligned scene_name
           | Raise e => ErrorAligningScene scene_name e
           end])
       (calls turn.1)).
Proof.
  cbn [align_each]. unfold io_bind, try_except.
  now destruct (align_scene self scene_name reference_band w) as [w1 [files|e]].
Qed.

(** The loop over two lists of scenes is the loop over the first, then
    the loop over the second. *)
Lemma align_each_app self reference_band before after aligned_scenes w w0 acc0 :
  align_each self reference_band before aligned_scenes w = (w0, Ok acc0) ->
  align_each self reference_band (before ++ after) aligned_scenes w =
  align_each self reference_band after acc0 w0.
Proof.
  revert aligned_scenes w.
  induction before as [|scene_name rest IH]; intros acc w.
  - cbn. now intros [= -> ->].
  - rewrite <- app_comm_cons, !align_each_cons. apply IH.
Qed.

(** The loop leaves the entries of the scenes it is not given as they
    are. *)
Lemma align_each_get_other self reference_band scene_names aligned_scenes w
    w' result scene_name :
  ~ In scene_name scene_names ->
  align_each self reference_band scene_names aligned_scenes w = (w', Ok result) ->
  py.get result scene_name = py.get aligned_scenes scene_name.
Proof.
  revert aligned_scenes w.
  induction scene_names as [|s rest IH]; intros acc w Hnotin.
  - cbn. now intros [= _ ->].
  - rewrite align_each_cons. intros Hrun.
    rewrite (IH _ _ (fun H => Hnotin (or_intror H)) Hrun).
    destruct (align_scene self s reference_band w).2; [|reflexivity].
    apply get_set_ne. intros ->. apply Hnotin. now left.
Qed.

(** What one scene of a batch gets, wherever it stands in the batch. *)
Lemma align_each_scene self reference_band before scene_name after
    aligned_scenes w :
  exists w0 acc0,
    align_each self reference_band before aligned_scenes w = (w0, Ok acc0) /\
    let turn := align_scene self scene_name reference_band w0 in
    let line :=
      match turn.2 with
      | Ok _ => SceneAligned scene_name
      | Raise e => ErrorAligningScene scene_name e
      end in
    let acc1 :=
      match turn.2 with
      | Ok aligned_files => py.set acc0 scene_name aligned_files
      | Raise _ => acc0
      end in
    align_each self reference_band (before ++ scene_name :: after)
               aligned_scenes w =
    align_each self reference_band after acc1
      (mkWorld (files turn.1) (stdout turn.1 ++ [line]) (calls turn.1)) /\
    exists w' result,
      align_each self reference_band (before ++ scene_name :: after)
                 aligned_scenes w = (w', Ok result) /\
      In line (stdout w') /\
      (~ In scene_name before -> ~ In scene_name after ->
       py.get aligned_scenes scene_name = None ->
       py.get result scene_name =
       match turn.2 with
       | Ok aligned_files => Some aligned_files
       | Raise _ => None
       end).
Proof.
  destruct (align_each_verdicts self reference_band before aligned_scenes w)
    as (w0 & out0 & acc0 & E0 & _).
  exists w0, acc0. split; [exact E0|]. cbn zeta.
  rewrite (align_each_app _ _ _ _ _ _ _ _ E0), align_each_cons. cbn zeta.
  split; [reflexivity|].
  match goal with |- context [align_each _ _ after ?acc1 ?w1] =>
    destruct (align_each_verdicts self reference_band after acc1 w1)
      as (w' & out & result & E & Hs & _);
    exists w', result; split; [exact E|]
  end.
  split.
  - rewrite Hs. cbn [stdout]. apply in_or_app. left.
    apply in_or_app. right. now left.
  - intros Hbefore Hafter Hnone.
    rewrite (align_each_get_other _ _ _ _ _ _ _ _ Hafter E).
    destruct (align_scene self scene_name reference_band w0).2.
    + apply get_set_eq.
    + now rewrite (align_each_get_other _ _ _ _ _ _ _ _ Hbefore E0).
Qed.

(** C8, as amended.  [align_all_scenes] always returns: an exception
    raised while a scene is aligned is caught, printed with the name of
    the scene, and the loop goes on with the next scene.  Every scene of
    the aligner gets exactly one verdict, in order, so none is tried
    again; the scenes recorded in the result are those reported as
    aligned.  Scene by scene: the loop of [align_all_scenes] takes the
    scenes [before] a scene without raising, and leaves a world [w0]; if
    [align_scene] raises [e] in [w0], the loop prints the error line of
    the scene with [e], leaves the result as it was, and goes on with the
    scenes [after] it, in the world that [align_scene] left; if
    [align_scene] returns, the loop prints that the scene is aligned,
    records what was returned, and goes on likewise.  The line is
    in the output when the batch has returned, and the result has the
    entry of a scene that returned and no entry of a scene that raised
    (for a scene that stands once in the batch).  In
    [process_aligned_ndvi], a scene whose B5 file is missing is reported
    and skipped, and the loop goes on with the scenes that remain. *)
Theorem batch_continues_past_failed_scene :
  (forall (self : BandAligner) (reference_band : string) (w : World),
     align_all_scenes self reference_band w =
     align_each self reference_band (py.keys (scenes self)) []
       (mkWorld (files w)
          (stdout w ++ [FoundScenesToAlign (py.len (scenes self));
                        OutputDirectory (output_dir self); Rule])
          (calls w)) /\
     exists w' out aligned_scenes,
       align_all_scenes self reference_band w = (w', Ok aligned_scenes) /\
       stdout w' = (stdout w ++ out)%list /\
       (verdicts out).*1 = py.keys (scenes self) /\
       (forall scene_name,
          is_Some (py.get aligned_scenes scene_name) <->
          In (scene_name, None) (verdicts out)) /\
       (forall scene_name e,
          In (scene_name, Some e) (verdicts out) ->
          exists w0, (align_scene self scene_name reference_band w0).2 = Raise e)) /\
  (forall (self : BandAligner) (reference_band : string)
          (before : list string) (scene_name : string) (after : list string)
          (aligned_scenes : py.dict (option (py.dict string))) (w : World),
     exists w0 acc0,
       align_each self reference_band before aligned_scenes w = (w0, Ok acc0) /\
       let turn := align_scene self scene_name reference_band w0 in
       let line :=
         match turn.2 with
         | Ok _ => SceneAligned scene_name
         | Raise e => ErrorAligningScene scene_name e
         end in
       let acc1 :=
         match turn.2 with
         | Ok aligned_files => py.set acc0 scene_name aligned_files
         | Raise _ => acc0
         end in
       align_each self reference_band (before ++ scene_name :: after)
                  aligned_scenes w =
       align_each self reference_band after acc1
         (mkWorld (files turn.1) (stdout turn.1 ++ [line]) (calls turn.1)) /\
       exists w' result,
         align_each self reference_band (before ++ scene_name :: after)
                    aligned_scenes w = (w', Ok result) /\
         In line (stdout w') /\
         (~ In scene_name before -> ~ In scene_name after ->
          py.get aligned_scenes scene_name = None ->
          py.get result scene_name =
          match turn.2 with
          | Ok aligned_files => Some aligned_files
          | Raise _ => None
          end)) /\
  (forall (output_dir aligned_dir : string) (i n : nat) (red_path : string)
          (rest : list string) (w : World),
     files w !! py.replace red_path "B4.TIF" "B5.TIF" = None ->
     vegetation_ortho_aligned.process_scenes output_dir aligned_dir i n
       (red_path :: rest) w =
     vegetation_ortho_aligned.process_scenes output_dir aligned_dir (S i) n rest
       (mkWorld (files w)
          (stdout w ++
             [ProcessingScene (i + 1) n
                (py.replace (py.name red_path) "_SR_B4.TIF" "");
              NoMatchingB5 (py.name red_path)])
          (calls w))).
Proof.
  split; [|split].
  - intros self reference_band w.
    assert (Hloop : align_all_scenes self reference_band w =
              align_each self reference_band (py.keys (scenes self)) []
                (mkWorld (files w)
                   (stdout w ++ [FoundScenesToAlign (py.len (scenes self));
                                 OutputDirectory (output_dir self); Rule])
                   (calls w))).
    { unfold align_all_scenes. do 3 io_step. now rewrite <- !app_assoc. }
    split; [exact Hloop|]. rewrite Hloop.
    match goal with |- context [align_each _ _ _ _ ?w0] =>
      destruct (align_each_verdicts self reference_band (py.keys (scenes self))
                  [] w0) as (w' & out & result & E & Hs & Hv & Hres & Herr)
    end.
    cbn in Hs.
    exists w', ([FoundScenesToAlign (py.len (scenes self));
                 OutputDirectory (output_dir self); Rule] ++ out)%list, result.
    split; [exact E|]. split; [now rewrite Hs, <- !app_assoc|].
    rewrite verdicts_app. cbn. split; [exact Hv|]. split; [|exact Herr].
    intros s. rewrite Hres. cbn. split; [intros [[? [=]]|?]; auto | auto].
  - apply align_each_scene.
  - intros output_dir aligned_dir i n red_path rest w Hmissing.
    cbn [vegetation_ortho_aligned.process_scenes].
    unfold vegetation_ortho_aligned.process_scene.
    do 4 io_step. rewrite Hmissing.
    rewrite bool_decide_eq_false_2 by (intros [? [=]]).
    cbn [negb]. io_step. now rewrite <- app_assoc.
Qed.

End batch_facts.

(** ** The reference band of a scene *)

Lemma string_app_inj_l (s x y : string) : s ++ x = s ++ y -> x = y.
Proof.
  induction s as [|ch s IH]; [auto|].
  change (String ch (s ++ x) = String ch (s ++ y) -> x = y).
  intros [= H]. auto.
Qed.

Lemma string_length_app (x y : string) :
  String.length (x ++ y) = String.length x + String.length y.
Proof.
  induction x as [|ch x IH]; [reflexivity|].
  change (S (String.length (x ++ y)) = S (String.length x + String.length y)).
  now rewrite IH.
Qed.

Lemma string_app_inj_r (x y t : string) : x ++ t = y ++ t -> x = y.
Proof.
  revert y. induction x as [|ch x IH]; intros [|ch' y] H.
  - reflexivity.
  - apply (f_equal String.length) in H.
    rewrite !string_length_app in H. cbn in H. lia.
  - apply (f_equal String.length) in H.
    rewrite !string_length_app in H. cbn in H. lia.
  - change (String ch (x ++ t) = String ch' (y ++ t)) in H.
    injection H as -> H. f_equal. auto.
Qed.

(** Two bands of a scene have two aligned files. *)
Lemma aligned_path_inj (dir scene_name b1 b2 : string) :
  py.join dir (band_aligner.aligned_name scene_name b1) =
  py.join dir (band_aligner.aligned_name scene_name b2) -> b1 = b2.
Proof.
  unfold py.join, band_aligner.aligned_name. intros H.
  do 4 apply string_app_inj_l in H. now apply string_app_inj_r in H.
Qed.


Lemma get_In_NoDup {V} (d : py.dict V) (k : string) (v v' : V) :
  NoDup (py.keys d) -> py.get d k = Some v -> In (k, v') d -> v' = v.
Proof.
  induction d as [|[k0 v0] d IH]; cbn; [intros _ [=]|].
  intros Hnd. apply NoDup_cons in Hnd as [Hnotin Hnd].
  destruct (String.eqb_spec k0 k) as [->|Hne].
  - intros [= ->] [[= ->]|Hin]; [reflexivity|].
    exfalso. apply Hnotin. apply list_elem_of_In.
    change (In k (map fst d)). apply in_map_iff. now exists (k, v').
  - intros Hget [[= -> ->]|Hin]; [congruence | auto].
Qed.

Section reference_copy.

Import rasterio band_aligner.
Context `{W : Warp}.


End reference_copy.

Lemma get_Some_In {V} (d : py.dict V) (k : string) (v : V) :
  py.get d k = Some v -> In (k, v) d.
Proof.
  induction d as [|[k0 v0] d IH]; cbn; [discriminate|].
  destruct (String.eqb_spec k0 k) as [->|Hne]; [intros [= ->]; now left | auto].
Qed.

Section reference_claim.

Import rasterio band_aligner.
Context `{W : Warp}.


End reference_claim.


(** ** The index of a scene *)

Lemma shape_map_map {A B} (f : A -> B) (x : ndarray A) :
  np.shape (map (map f) x) = np.shape x.
Proof.
  unfold np.shape. rewrite length_map. destruct x; cbn; [reflexivity|].
  now rewrite length_map.
Qed.

Lemma add_same_shape (nir red s : ndarray float) :
  np.shape nir = np.shape red -> np.add nir red = Ok s ->
  np.shape s = np.shape red.
Proof.
  unfold np.shape at 1 2. intros [= Hh Hw] Hs.
  apply ufunc2_Ok in Hs as (h & w & Eh & Ew & ->).
  rewrite Hh, broadcast_dim_same in Eh. rewrite Hw, broadcast_dim_same in Ew.
  injection Eh as <-. injection Ew as <-. apply shape_tabulate_of_shape.
Qed.

(** An index has the shape of the sum it was computed from. *)
Lemma ndvi_has_shape_of_sum (nir red : ndarray float) :
  (forall v, ndvi_masked nir red = Ok v ->
     exists s, np.add nir red = Ok s /\ np.shape v = np.shape s) /\
  (forall v, ndvi_where nir red = Ok v ->
     exists s, np.add nir red = Ok s /\ np.shape v = np.shape s).
Proof.
  destruct (np.add nir red) as [s|e] eqn:Hs.
  - destruct (ndvi_cells nir red s Hs) as (h & w & gd & gs & -> & _ & Hw & Hm).
    split; intros v Hv; eexists; (split; [reflexivity|]).
    + rewrite Hm in Hv. injection Hv as <-. now rewrite !shape_tabulate.
    + rewrite Hw in Hv. injection Hv as <-. now rewrite !shape_tabulate.
  - destruct (ndvi_needs_sum nir red e Hs) as [Hw Hm].
    split; intros v Hv; congruence.
Qed.

Lemma ndvi_asserted_Ok (nir red v : ndarray float) :
  ndvi_asserted nir red = Ok v ->
  ndvi_masked nir red = Ok v /\
  exists lo hi, np.nanmin v = Ok lo /\ np.nanmax v = Ok hi.
Proof.
  unfold ndvi_asserted. destruct (ndvi_masked nir red) as [v0|]; [|discriminate].
  unfold mbind, result_bind.
  destruct (np.nanmin v0) as [lo|] eqn:Hlo; [|discriminate].
  destruct (assert_in_range lo); [|discriminate].
  destruct (np.nanmax v0) as [hi|] eqn:Hhi; [|discriminate].
  destruct (assert_in_range hi); [|discriminate].
  intros [= <-]. split; [reflexivity|]. now exists lo, hi.
Qed.

Section index_claim.

Import rasterio.
Context `{W : Warp} `{P : plt.Pyplot}.

(** A write that the open accepts, of an array of the profile's shape,
    is not refused. *)
Lemma write_accepted (fs : gmap string File) (path : string) (p : Profile)
    (data : ndarray float) :
  (create fs path p).2 = Ok tt ->
  np.shape data = (height p, width p) ->
  write_refused fs path p data = None.
Proof.
  intros Hopen Hshape. unfold write_refused. rewrite Hopen.
  now destruct (decide _).
Qed.

(** The index of [src/vegetation-ortho.py] is computed from the samples
    alone. *)
Lemma plain_scene_ignores_grids (use_aligned : bool) (n j : nat)
    (red_path : string) (red nir : Dataset) (v : ndarray float) (w : World) :
  let index_path := "data/ndvi_" ++ pretty j ++ ".tif" in
  let plot_path := "data/ndvi_plot_" ++ pretty j ++ ".png" in
  let index_profile :=
    update_dtype (profile red) vegetation_ortho_aligned.float32 in
  let with_index :=
    <[index_path := Raster (dataset_of index_profile (np.astype_float32 v))]>
      (files w) in
  files w !! red_path = Some (Raster red) ->
  files w !! (if use_aligned
              then py.replace red_path "_B4_aligned.TIF" "_B5_aligned.TIF"
              else py.replace red_path "B4.TIF" "B5.TIF") = Some (Raster nir) ->
  np.shape (samples nir) = np.shape (samples red) ->
  ndvi_asserted (samples nir) (samples red) = Ok v ->
  (create (files w) index_path index_profile).2 = Ok tt ->
  (plt.savefig with_index plot_path v).2 = Ok tt ->
  exists w',
    vegetation_ortho.scene use_aligned n j red_path w = (w', Ok tt) /\
    files w' =
      partial_alter (fun _ => (plt.savefig with_index plot_path v).1)
                    plot_path with_index.
Proof.
  intros index_path plot_path index_profile with_index
    Hred Hnir Hshape Hv Hopen Hplot.
  destruct (ndvi_asserted_Ok _ _ _ Hv) as (Hm & lo & hi & Hlo & Hhi).
  destruct (proj1 (ndvi_has_shape_of_sum _ _) v Hm) as (s & Hs & Hvs).
  pose proof (add_same_shape _ _ _ Hshape Hs) as Hss.
  unfold vegetation_ortho.scene.
  do 3 io_step. rewrite Hred. do 2 io_step. rewrite Hnir.
  do 2 io_step. rewrite Hv. io_step. rewrite Hlo. io_step. rewrite Hhi.
  do 3 io_step.
  rewrite (write_accepted _ _ _ _ Hopen)
    by (unfold np.astype_float32; rewrite shape_map_map, Hvs, Hss; reflexivity).
  io_step. fold index_path index_profile with_index plot_path. rewrite Hplot.
  eexists. split; reflexivity.
Qed.

(** Whenever the sum of two arrays exists, so do both variants of their
    index. *)
Lemma index_exists_with_sum (nir red s : ndarray float) :
  np.add nir red = Ok s ->
  (exists out, ndvi_where nir red = Ok out) /\
  (exists out, ndvi_masked nir red = Ok out).
Proof.
  intros Hs.
  destruct (ndvi_cells nir red s Hs) as (h & w & gd & gs & _ & _ & Hw & Hm).
  eauto.
Qed.

Lemma aligned_red_is_not_aligned_nir (aligned_dir scene_name : string) :
  py.join aligned_dir (scene_name ++ "_B4_aligned.TIF") <>
  py.join aligned_dir (scene_name ++ "_B5_aligned.TIF").
Proof.
  unfold py.join. intros H. do 3 apply string_app_inj_l in H. discriminate.
Qed.

(** In [process_aligned_ndvi] the index of a scene is computed from the
    NIR band as [reproject] has put it on the grid of the red band, and
    from the red band. *)
Lemma aligned_scene_uses_one_grid (output_dir aligned_dir : string) (i n : nat)
    (red_path : string) (w w' : World) :
  let scene_name := py.replace (py.name red_path) "_SR_B4.TIF" "" in
  let nir_path := py.replace red_path "B4.TIF" "B5.TIF" in
  let aligned_nir := py.join aligned_dir (scene_name ++ "_B5_aligned.TIF") in
  let ndvi_output :=
    py.join output_dir ("ndvi_aligned_" ++ scene_name ++ ".tif") in
  is_Some (files w !! nir_path) ->
  vegetation_ortho_aligned.process_scene output_dir aligned_dir i n red_path w
    = (w', Ok tt) ->
  exists red nir filled v,
    files w !! red_path = Some (Raster red) /\
    files w !! nir_path = Some (Raster nir) /\
    reproject (samples nir) (np.zeros (ds_height red) (ds_width red))
              (ds_transform nir) (ds_crs nir) (ds_transform red) (ds_crs red)
              bilinear = Ok filled /\
    let nir_al :=
      aligned_dataset
        (mkProfile "GTiff" (ds_dtype nir) None (ds_width red) (ds_height red)
                   (ds_crs red) (ds_transform red))
        red filled in
    let red_al := if decide (red_path = aligned_nir) then nir_al else red in
    grid nir_al = grid red /\
    grid red_al = grid red /\
    ndvi_where (samples nir_al) (samples red_al) = Ok v /\
    files w' !! ndvi_output =
      Some (Raster (dataset_of
                      (update_dtype (profile red_al)
                                    vegetation_ortho_aligned.float32)
                      (np.astype_float32 v))).
Proof.
  intros scene_name nir_path aligned_nir ndvi_output Hnir Hrun.
  unfold vegetation_ortho_aligned.process_scene in Hrun.
  do 2 io_step_in Hrun.
  rewrite bool_decide_eq_true_2 in Hrun by assumption. cbn [negb] in Hrun.
  io_step_in Hrun.
  apply bind_Ok_inv in Hrun as (w2 & [] & Halign & Hrun).
  apply script_align_Ok in Halign
    as (ref & src & filled & Href & Hsrc & Hfilled & Hf2 & _ & _).
  cbn [files] in Href, Hsrc.
  fold scene_name aligned_nir in Hf2, Hrun.
  set (D1 := aligned_dataset _ ref filled) in *.
  assert (HD1 : grid D1 = grid ref) by now apply aligned_dataset_grid.
  exists ref, src, filled. cbn zeta.
  set (red_al := if decide (red_path = aligned_nir) then D1 else ref).
  assert (Hred_al : files w2 !! red_path = Some (Raster red_al)).
  { rewrite Hf2, lookup_insert. unfold red_al. cbn [files].
    destruct (decide (aligned_nir = red_path)),
             (decide (red_path = aligned_nir)); congruence. }
  do 2 io_step_in Hrun. rewrite Hred_al in Hrun.
  io_step_in Hrun. destruct (write_refused _ _ _ _); [discriminate|].
  rewrite dataset_of_profile in Hrun.
  do 2 io_step_in Hrun. rewrite lookup_insert_eq in Hrun.
  io_step_in Hrun.
  rewrite lookup_insert_ne in Hrun by apply aligned_red_is_not_aligned_nir.
  rewrite Hf2, lookup_insert_eq in Hrun.
  io_step_in Hrun.
  destruct (ndvi_where (samples D1) (samples red_al)) as [v|] eqn:Hv;
    try discriminate.
  io_step_in Hrun. destruct (write_refused _ _ _ _); [discriminate|].
  unfold print in Hrun. cbn in Hrun. injection Hrun as <-.
  exists v. split; [exact Href|]. split; [exact Hsrc|].
  split; [exact Hfilled|]. split; [exact HD1|].
  split; [unfold red_al; now destruct (decide _)|].
  split; [exact Hv|].
  cbn. apply lookup_insert_eq.
Qed.

End index_claim.

Section index_grid_claim.

Import rasterio.
Context `{W : Warp} `{P : plt.Pyplot}.

(** C6, as amended.  The index is computed without looking at a grid,
    and no exception tells of a grid mismatch.  In
    [src/vegetation-ortho.py], two band files whose sample arrays have
    one shape, and whose index passes the range assertions, give an
    index raster on the profile of the red band, whatever the CRS and
    transform of either, once GDAL has opened the output file; the turn
    returns when the plot of the index has been saved, and then these
    two files are all that has changed.  Arrays that can be added under
    broadcasting have an index; the others raise NumPy's [ValueError].
    In [process_aligned_ndvi], a turn that returns for a scene with a B5
    file has read the red band [red] and the NIR band [nir] from the two
    files of the scene, has had [reproject] resample the samples of
    [nir] from the grid of [nir] onto the grid of [red], bilinearly, and
    has computed the index from the resampled band [nir_al] and the red
    band, both on the grid of [red]; the index file holds that index on
    the profile of the red band.  (Should the red file itself lie on the
    path of the aligned NIR band, it is overwritten before it is copied,
    and the red band of the index is the resampled band.) *)
Theorem index_is_computed_without_grid_check :
  (forall (use_aligned : bool) (n j : nat) (red_path : string)
          (red nir : Dataset) (v : ndarray float) (w : World),
     let index_path := "data/ndvi_" ++ pretty j ++ ".tif" in
     let plot_path := "data/ndvi_plot_" ++ pretty j ++ ".png" in
     let index_profile :=
       update_dtype (profile red) vegetation_ortho_aligned.float32 in
     let with_index :=
       <[index_path := Raster (dataset_of index_profile (np.astype_float32 v))]>
         (files w) in
     files w !! red_path = Some (Raster red) ->
     files w !! (if use_aligned
                 then py.replace red_path "_B4_aligned.TIF" "_B5_aligned.TIF"
                 else py.replace red_path "B4.TIF" "B5.TIF") = Some (Raster nir) ->
     np.shape (samples nir) = np.shape (samples red) ->
     ndvi_asserted (samples nir) (samples red) = Ok v ->
     (create (files w) index_path index_profile).2 = Ok tt ->
     (plt.savefig with_index plot_path v).2 = Ok tt ->
     exists w',
       vegetation_ortho.scene use_aligned n j red_path w = (w', Ok tt) /\
       files w' =
         partial_alter (fun _ => (plt.savefig with_index plot_path v).1)
                       plot_path with_index) /\
  (forall (nir red s : ndarray float),
     np.add nir red = Ok s ->
     (exists out, ndvi_where nir red = Ok out) /\
     (exists out, ndvi_masked nir red = Ok out)) /\
  (forall (nir red : ndarray float) (e : Exn),
     np.add nir red = Raise e ->
     ndvi_where nir red = Raise ValueError /\
     ndvi_masked nir red = Raise ValueError) /\
  (forall (output_dir aligned_dir : string) (i n : nat) (red_path : string)
          (w w' : World),
     let scene_name := py.replace (py.name red_path) "_SR_B4.TIF" "" in
     let nir_path := py.replace red_path "B4.TIF" "B5.TIF" in
     let aligned_nir := py.join aligned_dir (scene_name ++ "_B5_aligned.TIF") in
     let ndvi_output :=
       py.join output_dir ("ndvi_aligned_" ++ scene_name ++ ".tif") in
     is_Some (files w !! nir_path) ->
     vegetation_ortho_aligned.process_scene output_dir aligned_dir i n red_path w
       = (w', Ok tt) ->
     exists red nir filled v,
       files w !! red_path = Some (Raster red) /\
       files w !! nir_path = Some (Raster nir) /\
       reproject (samples nir) (np.zeros (ds_height red) (ds_width red))
                 (ds_transform nir) (ds_crs nir)
                 (ds_transform red) (ds_crs red) bilinear = Ok filled /\
       let nir_al :=
         aligned_dataset
           (mkProfile "GTiff" (ds_dtype nir) None (ds_width red) (ds_height red)
                      (ds_crs red) (ds_transform red))
           red filled in
       let red_al := if decide (red_path = aligned_nir) then nir_al else red in
       grid nir_al = grid red /\
       grid red_al = grid red /\
       ndvi_where (samples nir_al) (samples red_al) = Ok v /\
       files w' !! ndvi_output =
         Some (Raster (dataset_of
                         (update_dtype (profile red_al)
                                       vegetation_ortho_aligned.float32)
                         (np.astype_float32 v)))).
Proof.
  split; [|split; [|split]].
  - apply plain_scene_ignores_grids.
  - apply index_exists_with_sum.
  - apply ndvi_needs_sum.
  - apply aligned_scene_uses_one_grid.
Qed.

End index_grid_claim.

(** C6, counterexample.  The B5 band of the sample scene lies 15 m east
    of the B4 band; [src/vegetation-ortho.py] computes their index all the
    same and writes it on the grid of the B4 band. *)
Lemma index_of_bands_on_two_grids :
  grid sample.b5_shifted <> grid sample.b4 /\
  (vegetation_ortho.scene (W := sample.cell_copy) (P := sample.png_writer)
     false 1 1 "usgs_data/LC08_SR_B4.TIF" sample.usgs_shifted).2 = Ok tt /\
  files (vegetation_ortho.scene (W := sample.cell_copy) (P := sample.png_writer)
           false 1 1 "usgs_data/LC08_SR_B4.TIF" sample.usgs_shifted).1
    !! "data/ndvi_1.tif" =
    Some (rasterio.Raster
            (rasterio.mkDataset "GTiff" "float32" None sample.utm sample.utm_grid
               [[sample.half32; sample.half32]; [sample.half32; sample.half32]])).
Proof.
  split; [intros H; vm_compute in H; discriminate|].
  split; vm_compute; reflexivity.
Qed.

(** C8, counterexample.  Of two complete scenes, the one listed first has
    a B4 file that cannot be read: [process_aligned_ndvi] ends with the
    exception of [rasterio.open], and the second scene is never
    processed. *)
Lemma unreadable_band_ends_batch :
  vegetation_ortho_aligned.process_aligned_ndvi (W := sample.cell_copy)
    "" sample.unreadable =
  (mkWorld (files sample.unreadable)
     [FoundScenesWithAlignment 2; ProcessingScene 1 2 "LC09";
      UsingB4AsReference; AligningToMatch "LC09_SR_B5.TIF" "LC09_SR_B4.TIF"]
     [OpenRead "/src/usgs_data/LC09_SR_B4.TIF"],
   Raise (RasterioIOError "/src/usgs_data/LC09_SR_B4.TIF")).
Proof. vm_compute. reflexivity. Qed.

(** ** Sample runs *)

(** Red 100 and NIR 300 everywhere give 0.5 everywhere. *)
Example index_of_constant_bands :
  ndvi_where (rasterio.samples sample.b5) (rasterio.samples sample.b4) =
  Ok [[sample.half; sample.half]; [sample.half; sample.half]].
Proof. vm_compute. reflexivity. Qed.

(** A scene that is 0 everywhere has an index that is NaN everywhere;
    [np.nanmin] of it is NaN, and the first assertion of
    [src/vegetation-ortho.py] fails. *)
Example all_zero_scene_fails_assertion :
  ndvi_masked (np.zeros 2 2) (np.zeros 2 2) =
    Ok [[F64.nan; F64.nan]; [F64.nan; F64.nan]] /\
  ndvi_asserted (np.zeros 2 2) (np.zeros 2 2) =
    Raise (AssertionError out_of_range).
Proof. split; vm_compute; reflexivity. Qed.

(** [process_aligned_ndvi] neither asserts nor clips: a negative red
    sample gives an index of 2. *)
Example unchecked_index_leaves_range :
  ndvi_where (sample.band [[3]]%Z) (sample.band [[-1]]%Z) = Ok [[F64.two]].
Proof. vm_compute. reflexivity. Qed.

(** ** The claims at sample inputs *)

Lemma ndvi_finite_pixels_in_unit_range_witness :
  F64.leb F64.neg_one sample.half = true /\ F64.leb sample.half F64.one = true.
Proof.
  apply (proj1 (ndvi_finite_pixels_in_unit_range
                  (sample.band [[300]]%Z) (sample.band [[100]]%Z))
               [[sample.half]] 0 0 sample.half);
    vm_compute; reflexivity.
Defined.

Lemma zero_sum_pixels_hold_fill_value_witness :
  exists out, ndvi_where sample.dark_nir sample.dark_red = Ok out /\
    forall i j v, np.cell sample.dark_sum i j = Some v ->
      F64.eqb v F64.zero = true -> np.cell out i j = Some F64.zero.
Proof.
  apply (proj1 (zero_sum_pixels_hold_fill_value
                  sample.dark_nir sample.dark_red sample.dark_sum eq_refl)).
Defined.

Lemma alignment_is_exact_equality_witness :
  (georeference_analysis.check_alignment (W := sample.cell_copy)
     sample.usgs_bands sample.usgs).2 = Ok true.
Proof.
  apply (proj1 (alignment_is_exact_equality (W := sample.cell_copy)
                  sample.usgs_bands "B4" "usgs_data/LC08_SR_B4.TIF"
                  [("B5", "usgs_data/LC08_SR_B5.TIF")] sample.usgs
                  eq_refl (le_n 2))).
  eexists. split; [vm_compute; reflexivity|].
  constructor; [|constructor].
  eexists. split; [vm_compute; reflexivity|].
  split; vm_compute; reflexivity.
Defined.


Lemma aligned_band_lies_on_reference_grid_witness :
  (georeference_analysis.check_alignment (W := sample.cell_copy)
     [("B4", "usgs_data/LC08_SR_B4.TIF"); ("B5", "out/LC08_B5_aligned.TIF")]
     (band_aligner.align_band_to_reference (W := sample.cell_copy)
        "usgs_data/LC08_SR_B5.TIF" "usgs_data/LC08_SR_B4.TIF"
        "out/LC08_B5_aligned.TIF" sample.usgs).1).2 = Ok true.
Proof.
  destruct (aligned_band_lies_on_reference_grid (W := sample.cell_copy)
              "usgs_data/LC08_SR_B5.TIF" "usgs_data/LC08_SR_B4.TIF"
              "out/LC08_B5_aligned.TIF" sample.usgs
              (band_aligner.align_band_to_reference (W := sample.cell_copy)
                 "usgs_data/LC08_SR_B5.TIF" "usgs_data/LC08_SR_B4.TIF"
                 "out/LC08_B5_aligned.TIF" sample.usgs).1)
    as (ref & out & _ & _ & _ & Hcheck).
  - left. vm_compute. reflexivity.
  - eapply (fun info H1 H2 => proj1 (Hcheck "B4" "B5" info H1 H2));
      [vm_compute; reflexivity|].
    vm_compute. repeat split.
Defined.

Lemma index_is_computed_without_grid_check_witness :
  (exists w',
     vegetation_ortho.scene (W := sample.cell_copy) (P := sample.png_writer)
       false 1 1 "usgs_data/LC08_SR_B4.TIF" sample.usgs_shifted = (w', Ok tt) /\
     files w' =
       <["data/ndvi_plot_1.png" := rasterio.NotARaster]>
         (<["data/ndvi_1.tif" :=
              rasterio.Raster
                (dataset_of
                   (rasterio.update_dtype (rasterio.profile sample.b4)
                                          vegetation_ortho_aligned.float32)
                   (np.astype_float32
                      [[sample.half; sample.half]; [sample.half; sample.half]]))]>
            (files sample.usgs_shifted))) /\
  files (vegetation_ortho_aligned.process_scene (W := sample.cell_copy)
           "/data" "/data/aligned_bands" 0 2 "/src/usgs_data/LC08_SR_B4.TIF"
           sample.unreadable).1 !! "/data/ndvi_aligned_LC08.tif" =
    Some (rasterio.Raster
            (rasterio.mkDataset "GTiff" "float32" None sample.utm sample.utm_grid
               [[sample.half32; sample.half32]; [sample.half32; sample.half32]])).
Proof.
  split.
  - apply (proj1 (index_is_computed_without_grid_check
                    (W := sample.cell_copy) (P := sample.png_writer))
                 false 1 1 "usgs_data/LC08_SR_B4.TIF" sample.b4
                 sample.b5_shifted);
      vm_compute; reflexivity.
  - destruct (proj2 (proj2 (proj2 (index_is_computed_without_grid_check
                                     (W := sample.cell_copy)
                                     (P := sample.png_writer))))
                "/data" "/data/aligned_bands" 0 2
                "/src/usgs_data/LC08_SR_B4.TIF" sample.unreadable
                (vegetation_ortho_aligned.process_scene (W := sample.cell_copy)
                   "/data" "/data/aligned_bands" 0 2
                   "/src/usgs_data/LC08_SR_B4.TIF" sample.unreadable).1)
      as (red & nir & filled & v & Hred & Hnir & Hfilled & _ & _ & Hv & Hfile).
    + apply (bool_decide_unpack _). vm_compute. exact I.
    + vm_compute. reflexivity.
    + vm_compute in Hred. injection Hred as <-.
      vm_compute in Hnir. injection Hnir as <-.
      injection Hfilled as <-.
      vm_compute in Hv. injection Hv as <-.
      refine (eq_trans Hfile _). vm_compute. reflexivity.
Defined.

Lemma wgs84_bounds_are_native_bounds_witness :
  calls (georeference_analysis.get_info (W := sample.cell_copy)
           "deg/S_B4.TIF" sample.degrees).1 = [OpenRead "deg/S_B4.TIF"] /\
  exists info,
    (georeference_analysis.get_info (W := sample.cell_copy)
       "deg/S_B4.TIF" sample.degrees).2 = Ok info /\
    georeference_analysis.bounds_wgs84 info = rasterio.bounds sample.g4.
Proof.
  apply (proj1 (wgs84_bounds_are_native_bounds (W := sample.cell_copy)
                  "deg/S_B4.TIF" sample.g4 sample.degrees eq_refl) eq_refl).
Defined.

Lemma batch_continues_past_failed_scene_witness :
  (exists w' result,
     band_aligner.align_each (W := sample.cell_copy) sample.aligner "B4"
       ["LC09"; "LC08"] [] sample.usgs = (w', Ok result) /\
     In (ErrorAligningScene "LC09" (RasterioIOError "usgs_data/LC09_SR_B4.TIF"))
        (stdout w') /\
     py.get result "LC09" = None) /\
  vegetation_ortho_aligned.process_scenes (W := sample.cell_copy)
    "/data" "/data/aligned_bands" 0 1 ["/src/usgs_data/LC08_SR_B4.TIF"]
    sample.lonely =
  (mkWorld (files sample.lonely)
     [ProcessingScene 1 1 "LC08"; NoMatchingB5 "LC08_SR_B4.TIF"] [], Ok tt).
Proof.
  split.
  - destruct (proj1 (proj2 (batch_continues_past_failed_scene
                              (W := sample.cell_copy)))
                sample.aligner "B4" [] "LC09" ["LC08"] [] sample.usgs)
      as (w0 & acc0 & E0 & _ & w' & result & Erun & Hline & Hget).
    injection E0 as <- <-.
    exists w', result. split; [exact Erun|]. split; [exact Hline|].
    apply Hget; [intros [] | intros [[=]|[]] | reflexivity].
  - rewrite (proj2 (proj2 (batch_continues_past_failed_scene
                             (W := sample.cell_copy)))
               "/data" "/data/aligned_bands" 0 1 "/src/usgs_data/LC08_SR_B4.TIF"
               [] sample.lonely eq_refl).
    reflexivity.
Defined.

Lemma every_scene_has_B4_witness :
  exists file_name,
    py.endswith file_name "_SR_B4.TIF" = true /\
    is_Some (files sample.usgs !! py.join "usgs_data" file_name) /\
    "LC08" = py.replace file_name "_SR_B4.TIF" "" /\
    py.get sample.usgs_bands "B4" = Some (py.join "usgs_data" file_name).
Proof.
  apply (every_scene_has_B4 (files sample.usgs) "usgs_data" "LC08"
                            sample.usgs_bands).
  vm_compute. right. left. reflexivity.
Defined.

Lemma few_bands_are_aligned_witness :
  georeference_analysis.check_alignment (W := sample.cell_copy)
    [("B4", "nowhere/S_SR_B4.TIF")] sample.empty = (sample.empty, Ok true).
Proof.
  apply (few_bands_are_aligned (W := sample.cell_copy)). cbn. lia.
Defined.

(* ===================================================================== *)
(** * Part III: further properties of the modules                         *)
(* ===================================================================== *)

(** ** The two index scripts side by side *)

(** Values that compare equal are the same value, or two zeros. *)
Lemma f64_eqb_eq (x y : float) :
  F64.eqb x y = true ->
  x = y \/ exists s s', x = S754_zero s /\ y = S754_zero s'.
Proof.
  unfold F64.eqb, SFeqb, SFcompare.
  destruct x as [[]|[]| |[] mx ex], y as [[]|[]| |[] my ey]; cbn;
    try discriminate; auto; try (right; eauto; fail).
  all: destruct (Z.compare_spec ex ey) as [->| |]; try discriminate;
       change (Pos.compare_cont Eq mx my) with (mx ?= my)%positive;
       destruct (Pos.compare_spec mx my) as [->| |]; try discriminate; auto.
Qed.

Lemma f64_leb_cases (x y : float) :
  F64.leb x y = true -> F64.ltb x y = true \/ F64.eqb x y = true.
Proof.
  unfold F64.leb, F64.ltb, F64.eqb, SFleb, SFltb, SFeqb.
  destruct (SFcompare x y) as [[]|]; auto; discriminate.
Qed.

(** [np.clip] leaves a value between the limits as it is. *)
Lemma clip1_in_range_id (x : float) :
  F64.leb F64.neg_one x = true -> F64.leb x F64.one = true ->
  np.clip1 F64.neg_one F64.one x = x.
Proof.
  intros Hlo Hhi. unfold np.clip1.
  destruct (f64_leb_not_nan _ _ Hlo) as [_ ->].
  unfold F64.gtb.
  destruct (f64_leb_cases _ _ Hlo) as [L|E].
  - unfold F64.ltb in *. rewrite L.
    destruct (f64_leb_cases _ _ Hhi) as [L'|E'].
    + unfold F64.ltb in L'. now rewrite L'.
    + apply f64_eqb_eq in E' as [->|(s & s' & _ & [=])]. reflexivity.
  - apply f64_eqb_eq in E as [<-|(s & s' & [=] & _)]. reflexivity.
Qed.

Lemma clip1_nan (lo hi x : float) : F64.isnan x = true -> np.clip1 lo hi x = x.
Proof. unfold np.clip1. now intros ->. Qed.

Lemma map_map_id {A} (f : A -> A) (x : ndarray A) :
  (forall p, In p (concat x) -> f p = p) -> map (map f) x = x.
Proof.
  induction x as [|row x IH]; cbn; [reflexivity|]. intros H.
  rewrite IH by (intros; apply H, in_app_iff; now right). f_equal.
  rewrite <- (map_id row) at 2. apply map_ext_in.
  intros p Hp. apply H, in_app_iff. now left.
Qed.

(** X1.  Where the assertions of [src/vegetation-ortho.py] pass, the clip of
    the root script changes nothing: both scripts compute the same index,
    cell for cell and bit for bit. *)
Theorem clip_keeps_a_checked_index (nir red v : ndarray float) :
  ndvi_asserted nir red = Ok v -> ndvi_clipped nir red = Ok v.
Proof.
  intros Ha. destruct (ndvi_asserted_Ok _ _ _ Ha) as [Hm _].
  unfold ndvi_clipped. rewrite Hm. cbn. f_equal.
  unfold np.clip. apply map_map_id. intros p Hp.
  destruct (F64.isnan p) eqn:Hnan; [now apply clip1_nan|].
  destruct (asserted_index_in_range _ _ _ _ Hm Ha p Hp Hnan).
  now apply clip1_in_range_id.
Qed.

(** ** A scene without signal *)

Lemma In_concat_tabulate {A} h w (g : nat -> nat -> A) (v : A) :
  In v (concat (np.tabulate h w g)) <-> exists i j, i < h /\ j < w /\ v = g i j.
Proof.
  split.
  - intros (i & j & H)%In_cell. apply cell_tabulate_Some in H. eauto.
  - intros (i & j & Hi & Hj & ->). apply (cell_In _ i j).
    apply cell_tabulate_Some. auto.
Qed.

Lemma concat_tabulate_nil {A} h w (g g' : nat -> nat -> A) :
  concat (np.tabulate h w g) = [] -> concat (np.tabulate h w g') = [].
Proof.
  intros H. destruct (concat (np.tabulate h w g')) as [|v l] eqn:E; [reflexivity|].
  assert (Hin : In v (concat (np.tabulate h w g'))) by (rewrite E; now left).
  apply In_concat_tabulate in Hin as (i & j & Hi & Hj & _).
  assert (Hin : In (g i j) (concat (np.tabulate h w g)))
    by (apply In_concat_tabulate; eauto).
  rewrite H in Hin. destruct Hin.
Qed.

Lemma fmin_reduce_nan (l : list float) :
  (forall x, In x l -> x = F64.nan) -> fold_left np.fmin l F64.nan = F64.nan.
Proof.
  induction l as [|y l IH]; intros H; [reflexivity|]. cbn [fold_left].
  rewrite (H y) by now left. apply IH. intros; apply H; now right.
Qed.

(** X2.  The sum of the two bands is empty, or 0 in every cell: the masked
    index is NaN everywhere, and [src/vegetation-ortho.py] stops, with the
    [ValueError] of [np.nanmin] for an empty array and with the
    [AssertionError] of its first assertion otherwise, although no value
    is out of range.  The root script and [process_aligned_ndvi] go on
    with an index that is the fill value everywhere. *)
Theorem blank_scene_fails_the_assertion (nir red s : ndarray float) :
  np.add nir red = Ok s ->
  (forall v, In v (concat s) -> F64.eqb v F64.zero = true) ->
  ndvi_asserted nir red =
    Raise (match concat s with
           | [] => ValueError
           | _ :: _ => AssertionError out_of_range
           end) /\
  (exists out, ndvi_clipped nir red = Ok out /\ np.shape out = np.shape s /\
     forall v, In v (concat out) -> v = F64.nan) /\
  (exists out, ndvi_where nir red = Ok out /\ np.shape out = np.shape s /\
     forall v, In v (concat out) -> v = F64.zero).
Proof.
  intros Hs Hzero.
  destruct (ndvi_cells nir red s Hs) as (h & w & gd & gs & -> & _ & Hw & Hm).
  assert (Hz : forall i j, i < h -> j < w -> F64.eqb (gs i j) F64.zero = true).
  { intros i j Hi Hj. apply Hzero, In_concat_tabulate. eauto. }
  assert (Hm' : ndvi_masked nir red = Ok (np.tabulate h w (fun _ _ => F64.nan))).
  { rewrite Hm. f_equal. apply tabulate_ext. intros i j Hi Hj.
    now rewrite Hz. }
  assert (Hw' : ndvi_where nir red = Ok (np.tabulate h w (fun _ _ => F64.zero))).
  { rewrite Hw. f_equal. apply tabulate_ext. intros i j Hi Hj.
    now rewrite Hz. }
  split; [|split].
  - unfold ndvi_asserted. rewrite Hm'. cbn. unfold np.nanmin.
    destruct (concat (np.tabulate h w gs)) as [|v0 l0] eqn:E.
    + now rewrite (concat_tabulate_nil _ _ _ (fun _ _ => F64.nan) E).
    + destruct (concat (np.tabulate h w (fun _ _ => F64.nan))) as [|a l] eqn:E'.
      * apply (concat_tabulate_nil _ _ _ gs) in E'. congruence.
      * assert (Hall : forall x, In x (a :: l) -> x = F64.nan).
        { intros x Hx. rewrite <- E' in Hx.
          now apply In_concat_tabulate in Hx as (i & j & _ & _ & ->). }
        rewrite (Hall a) by now left.
        rewrite fmin_reduce_nan by (intros; apply Hall; now right).
        reflexivity.
  - unfold ndvi_clipped. rewrite Hm'. cbn. eexists. split; [reflexivity|].
    split.
    + unfold np.clip. now rewrite shape_map_map, !shape_tabulate.
    + unfold np.clip. rewrite map_map_tabulate. intros v Hv.
      now apply In_concat_tabulate in Hv as (i & j & _ & _ & ->).
  - eexists. split; [exact Hw'|]. split; [now rewrite !shape_tabulate|].
    intros v Hv. now apply In_concat_tabulate in Hv as (i & j & _ & _ & ->).
Qed.

(** ** The index under a swap of the bands *)

Lemma binary_round_aux_opp (s : bool) (m e : Z) (l : location) :
  binary_round_aux F64.prec F64.emax (negb s) m e l =
  SFopp (binary_round_aux F64.prec F64.emax s m e l).
Proof.
  unfold binary_round_aux.
  destruct (shr_fexp _ _ m e l) as [mrs' e'].
  destruct (shr_fexp _ _ _ e' loc_Exact) as [mrs'' e''].
  destruct (shr_m mrs''); [reflexivity| |reflexivity].
  now destruct (Z.leb _ _).
Qed.

Lemma binary_round_opp (s : bool) (m : positive) (e : Z) :
  binary_round F64.prec F64.emax (negb s) m e =
  SFopp (binary_round F64.prec F64.emax s m e).
Proof.
  unfold binary_round. destruct (shl_align _ _ _) as [mz ez].
  apply binary_round_aux_opp.
Qed.

Lemma binary_normalize_opp (z e : Z) :
  z <> 0%Z ->
  binary_normalize F64.prec F64.emax (- z) e false =
  SFopp (binary_normalize F64.prec F64.emax z e false).
Proof.
  destruct z as [|m|m]; [congruence| |]; intros _; cbn [Z.opp binary_normalize].
  - apply (binary_round_opp false).
  - apply (binary_round_opp true).
Qed.

Lemma f64_add_comm (x y : float) : F64.add x y = F64.add y x.
Proof.
  unfold F64.add, SFadd.
  destruct x as [[]|[]| |sx mx ex], y as [[]|[]| |sy my ey]; try reflexivity.
  cbn zeta. now rewrite (Z.min_comm ey ex), Z.add_comm.
Qed.

(** [y - x] is the negation of [x - y], unless both are [+0]. *)
Lemma f64_sub_swap (x y : float) :
  F64.sub y x = SFopp (F64.sub x y) \/
  F64.sub x y = F64.zero /\ F64.sub y x = F64.zero.
Proof.
  unfold F64.sub, SFsub.
  destruct x as [[]|[]| |sx mx ex], y as [[]|[]| |sy my ey]; cbn;
    try (left; reflexivity); try (right; split; reflexivity).
  all: try (left; match goal with b : bool |- _ => now destruct b end).
  rewrite (Z.min_comm ey ex).
  set (a := cond_Zopp sx _). set (b := cond_Zopp sy _).
  destruct (Z.eq_dec (a - b)%Z 0%Z) as [E|N].
  - right. replace (b - a)%Z with 0%Z by lia. rewrite E. split; reflexivity.
  - left. replace (b - a)%Z with (- (a - b))%Z by lia.
    now apply binary_normalize_opp.
Qed.

Lemma f64_div_opp (x y : float) :
  F64.div (SFopp x) y = SFopp (F64.div x y).
Proof.
  unfold F64.div, SFdiv.
  destruct x as [sx|sx| |sx mx ex], y as [sy|sy| |sy my ey]; cbn [SFopp];
    try reflexivity; try (now destruct sx, sy).
  destruct (SFdiv_core_binary _ _ _ _ _ _) as [[mz ez] lz].
  replace (xorb (negb sx) sy) with (negb (xorb sx sy)) by now destruct sx, sy.
  apply binary_round_aux_opp.
Qed.

Lemma negation_of_opp (p : float) : negation_of p (SFopp p).
Proof.
  destruct (F64.isnan p) eqn:E.
  - left. destruct p; try discriminate. auto.
  - right. apply f64_eqb_refl. now destruct p.
Qed.

(** A quotient of [+0] is NaN or a zero. *)
Lemma negation_of_div_zero (y : float) :
  negation_of (F64.div F64.zero y) (F64.div F64.zero y).
Proof.
  destruct y as [[]|[]| |[] my ey]; cbn; (left; split; reflexivity) || (right; reflexivity).
Qed.

(** The cells of the quotient under a swap of the operands of the
    difference. *)
Lemma negation_of_quotients (a b s : float) :
  negation_of (F64.div (F64.sub a b) s) (F64.div (F64.sub b a) s).
Proof.
  destruct (f64_sub_swap a b) as [->|[-> ->]].
  - rewrite f64_div_opp. apply negation_of_opp.
  - apply negation_of_div_zero.
Qed.

Lemma broadcast_dim_comm (n m : nat) :
  np.broadcast_dim n m = np.broadcast_dim m n.
Proof.
  unfold np.broadcast_dim.
  destruct (Nat.eqb_spec n m) as [->|N].
  - now rewrite Nat.eqb_refl.
  - destruct (Nat.eqb_spec m n) as [E|_]; [congruence|].
    destruct (Nat.eqb_spec n 1) as [->|], (Nat.eqb_spec m 1) as [->|];
      congruence.
Qed.

(** Both variants of the index, cell by cell, from the cells of the two
    bands. *)
Lemma ndvi_explicit (nir red : ndarray float) (h w : nat) :
  np.broadcast_dim (length nir) (length red) = Some h ->
  np.broadcast_dim (length (hd [] nir)) (length (hd [] red)) = Some w ->
  let a i j :=
    np.item F64.nan nir (np.bidx (length nir) i) (np.bidx (length (hd [] nir)) j) in
  let b i j :=
    np.item F64.nan red (np.bidx (length red) i) (np.bidx (length (hd [] red)) j) in
  np.add nir red = Ok (np.tabulate h w (fun i j => F64.add (a i j) (b i j))) /\
  np.subtract nir red = Ok (np.tabulate h w (fun i j => F64.sub (a i j) (b i j))) /\
  ndvi_where nir red =
    Ok (np.tabulate h w (fun i j =>
          if F64.eqb (F64.add (a i j) (b i j)) F64.zero then F64.zero
          else F64.div (F64.sub (a i j) (b i j)) (F64.add (a i j) (b i j)))) /\
  ndvi_masked nir red =
    Ok (np.tabulate h w (fun i j =>
          if F64.eqb (F64.add (a i j) (b i j)) F64.zero then F64.nan
          else F64.div (F64.sub (a i j) (b i j)) (F64.add (a i j) (b i j)))).
Proof.
  intros Hh Hw a b.
  assert (Hs : np.add nir red =
               Ok (np.tabulate h w (fun i j => F64.add (a i j) (b i j)))).
  { unfold np.add, np.ufunc2, np.shape. now rewrite Hh, Hw. }
  assert (Hd : np.subtract nir red =
               Ok (np.tabulate h w (fun i j => F64.sub (a i j) (b i j)))).
  { unfold np.subtract, np.ufunc2, np.shape. now rewrite Hh, Hw. }
  split; [exact Hs|]. split; [exact Hd|].
  unfold ndvi_where, ndvi_masked. rewrite Hd, Hs.
  unfold mbind, result_bind, np.divide, np.where_scalar, np.equal_scalar.
  rewrite ufunc2_tabulate, map_map_tabulate.
  now rewrite ufunc2_tabulate, setitem_mask_tabulate.
Qed.

(** X3.  The two variants of the index differ in the fill value and nowhere
    else: where the sum of the bands compares equal to zero the one
    holds [0] and the other NaN, and every other cell of both is the
    quotient of the difference by the sum. *)
Theorem index_variants_differ_only_in_fill (nir red s : ndarray float) :
  np.add nir red = Ok s ->
  exists d zero_filled nan_filled,
    np.subtract nir red = Ok d /\
    ndvi_where nir red = Ok zero_filled /\
    ndvi_masked nir red = Ok nan_filled /\
    np.shape d = np.shape s /\
    np.shape zero_filled = np.shape s /\
    np.shape nan_filled = np.shape s /\
    forall i j sum,
      np.cell s i j = Some sum ->
      exists diff,
        np.cell d i j = Some diff /\
        if F64.eqb sum F64.zero
        then np.cell zero_filled i j = Some F64.zero /\
             np.cell nan_filled i j = Some F64.nan
        else np.cell zero_filled i j = Some (F64.div diff sum) /\
             np.cell nan_filled i j = Some (F64.div diff sum).
Proof.
  intros Hs. pose proof Hs as Hs'.
  apply ufunc2_Ok in Hs' as (h & w & Hh & Hw & Es).
  destruct (ndvi_explicit nir red h w Hh Hw) as (_ & Hd & Hwhere & Hmasked).
  cbn zeta in *.
  eexists _, _, _. split; [exact Hd|]. split; [exact Hwhere|].
  split; [exact Hmasked|]. subst s.
  rewrite !shape_tabulate. do 3 (split; [reflexivity|]).
  intros i j sum Hc. apply cell_tabulate_Some in Hc as (Hi & Hj & ->).
  eexists. split; [apply cell_tabulate_Some; eauto|].
  destruct (F64.eqb _ F64.zero) eqn:E;
    split; apply cell_tabulate_Some; rewrite ?E; auto.
Qed.

(** X4.  Swapping the two bands negates the index: when the index of
    [(nir, red)] exists, so does the index of [(red, nir)], with the same
    shape, and each of its cells is the negation of the cell of the
    first; this holds for both fill values. *)
Theorem swapping_the_bands_negates_the_index (nir red s : ndarray float) :
  np.add nir red = Ok s ->
  exists zero_filled zero_filled' nan_filled nan_filled',
    ndvi_where nir red = Ok zero_filled /\
    ndvi_where red nir = Ok zero_filled' /\
    ndvi_masked nir red = Ok nan_filled /\
    ndvi_masked red nir = Ok nan_filled' /\
    np.shape zero_filled' = np.shape zero_filled /\
    np.shape nan_filled' = np.shape nan_filled /\
    forall i j,
      (forall p, np.cell zero_filled i j = Some p ->
         exists q, np.cell zero_filled' i j = Some q /\ negation_of p q) /\
      (forall p, np.cell nan_filled i j = Some p ->
         exists q, np.cell nan_filled' i j = Some q /\ negation_of p q).
Proof.
  intros Hs.
  apply ufunc2_Ok in Hs as (h & w & Hh & Hw & _).
  destruct (ndvi_explicit nir red h w Hh Hw) as (_ & _ & Hwhere & Hmasked).
  rewrite broadcast_dim_comm in Hh. rewrite broadcast_dim_comm in Hw.
  destruct (ndvi_explicit red nir h w Hh Hw) as (_ & _ & Hwhere' & Hmasked').
  cbn zeta in *.
  eexists _, _, _, _.
  split; [exact Hwhere|]. split; [exact Hwhere'|].
  split; [exact Hmasked|]. split; [exact Hmasked'|].
  rewrite !shape_tabulate. do 2 (split; [reflexivity|]).
  intros i j. split; intros p Hp;
    apply cell_tabulate_Some in Hp as (Hi & Hj & ->);
    (eexists; split; [apply cell_tabulate_Some; eauto|]);
    rewrite (f64_add_comm (np.item _ red _ _));
    destruct (F64.eqb _ F64.zero);
    try apply negation_of_quotients.
  - right. reflexivity.
  - left. split; reflexivity.
Qed.

(** ** The scenes of a data directory *)

Section more_dictionaries.

Context {V : Type}.
Implicit Types (d : py.dict V) (k : string) (v : V).

Lemma set_set d k v v' : py.set (py.set d k v) k v' = py.set d k v'.
Proof.
  induction d as [|[k0 v0] d IH]; cbn.
  - now rewrite String.eqb_refl.
  - destruct (String.eqb k0 k) eqn:E; cbn; rewrite E; [reflexivity|].
    now rewrite IH.
Qed.

Lemma keys_set_present d k v :
  is_Some (py.get d k) -> py.keys (py.set d k v) = py.keys d.
Proof.
  induction d as [|[k0 v0] d IH]; cbn; [intros [? [=]]|].
  destruct (String.eqb k0 k); [reflexivity|]. intros H. cbn.
  unfold py.keys in IH. now rewrite IH.
Qed.

Lemma get_None_keys d k : py.get d k = None <-> ~ In k (py.keys d).
Proof.
  induction d as [|[k0 v0] d IH]; cbn; [tauto|].
  destruct (String.eqb_spec k0 k) as [->|Hne].
  - split; [discriminate | intros H; exfalso; auto].
  - rewrite IH. unfold py.keys. tauto.
Qed.

Lemma NoDup_keys_set d k v : NoDup (py.keys d) -> NoDup (py.keys (py.set d k v)).
Proof.
  intros Hnd. destruct (py.get d k) as [v0|] eqn:E.
  - now rewrite keys_set_present by eauto.
  - rewrite keys_set_fresh by assumption.
    apply get_None_keys in E.
    rewrite NoDup_app. split; [exact Hnd|]. split; [|apply NoDup_singleton].
    intros x Hx ->%list_elem_of_singleton. apply E. now apply list_elem_of_In.
Qed.

End more_dictionaries.

Section scenes_found.

Import rasterio band_aligner.

(** One turn of the loop of [_find_scenes] enters the scene of the file
    with its B4 band, and with its B5 band when that file exists. *)
Lemma add_scene_eq (fs : gmap string File) (dir : string)
    (scenes : py.dict (py.dict string)) (file_name : string) :
  add_scene fs dir scenes file_name =
  py.set scenes (py.replace file_name "_SR_B4.TIF" "")
    (let b5_file := py.join dir (py.replace file_name "B4.TIF" "B5.TIF") in
     if bool_decide (is_Some (fs !! b5_file))
     then [("B4", py.join dir file_name); ("B5", b5_file)]
     else [("B4", py.join dir file_name)]).
Proof.
  unfold add_scene. cbn zeta. destruct (bool_decide _); [|reflexivity].
  now rewrite get_set_eq, set_set.
Qed.

(** A property of all entries that the loop of [_find_scenes] makes
    holds of all scenes that it returns. *)
Lemma find_scenes_entries (fs : gmap string File) (dir : string)
    (P : string -> py.dict string -> Prop) (names : list string)
    (scenes : py.dict (py.dict string)) :
  (forall n, In n names ->
     P (py.replace n "_SR_B4.TIF" "")
       (if bool_decide
             (is_Some (fs !! py.join dir (py.replace n "B4.TIF" "B5.TIF")))
        then [("B4", py.join dir n);
              ("B5", py.join dir (py.replace n "B4.TIF" "B5.TIF"))]
        else [("B4", py.join dir n)])) ->
  (forall k v, In (k, v) scenes -> P k v) ->
  forall k v, In (k, v) (fold_left (add_scene fs dir) names scenes) -> P k v.
Proof.
  revert scenes. induction names as [|n names IH]; intros scenes Hn Hinv;
    cbn [fold_left]; [exact Hinv|].
  apply IH; [intros; apply Hn; now right|].
  intros k v. rewrite add_scene_eq. cbn zeta.
  intros [[-> ->]|Hin]%In_set; [apply Hn; now left | auto].
Qed.

(** X5.  What [_find_scenes] records for a scene is a B4 file of the
    directory, followed by its B5 file exactly when that file exists. *)
Theorem scene_bands_are_B4_then_B5 (fs : gmap string File) (dir : string)
    (scene_name : string) (bands : py.dict string) :
  In (scene_name, bands) (_find_scenes fs dir) ->
  exists file_name,
    In file_name (entries fs dir) /\
    py.endswith file_name "_SR_B4.TIF" = true /\
    scene_name = py.replace file_name "_SR_B4.TIF" "" /\
    let b4_file := py.join dir file_name in
    let b5_file := py.join dir (py.replace file_name "B4.TIF" "B5.TIF") in
    (is_Some (fs !! b5_file) /\ bands = [("B4", b4_file); ("B5", b5_file)]) \/
    (fs !! b5_file = None /\ bands = [("B4", b4_file)]).
Proof.
  revert scene_name bands. unfold _find_scenes.
  apply (find_scenes_entries fs dir (fun scene_name bands =>
    exists file_name,
      In file_name (entries fs dir) /\
      py.endswith file_name "_SR_B4.TIF" = true /\
      scene_name = py.replace file_name "_SR_B4.TIF" "" /\
      let b4_file := py.join dir file_name in
      let b5_file := py.join dir (py.replace file_name "B4.TIF" "B5.TIF") in
      (is_Some (fs !! b5_file) /\ bands = [("B4", b4_file); ("B5", b5_file)]) \/
      (fs !! b5_file = None /\ bands = [("B4", b4_file)]))).
  - intros n [Hentry Hsuffix]%filter_In. exists n.
    split; [exact Hentry|]. split; [exact Hsuffix|]. split; [reflexivity|].
    cbn zeta. case_bool_decide as Hb5; [left; auto|right].
    split; [|reflexivity].
    destruct (fs !! _) eqn:E; [exfalso; apply Hb5; eauto | reflexivity].
  - intros k v [].
Qed.

(** X6.  Every file of the directory whose name ends in [_SR_B4.TIF] names a
    scene, and no scene is listed twice. *)
Theorem every_B4_file_names_a_scene (fs : gmap string File) (dir : string) :
  (forall file_name,
     In file_name (entries fs dir) ->
     py.endswith file_name "_SR_B4.TIF" = true ->
     is_Some (py.get (_find_scenes fs dir)
                     (py.replace file_name "_SR_B4.TIF" ""))) /\
  NoDup (py.keys (_find_scenes fs dir)) /\
  py.len (_find_scenes fs dir) <= length (glob_suffix fs dir "_SR_B4.TIF").
Proof.
  unfold _find_scenes.
  assert (Hfold : forall names scenes,
            NoDup (py.keys scenes) ->
            let result := fold_left (add_scene fs dir) names scenes in
            (forall k, is_Some (py.get scenes k) \/
                       (exists n, In n names /\ k = py.replace n "_SR_B4.TIF" "") ->
                       is_Some (py.get result k)) /\
            NoDup (py.keys result) /\
            py.len result <= py.len scenes + length names).
  { induction names as [|n names IH]; intros scenes Hnd; cbn zeta;
      cbn [fold_left].
    - split; [|split; [exact Hnd | cbn; lia]].
      intros k [H|(n & [] & _)]. exact H.
    - destruct (IH (add_scene fs dir scenes n)) as (H1 & H2 & H3).
      { rewrite add_scene_eq. now apply NoDup_keys_set. }
      split; [|split; [exact H2|]].
      + intros k Hk. apply H1. rewrite add_scene_eq, get_is_Some_set.
        destruct Hk as [Hk|(n' & [<-|Hin] & ->)]; eauto.
      + etransitivity; [exact H3|]. rewrite add_scene_eq. cbn [length].
        assert (py.len (py.set scenes (py.replace n "_SR_B4.TIF" "")
                  (if bool_decide
                        (is_Some (fs !! py.join dir (py.replace n "B4.TIF" "B5.TIF")))
                   then [("B4", py.join dir n);
                         ("B5", py.join dir (py.replace n "B4.TIF" "B5.TIF"))]
                   else [("B4", py.join dir n)])) <= S (py.len scenes)); [|lia].
        generalize (if bool_decide
                        (is_Some (fs !! py.join dir (py.replace n "B4.TIF" "B5.TIF")))
                   then [("B4", py.join dir n);
                         ("B5", py.join dir (py.replace n "B4.TIF" "B5.TIF"))]
                   else [("B4", py.join dir n)]) as v.
        intros v. unfold py.len. clear. induction scenes as [|[k0 v0] d IHd]; cbn.
        * lia.
        * destruct (String.eqb k0 _); cbn; lia. }
  destruct (Hfold (glob_suffix fs dir "_SR_B4.TIF") []) as (H1 & H2 & H3);
    [constructor|].
  split; [|split; [exact H2 | exact H3]].
  intros file_name Hentry Hsuffix. apply H1. right. exists file_name.
  split; [|reflexivity]. apply filter_In. auto.
Qed.

End scenes_found.

(** ** The summary of a scene *)

Section summary_facts.

Import rasterio georeference_analysis.
Context `{W : Warp}.

Lemma others_match_result_ext (ref_info : Info) (rest : list string)
    (w1 w2 : World) :
  files w1 = files w2 ->
  (others_match ref_info rest w1).2 = (others_match ref_info rest w2).2.
Proof.
  revert w1 w2. induction rest as [|band_file rest IH]; intros w1 w2 E;
    [reflexivity|].
  cbn [others_match]. unfold io_bind.
  pose proof (get_info_result_ext band_file w1 w2 E) as Hr.
  destruct (get_info_files band_file w1) as [Hf1 _].
  destruct (get_info_files band_file w2) as [Hf2 _].
  destruct (get_info band_file w1) as [w1' r1], (get_info band_file w2) as [w2' r2].
  cbn in *. subst r2. destruct r1 as [band_info|err]; [|reflexivity].
  destruct (_ || _); [reflexivity|]. apply IH. congruence.
Qed.

Lemma check_alignment_result_ext (bands : py.dict string) (w1 w2 : World) :
  files w1 = files w2 ->
  (check_alignment bands w1).2 = (check_alignment bands w2).2.
Proof.
  intros E. unfold check_alignment.
  destruct (py.len bands <? 2); [reflexivity|].
  destruct (py.values bands) as [|first_band rest]; [reflexivity|].
  unfold io_bind.
  pose proof (get_info_result_ext first_band w1 w2 E) as Hr.
  destruct (get_info_files first_band w1) as [Hf1 _].
  destruct (get_info_files first_band w2) as [Hf2 _].
  destruct (get_info first_band w1) as [w1' r1], (get_info first_band w2) as [w2' r2].
  cbn in *. subst r2. destruct r1 as [ref_info|err]; [|reflexivity].
  apply others_match_result_ext. congruence.
Qed.

Lemma check_alignment_files (bands : py.dict string) (w : World) :
  files (check_alignment bands w).1 = files w /\
  stdout (check_alignment bands w).1 = stdout w.
Proof.
  unfold check_alignment.
  destruct (py.len bands <? 2); [now cbn|].
  destruct (py.values bands) as [|first_band rest]; [now cbn|].
  unfold io_bind.
  destruct (get_info_files first_band w) as [Hf Hs].
  destruct (get_info first_band w) as [w1 [ref_info|err]]; cbn in *; [|auto].
  destruct (others_match_files ref_info rest w1) as [Hf' Hs'].
  split; congruence.
Qed.

(** X7.  [get_summary] puts together what [get_info] returns for the first
    band and what [check_alignment] returns for the mapping, and raises
    what the first of them raises; it prints nothing and writes nothing.
    An empty mapping gives the error entry without a file being opened.
    For a single band that cannot be read, [check_alignment] returns
    [True] and [get_summary] raises the exception of [rasterio.open]. *)
Theorem summary_agrees_with_its_parts (bands : py.dict string) (w : World) :
  files (get_summary bands w).1 = files w /\
  stdout (get_summary bands w).1 = stdout w /\
  (get_summary bands w).2 =
    match py.values bands with
    | [] => Ok (SummaryError "No bands found")
    | first_band :: _ =>
        match (get_info first_band w).2 with
        | Raise err => Raise err
        | Ok geo_info =>
            match (check_alignment bands w).2 with
            | Raise err => Raise err
            | Ok bands_aligned =>
                Ok (SummaryOf (py.keys bands) bands_aligned geo_info)
            end
        end
    end /\
  (bands = [] -> get_summary bands w = (w, Ok (SummaryError "No bands found"))) /\
  (forall band_name band_file,
     bands = [(band_name, band_file)] ->
     (forall src, files w !! band_file <> Some (Raster src)) ->
     check_alignment bands w = (w, Ok true) /\
     (get_summary bands w).2 = Raise (RasterioIOError band_file)).
Proof.
  assert (Hmain :
    files (get_summary bands w).1 = files w /\
    stdout (get_summary bands w).1 = stdout w /\
    (get_summary bands w).2 =
      match py.values bands with
      | [] => Ok (SummaryError "No bands found")
      | first_band :: _ =>
          match (get_info first_band w).2 with
          | Raise err => Raise err
          | Ok geo_info =>
              match (check_alignment bands w).2 with
              | Raise err => Raise err
              | Ok bands_aligned =>
                  Ok (SummaryOf (py.keys bands) bands_aligned geo_info)
              end
          end
      end).
  { unfold get_summary.
    destruct (py.values bands) as [|first_band rest]; [now cbn|].
    unfold io_bind.
    destruct (get_info_files first_band w) as [Hf Hs].
    destruct (get_info first_band w) as [w1 [geo_info|err]]; cbn in *; [|auto].
    destruct (check_alignment_files bands w1) as [Hf' Hs'].
    rewrite <- (check_alignment_result_ext bands w1 w Hf).
    destruct (check_alignment bands w1) as [w2 [b|err]]; cbn in *;
      (split; [congruence|]); (split; [congruence|]); reflexivity. }
  destruct Hmain as (H1 & H2 & H3).
  split; [exact H1|]. split; [exact H2|]. split; [exact H3|]. split.
  - intros ->. reflexivity.
  - intros band_name band_file -> Hno. split; [reflexivity|].
    rewrite H3. cbn. rewrite get_info_eq.
    destruct (files w !! band_file) as [[src|]|] eqn:E; [|reflexivity..].
    now destruct (Hno src).
Qed.

End summary_facts.

(** ** Consistency of the CRS *)

Section crs_facts.

Import rasterio georeference_analysis.
Context `{W : Warp}.

(** The CRS in the record of [get_info] is that of the file. *)
Lemma get_info_Ok (filepath : string) (w : World) (info : Info) :
  (get_info filepath w).2 = Ok info ->
  exists src, files w !! filepath = Some (Raster src) /\
              info_crs info = ds_crs src /\
              shape info = (ds_height src, ds_width src).
Proof.
  rewrite get_info_eq.
  destruct (files w !! filepath) as [[src|]|]; try discriminate.
  cbn zeta. destruct (bool_decide _); cbn.
  - intros [= <-]. eauto.
  - destruct (transform_bounds _ _ _); [|discriminate]. intros [= <-]. eauto.
Qed.

Lemma different_crs_dec (out : list Message) :
  (forall name c, ~ In (DifferentCrs name c) out) \/
  (exists name c, In (DifferentCrs name c) out).
Proof.
  induction out as [|m out [IH|(name & c & IH)]].
  - left. intros ? ? [].
  - destruct m; try (left; intros ? ? [[=]|?]; eapply IH; eauto; fail).
    right. eexists _, _. now left.
  - right. exists name, c. now right.
Qed.

(** The line that [check_crs] prints for a band. *)
Lemma check_crs_bands_report (ref_band : string) (ref_crs : option CRS)
    (band_items : list (string * string)) (crs_consistent : bool) (w : World) :
  (forall name file, In (name, file) band_items -> name <> ref_band ->
     exists info, (get_info file w).2 = Ok info) ->
  exists w' out b,
    check_crs_bands ref_band ref_crs band_items crs_consistent w = (w', Ok b) /\
    files w' = files w /\ stdout w' = (stdout w ++ out)%list /\
    (forall m, In m out <->
       exists name file info,
         In (name, file) band_items /\ name <> ref_band /\
         (get_info file w).2 = Ok info /\
         m = if bool_decide (info_crs info = ref_crs) then SameCrs name
             else DifferentCrs name (info_crs info)) /\
    (b = true <-> crs_consistent = true /\
                  forall name c, ~ In (DifferentCrs name c) out).
Proof.
  revert crs_consistent w.
  induction band_items as [|[band_name band_file] rest IH]; intros acc w Hread.
  - exists w, [], acc. cbn. rewrite app_nil_r.
    split; [reflexivity|]. split; [reflexivity|]. split; [reflexivity|]. split.
    + intros m. split; [intros [] | intros (? & ? & ? & [] & _)].
    + split; [intros ->; split; [reflexivity | intros ? ? []] | now intros [-> _]].
  - cbn [check_crs_bands].
    destruct (String.eqb_spec band_name ref_band) as [->|Hne].
    + destruct (IH acc w) as (w' & out & b & E & Hf & Hs & Hm & Hb).
      { intros n f Hin. apply Hread. now right. }
      exists w', out, b.
      split; [exact E|]. split; [exact Hf|]. split; [exact Hs|].
      split; [|exact Hb].
      intros m. rewrite Hm. split.
      * intros (n & f & i & Hin & ?). exists n, f, i. split; [now right | assumption].
      * intros (n & f & i & [[= -> ->]|Hin] & Hn & Hi & Hmsg); [congruence|].
        exists n, f, i. auto.
    + destruct (Hread band_name band_file (or_introl eq_refl) Hne)
        as [info Hinfo].
      unfold io_bind at 1.
      destruct (get_info_files band_file w) as [Hf1 Hs1].
      destruct (get_info band_file w) as [w1 r1] eqn:E1. cbn in Hinfo, Hf1, Hs1.
      subst r1.
      assert (Hext : forall f w2, files w2 = files w ->
                (get_info f w2).2 = (get_info f w).2)
        by (intros; now apply get_info_result_ext).
      set (line := if bool_decide (info_crs info = ref_crs) then SameCrs band_name
                   else DifferentCrs band_name (info_crs info)).
      destruct (IH (if bool_decide (info_crs info = ref_crs) then acc else false)
                   (mkWorld (files w1) (stdout w1 ++ [line]) (calls w1)))
        as (w' & out & b & E & Hf & Hs & Hm & Hb).
      { intros n f Hin Hn. rewrite Hext by (cbn; assumption).
        apply (Hread n f); [now right|assumption]. }
      exists w', (line :: out), b. cbn in Hf, Hs.
      split.
      { rewrite <- E. unfold line. destruct (bool_decide _); reflexivity. }
      split; [congruence|].
      split; [rewrite Hs, Hs1, <- app_assoc; reflexivity|].
      split.
      * intros m. cbn [In]. rewrite Hm. split.
        -- intros [<-|(n & f & i & Hin & Hn & Hi & Hmsg)].
           ++ exists band_name, band_file, info. rewrite E1. cbn.
              split; [now left|auto].
           ++ exists n, f, i. rewrite Hext in Hi by (cbn; assumption).
              split; [now right|auto].
        -- intros (n & f & i & [[= -> ->]|Hin] & Hn & Hi & Hmsg).
           ++ left. rewrite E1 in Hi. cbn in Hi. injection Hi as <-.
              now rewrite Hmsg.
           ++ right. exists n, f, i. rewrite Hext by (cbn; assumption). auto.
      * rewrite Hb. unfold line. destruct (bool_decide _); cbn [In].
        -- split; intros [Ha Hno]; (split; [exact Ha|]).
           ++ intros n c [[=]|Hin]. now apply (Hno n c).
           ++ intros n c Hin. apply (Hno n c). now right.
        -- split; [intros [[=] _]|]. intros [_ Hno]. exfalso.
           apply (Hno band_name (info_crs info)). now left.
Qed.

(** X8.  For two or more bands that can all be read, [check_crs] prints one
    line for each band after the first: "Same CRS" when the CRS of the
    file is that of the first band's file, "Different CRS" with the CRS
    of the file otherwise.  It ends with "All bands have consistent CRS"
    exactly when no band was found different, and with "CRS mismatches
    detected" exactly when one was.  It writes no file. *)
Theorem crs_check_reports_each_band (bands : py.dict string)
    (ref_band ref_file : string) (more : list (string * string))
    (ref : Dataset) (w : World) :
  bands = (ref_band, ref_file) :: more -> 2 <= py.len bands ->
  NoDup (py.keys bands) ->
  files w !! ref_file = Some (Raster ref) ->
  (forall name file, In (name, file) bands ->
     exists info, (get_info file w).2 = Ok info) ->
  exists out,
    (check_crs bands w).2 = Ok tt /\
    files (check_crs bands w).1 = files w /\
    stdout (check_crs bands w).1 = (stdout w ++ out)%list /\
    (forall name,
       In (SameCrs name) out <->
       exists file src, In (name, file) more /\
         files w !! file = Some (Raster src) /\ ds_crs src = ds_crs ref) /\
    (forall name c,
       In (DifferentCrs name c) out <->
       exists file src, In (name, file) more /\
         files w !! file = Some (Raster src) /\ ds_crs src = c /\
         c <> ds_crs ref) /\
    (In AllBandsConsistentCrs out <->
       forall name c, ~ In (DifferentCrs name c) out) /\
    (In CrsMismatchesDetected out <->
       exists name c, In (DifferentCrs name c) out).
Proof.
  intros -> Hlen Hnd Href Hread.
  cbn in Hnd. apply NoDup_cons in Hnd as [Hfresh _].
  assert (Hother : forall name file, In (name, file) more -> name <> ref_band).
  { intros name file Hin ->. apply Hfresh, list_elem_of_In.
    change (In ref_band (map fst more)). apply in_map_iff.
    now exists (ref_band, file). }
  destruct (Hread ref_band ref_file (or_introl eq_refl)) as [ref_info Hinfo].
  destruct (get_info_Ok _ _ _ Hinfo) as (ref' & Href' & Hcrs & _).
  rewrite Href in Href'. injection Href' as <-.
  destruct (get_info_files ref_file w) as [Hf1 Hs1].
  destruct (get_info ref_file w) as [w1 r1] eqn:E1. cbn in Hinfo, Hf1, Hs1.
  subst r1.
  set (w2 := mkWorld (files w1)
               ((stdout w1 ++ [CrsConsistencyCheck ref_band]) ++
                [ReferenceCrs (info_crs ref_info)])
               (calls w1)).
  assert (Hext : forall f, (get_info f w2).2 = (get_info f w).2)
    by (intros; now apply get_info_result_ext).
  destruct (check_crs_bands_report ref_band (info_crs ref_info)
              ((ref_band, ref_file) :: more) true w2)
    as (w' & out & b & E & Hf & Hs & Hm & Hb).
  { intros n f Hin Hn. rewrite Hext. eauto. }
  assert (Hcheck : check_crs ((ref_band, ref_file) :: more) w =
            (if b then print AllBandsConsistentCrs
             else print CrsMismatchesDetected) w').
  { unfold check_crs.
    destruct (Nat.ltb_spec (py.len ((ref_band, ref_file) :: more)) 2) as [|_];
      [lia|].
    unfold py.items, io_bind. rewrite E1. cbn [print files stdout calls].
    fold w2. now rewrite E. }
  assert (Hline : forall m, In m out <->
            exists name file src, In (name, file) more /\
              files w !! file = Some (Raster src) /\
              m = if bool_decide (ds_crs src = ds_crs ref) then SameCrs name
                  else DifferentCrs name (ds_crs src)).
  { intros m. rewrite Hm. split.
    - intros (n & f & i & [[= -> ->]|Hin] & Hn & Hi & ->); [congruence|].
      rewrite Hext in Hi.
      destruct (get_info_Ok _ _ _ Hi) as (src & Hsrc & Hc & _).
      exists n, f, src. rewrite Hc, Hcrs. auto.
    - intros (n & f & src & Hin & Hsrc & ->).
      destruct (Hread n f (or_intror Hin)) as [i Hi].
      destruct (get_info_Ok _ _ _ Hi) as (src' & Hsrc' & Hc & _).
      rewrite Hsrc in Hsrc'. injection Hsrc' as <-.
      exists n, f, i. rewrite Hext, Hc, Hcrs.
      split; [now right|]. split; [eauto|]. auto. }
  assert (Hsame : forall name,
            In (SameCrs name) out <->
            exists file src, In (name, file) more /\
              files w !! file = Some (Raster src) /\ ds_crs src = ds_crs ref).
  { intros name. rewrite Hline. split.
    - intros (n & f & src & Hin & Hsrc & Hmsg).
      case_bool_decide; [|discriminate]. injection Hmsg as ->. eauto.
    - intros (f & src & Hin & Hsrc & Hc). exists name, f, src.
      rewrite bool_decide_eq_true_2 by assumption. auto. }
  assert (Hdiff : forall name c,
            In (DifferentCrs name c) out <->
            exists file src, In (name, file) more /\
              files w !! file = Some (Raster src) /\ ds_crs src = c /\
              c <> ds_crs ref).
  { intros name c. rewrite Hline. split.
    - intros (n & f & src & Hin & Hsrc & Hmsg).
      case_bool_decide; [discriminate|]. injection Hmsg as -> ->.
      exists f, src. auto.
    - intros (f & src & Hin & Hsrc & <- & Hc). exists name, f, src.
      rewrite bool_decide_eq_false_2 by assumption. auto. }
  rewrite Hcheck. cbn in Hs, Hf.
  assert (Hhead : stdout w' =
            (stdout w ++ [CrsConsistencyCheck ref_band;
                          ReferenceCrs (info_crs ref_info)] ++ out)%list).
  { rewrite Hs, Hs1, <- !app_assoc. reflexivity. }
  assert (Hnot : forall m, In m out ->
            m <> AllBandsConsistentCrs /\ m <> CrsMismatchesDetected).
  { intros m (n & f & src & _ & _ & ->)%Hline.
    destruct (bool_decide _); split; discriminate. }
  destruct b.
  - exists ([CrsConsistencyCheck ref_band; ReferenceCrs (info_crs ref_info)]
            ++ out ++ [AllBandsConsistentCrs])%list.
    cbn [print fst snd stdout files].
    split; [reflexivity|]. split; [congruence|].
    split; [rewrite Hhead, <- !app_assoc; reflexivity|].
    destruct Hb as [Hb _]. destruct (Hb eq_refl) as [_ Hno].
    assert (Hin : forall m, m <> AllBandsConsistentCrs ->
              m <> CrsConsistencyCheck ref_band ->
              m <> ReferenceCrs (info_crs ref_info) ->
              (In m ([CrsConsistencyCheck ref_band;
                      ReferenceCrs (info_crs ref_info)]
                     ++ out ++ [AllBandsConsistentCrs]) <-> In m out)).
    { intros m H1 H2 H3. cbn. rewrite in_app_iff. cbn.
      split; [intros [?|[?|[?|[?|[]]]]]; congruence || auto | auto]. }
    split; [intros name; rewrite Hin by discriminate; apply Hsame|].
    split; [intros name c; rewrite Hin by discriminate; apply Hdiff|].
    split.
    + split; [|intros _; cbn; rewrite in_app_iff; cbn; auto].
      intros _ name c. rewrite Hin by discriminate. apply Hno.
    + split.
      * cbn. rewrite in_app_iff. cbn.
        intros [[=]|[[=]|[Hc|[[=]|[]]]]]. now apply Hnot in Hc.
      * intros (name & c & Hc). rewrite Hin in Hc by discriminate.
        destruct (Hno _ _ Hc).
  - exists ([CrsConsistencyCheck ref_band; ReferenceCrs (info_crs ref_info)]
            ++ out ++ [CrsMismatchesDetected])%list.
    cbn [print fst snd stdout files].
    split; [reflexivity|]. split; [congruence|].
    split; [rewrite Hhead, <- !app_assoc; reflexivity|].
    assert (Hsome : exists name c, In (DifferentCrs name c) out).
    { destruct (different_crs_dec out) as [Hno|Hyes]; [|exact Hyes].
      exfalso. assert (false = true); [|discriminate]. apply Hb. auto. }
    assert (Hin : forall m, m <> CrsMismatchesDetected ->
              m <> CrsConsistencyCheck ref_band ->
              m <> ReferenceCrs (info_crs ref_info) ->
              (In m ([CrsConsistencyCheck ref_band;
                      ReferenceCrs (info_crs ref_info)]
                     ++ out ++ [CrsMismatchesDetected]) <-> In m out)).
    { intros m H1 H2 H3. cbn. rewrite in_app_iff. cbn.
      split; [intros [?|[?|[?|[?|[]]]]]; congruence || auto | auto]. }
    split; [intros name; rewrite Hin by discriminate; apply Hsame|].
    split; [intros name c; rewrite Hin by discriminate; apply Hdiff|].
    split.
    + split.
      * cbn. rewrite in_app_iff. cbn.
        intros [[=]|[[=]|[Hc|[[=]|[]]]]]. now apply Hnot in Hc.
      * intros Hno. destruct Hsome as (name & c & Hc).
        exfalso. apply (Hno name c). now rewrite Hin by discriminate.
    + split; [|intros _; cbn; rewrite in_app_iff; cbn; auto].
      intros _. destruct Hsome as (name & c & Hc). exists name, c.
      now rewrite Hin by discriminate.
Qed.

End crs_facts.

(** ** Raw bounds *)

Lemma f64_sub_self (x : float) :
  F64.isfinite x = true -> F64.abs (F64.sub x x) = F64.zero.
Proof.
  destruct x as [[]| | |s m e]; try discriminate; intros _; try reflexivity.
  unfold F64.sub, SFsub. cbn zeta. now rewrite Z.sub_diag.
Qed.

Lemma max_diff_self (b : rasterio.Bounds) :
  bounds_are_finite b -> georeference_analysis.max_diff b b = F64.zero.
Proof.
  intros (H1 & H2 & H3 & H4). unfold georeference_analysis.max_diff.
  now rewrite !f64_sub_self.
Qed.

Section raw_bounds_facts.

Import rasterio georeference_analysis.

(** The loop of [check_raw_bounds] opens files and does nothing else to
    the world but print. *)
Lemma check_raw_bounds_bands_reads (ref_band : string)
    (band_items : list (string * string)) (ref_bounds : option Bounds)
    (w : World) :
  exists n,
    files (check_raw_bounds_bands ref_band band_items ref_bounds w).1 = files w /\
    calls (check_raw_bounds_bands ref_band band_items ref_bounds w).1 =
      (calls w ++ map OpenRead (take n (map snd band_items)))%list.
Proof.
  revert ref_bounds w.
  induction band_items as [|[band_name band_file] rest IH]; intros rb w.
  - exists 0. cbn. now rewrite app_nil_r.
  - cbn [check_raw_bounds_bands]. io_step.
    destruct (files w !! band_file) as [[src|]|];
      try (exists 1; cbn; rewrite take_0; auto; fail).
    do 3 io_step.
    destruct (String.eqb band_name ref_band).
    + do 2 io_step.
      match goal with |- context [check_raw_bounds_bands _ _ ?rb' ?w'] =>
        destruct (IH rb' w') as (n & Hf & Hc) end.
      exists (S n). cbn [files calls] in *. rewrite Hf, Hc, <- app_assoc.
      split; reflexivity.
    + destruct rb as [rb|].
      * do 4 io_step.
        match goal with |- context [check_raw_bounds_bands _ _ ?rb' ?w'] =>
          destruct (IH rb' w') as (n & Hf & Hc) end.
        exists (S n). cbn [files calls] in *. rewrite Hf, Hc, <- app_assoc.
        split; reflexivity.
      * do 2 io_step.
        match goal with |- context [check_raw_bounds_bands _ _ ?rb' ?w'] =>
          destruct (IH rb' w') as (n & Hf & Hc) end.
        exists (S n). cbn [files calls] in *. rewrite Hf, Hc, <- app_assoc.
        split; reflexivity.
Qed.

(** Once the reference has been read, every other band is compared with
    it. *)
Lemma check_raw_bounds_bands_run (ref_band : string)
    (band_items : list (string * string)) (rb : Bounds) (w : World) :
  ~ In ref_band (map fst band_items) ->
  Forall (fun file => exists src, files w !! file = Some (Raster src))
         (map snd band_items) ->
  exists out,
    check_raw_bounds_bands ref_band band_items (Some rb) w =
      (mkWorld (files w) (stdout w ++ out)
               (calls w ++ map OpenRead (map snd band_items)), Ok tt) /\
    forall name file src,
      In (name, file) band_items -> files w !! file = Some (Raster src) ->
      exists pre post,
        out = (pre ++ raw_bounds_lines ref_band rb name src ++ post)%list.
Proof.
  revert w.
  induction band_items as [|[band_name band_file] rest IH]; intros w Hfresh Hall.
  - exists []. cbn. rewrite !app_nil_r. split; [now destruct w|].
    intros ? ? ? [].
  - cbn [map fst snd] in Hfresh, Hall.
    apply Forall_cons in Hall as [(src & Hsrc) Hall].
    assert (Hne : band_name <> ref_band) by (intros ->; apply Hfresh; now left).
    cbn [check_raw_bounds_bands]. io_step. rewrite Hsrc.
    do 3 io_step.
    apply String.eqb_neq in Hne. rewrite Hne. cbv iota. do 4 io_step.
    match goal with |- context [check_raw_bounds_bands _ _ _ ?w'] =>
      destruct (IH w') as (out & E & Hout) end.
    { intros Hin. apply Hfresh. now right. }
    { exact Hall. }
    exists (raw_bounds_lines ref_band rb band_name src ++ out)%list.
    split.
    + rewrite E. cbn [files stdout calls]. f_equal. f_equal.
      * unfold raw_bounds_lines. now rewrite <- !app_assoc.
      * now rewrite <- app_assoc.
    + intros name file src' [[= -> ->]|Hin] Hsrc'.
      * rewrite Hsrc in Hsrc'. injection Hsrc' as <-.
        exists [], out. reflexivity.
      * destruct (Hout name file src' Hin Hsrc') as (pre & post & ->).
        exists (raw_bounds_lines ref_band rb band_name src ++ pre)%list, post.
        now rewrite <- app_assoc.
Qed.

(** X9.  [check_raw_bounds] never asks for a conversion of coordinates: all
    it does besides printing is to open band files, in the order of the
    mapping, and it writes none.  So it returns whenever the files are
    rasters, whatever their CRS. *)
Theorem raw_bounds_check_only_reads (bands : py.dict string) (w : World) :
  files (check_raw_bounds bands w).1 = files w /\
  (exists n,
     calls (check_raw_bounds bands w).1 =
       (calls w ++ map OpenRead (take n (py.values bands)))%list) /\
  (2 <= py.len bands ->
   NoDup (py.keys bands) ->
   Forall (fun file => exists src, files w !! file = Some (Raster src))
          (py.values bands) ->
   (check_raw_bounds bands w).2 = Ok tt /\
   calls (check_raw_bounds bands w).1 =
     (calls w ++ map OpenRead (py.values bands))%list).
Proof.
  unfold check_raw_bounds.
  destruct (Nat.ltb_spec (py.len bands) 2) as [Hlt|Hge].
  - split; [reflexivity|]. split; [|lia].
    exists 0. cbn. now rewrite app_nil_r.
  - do 2 io_step.
    destruct bands as [|[ref_band ref_file] more]; [cbn in Hge; lia|].
    cbn [py.keys map fst].
    match goal with |- context [io_bind (check_raw_bounds_bands ?r ?i ?b) ?k ?w'] =>
      destruct (check_raw_bounds_bands_reads r i b w') as (n & Hf & Hc);
      set (w0 := w') in * end.
    split; [|split].
    + unfold io_bind.
      destruct (check_raw_bounds_bands _ _ _ w0) as [w1 [[]|err]]; cbn in *;
        congruence.
    + exists n. unfold io_bind.
      destruct (check_raw_bounds_bands _ _ _ w0) as [w1 [[]|err]]; cbn in *;
        exact Hc.
    + intros _ Hnd Hall. clear n Hf Hc.
      cbn in Hnd. apply NoDup_cons in Hnd as [Hfresh _].
      rewrite list_elem_of_In in Hfresh.
      unfold py.values in Hall. cbn [map snd] in Hall.
      apply Forall_cons in Hall as [(ref & Href) Hall].
      unfold py.items. cbn [check_raw_bounds_bands].
      rewrite bind_bind. io_step. subst w0. cbn [files]. rewrite Href.
      repeat io_step. rewrite String.eqb_refl. cbv iota. repeat io_step.
      match goal with |- context [io_bind (check_raw_bounds_bands _ _ _) _ ?w'] =>
        destruct (check_raw_bounds_bands_run ref_band more (bounds ref) w')
          as (out & E & _) end; [exact Hfresh | exact Hall |].
      rewrite (bind_run _ _ _ _ _ E). cbn.
      split; [reflexivity|]. now rewrite <- app_assoc.
Qed.

(** X10.  For two or more bands whose files are rasters, [check_raw_bounds]
    prints, for every band after the first, its CRS, its bounds, and how
    far these are from the bounds of the first band: the largest of the
    four absolute differences.  For a band on the grid of the first band
    that is 0.0, provided the bounds are finite. *)
Theorem raw_bounds_are_compared_with_first_band (bands : py.dict string)
    (ref_band ref_file : string) (more : list (string * string))
    (ref : Dataset) (w : World) :
  bands = (ref_band, ref_file) :: more -> 2 <= py.len bands ->
  NoDup (py.keys bands) ->
  files w !! ref_file = Some (Raster ref) ->
  Forall (fun file => exists src, files w !! file = Some (Raster src))
         (py.values bands) ->
  exists out,
    stdout (check_raw_bounds bands w).1 = (stdout w ++ out)%list /\
    forall name file src,
      In (name, file) more -> files w !! file = Some (Raster src) ->
      (exists pre post,
         out = (pre ++ raw_bounds_lines ref_band (bounds ref) name src
                    ++ post)%list) /\
      (grid src = grid ref -> bounds_are_finite (bounds ref) ->
       raw_bounds_lines ref_band (bounds ref) name src =
         [BandHeading name; BandCrs (ds_crs ref); RawBounds (bounds ref);
          DifferenceFrom ref_band F64.zero; BlankLine]).
Proof.
  intros -> Hge Hnd Href Hall. unfold check_raw_bounds.
  destruct (Nat.ltb_spec (py.len ((ref_band, ref_file) :: more)) 2) as [|_];
    [lia|].
  do 2 io_step. cbn [py.keys map fst].
  cbn in Hnd. apply NoDup_cons in Hnd as [Hfresh _].
  rewrite list_elem_of_In in Hfresh.
  unfold py.values in Hall. cbn [map snd] in Hall.
  apply Forall_cons in Hall as [_ Hall].
  unfold py.items. cbn [check_raw_bounds_bands].
  rewrite bind_bind. io_step. rewrite Href.
  repeat io_step. rewrite String.eqb_refl. cbv iota. repeat io_step.
  match goal with |- context [io_bind (check_raw_bounds_bands _ _ _) _ ?w'] =>
    destruct (check_raw_bounds_bands_run ref_band more (bounds ref) w')
      as (out & E & Hout) end; [exact Hfresh | exact Hall |].
  rewrite (bind_run _ _ _ _ _ E). cbn [print fst snd stdout files calls].
  exists ([RawCoordinateBounds; Dashes 40; BandHeading ref_band;
           BandCrs (ds_crs ref); RawBounds (bounds ref); BlankLine]
          ++ out ++ [RawBoundsNote])%list.
  split; [now rewrite <- !app_assoc|].
  intros name file src Hin Hsrc. split.
  - destruct (Hout name file src Hin Hsrc) as (pre & post & ->).
    exists ([RawCoordinateBounds; Dashes 40; BandHeading ref_band;
             BandCrs (ds_crs ref); RawBounds (bounds ref); BlankLine]
            ++ pre)%list, (post ++ [RawBoundsNote])%list.
    now rewrite <- !app_assoc.
  - intros Hgrid Hfin. unfold raw_bounds_lines.
    assert (B : bounds src = bounds ref).
    { unfold bounds. unfold grid in Hgrid. injection Hgrid as Hc Ht Hw Hh.
      now rewrite Ht, Hw, Hh. }
    unfold grid in Hgrid. injection Hgrid as Hc _ _ _.
    now rewrite B, Hc, max_diff_self.
Qed.

End raw_bounds_facts.

(** ** What a computation prints *)

Section prints_only_facts.

Context {A : Type} (P : Message -> Prop).

Lemma prints_only_ret (a : A) : prints_only P (io_ret a).
Proof. intros w. exists []. cbn. now rewrite app_nil_r. Qed.

Lemma prints_only_lift (r : result A) : prints_only P (lift r).
Proof. intros w. exists []. cbn. now rewrite app_nil_r. Qed.

Lemma prints_only_bind {B} (m : IO B) (k : B -> IO A) :
  prints_only P m -> (forall b, prints_only P (k b)) ->
  prints_only P (io_bind m k).
Proof.
  intros Hm Hk w. unfold io_bind.
  destruct (Hm w) as (out1 & H1 & V1).
  destruct (m w) as [w1 [b|e]]; cbn in H1.
  - destruct (Hk b w1) as (out2 & H2 & V2).
    exists (out1 ++ out2)%list. rewrite H2, H1, app_assoc.
    split; [reflexivity|]. now apply Forall_app.
  - exists out1. auto.
Qed.

Lemma prints_only_if (b : bool) (m1 m2 : IO A) :
  prints_only P m1 -> prints_only P m2 -> prints_only P (if b then m1 else m2).
Proof. now destruct b. Qed.

Lemma prints_only_silent (m : IO A) :
  (forall w, stdout (m w).1 = stdout w) -> prints_only P m.
Proof. intros H w. exists []. now rewrite H, app_nil_r. Qed.

End prints_only_facts.

Lemma prints_only_print (P : Message -> Prop) (m : Message) :
  P m -> prints_only P (print m).
Proof. intros Hm w. exists [m]. cbn. split; [reflexivity|]. now constructor. Qed.

Lemma prints_only_called (P : Message -> Prop) (c : Call) :
  prints_only P (called c).
Proof. intros w. exists []. cbn. now rewrite app_nil_r. Qed.

Lemma prints_only_open (P : Message -> Prop) (path : string) :
  prints_only P (rasterio_open path).
Proof.
  apply prints_only_silent. intros w. unfold rasterio_open.
  rewrite bind_called. now destruct (files _ !! path) as [[src|]|].
Qed.

Lemma prints_only_write `{W : rasterio.Warp} (P : Message -> Prop)
    (path : string) (p : rasterio.Profile) (data : ndarray float) :
  prints_only P (rasterio_write path p data).
Proof.
  apply prints_only_silent. intros w. rewrite write_eq.
  now destruct (write_refused _ _ _ _).
Qed.

Lemma prints_only_exists (P : Message -> Prop) (path : string) :
  prints_only P (path_exists path).
Proof. now apply prints_only_silent. Qed.

(** ** The two alignment checks side by side *)

Section agreement.

Import rasterio georeference_analysis.
Context `{W : Warp}.

(** When the loop of [check] returns, it has read every band but the
    reference. *)
Lemma check_bands_Ok_reads (ref_band : string) (ref_info : Info)
    (band_items : list (string * string)) (all_aligned : bool)
    (w w' : World) (b : bool) :
  check_bands ref_band ref_info band_items all_aligned w = (w', Ok b) ->
  forall name file, In (name, file) band_items -> name <> ref_band ->
    exists info, (get_info file w).2 = Ok info.
Proof.
  revert all_aligned w.
  induction band_items as [|[band_name band_file] rest IH]; intros acc w Hrun;
    [intros ? ? []|].
  cbn [check_bands] in Hrun.
  destruct (String.eqb_spec band_name ref_band) as [->|Hne].
  - intros name file [[= -> ->]|Hin] Hn; [congruence|]. eapply IH; eauto.
  - unfold io_bind at 1 in Hrun.
    destruct (get_info_files band_file w) as [Hf1 _].
    destruct (get_info band_file w) as [w1 [info|err]] eqn:E1; [|discriminate].
    cbn in Hf1.
    assert (Hrest : exists acc' w2, files w2 = files w /\
              check_bands ref_band ref_info rest acc' w2 = (w', Ok b)).
    { destruct (negb _) in Hrun.
      - cbn zeta in Hrun. do 2 io_step_in Hrun.
        destruct (negb _) in Hrun.
        + io_step_in Hrun. eexists _, _. split; [|exact Hrun]. exact Hf1.
        + io_step_in Hrun. eexists _, _. split; [|exact Hrun]. exact Hf1.
      - eexists _, _. split; [|exact Hrun]. exact Hf1. }
    destruct Hrest as (acc' & w2 & Hf2 & Hrest).
    intros name file [[= -> ->]|Hin] Hn.
    + rewrite E1. eauto.
    + destruct (IH _ _ Hrest name file Hin Hn) as [i Hi].
      exists i. rewrite <- Hi. now apply get_info_result_ext.
Qed.

Lemma others_match_Ok (ref_info : Info) (rest : list string) (w : World) :
  Forall (fun file => exists info, (get_info file w).2 = Ok info) rest ->
  exists b, (others_match ref_info rest w).2 = Ok b.
Proof.
  revert w. induction rest as [|band_file rest IH]; intros w Hall;
    [now exists true|].
  apply Forall_cons in Hall as [[info Hinfo] Hall].
  cbn [others_match]. unfold io_bind.
  destruct (get_info_files band_file w) as [Hf _].
  destruct (get_info band_file w) as [w1 r]; cbn in *. subst r.
  destruct (_ || _); [now exists false|].
  apply IH. eapply Forall_impl; [exact Hall|]. cbn.
  intros f [i Hi]. exists i. rewrite <- Hi. now apply get_info_result_ext.
Qed.

(** The two checks give one answer. *)
Lemma check_agrees_with_check_alignment (bands : py.dict string)
    (w w' : World) :
  2 <= py.len bands -> NoDup (py.keys bands) ->
  check bands w = (w', Ok tt) ->
  exists b out,
    (check_alignment bands w).2 = Ok b /\
    stdout w' = (stdout w ++ out)%list /\
    (b = true <-> In AllBandsAligned out).
Proof.
  intros Hlen Hnd Hrun.
  destruct bands as [|[ref_band ref_file] more]; [cbn in Hlen; lia|].
  cbn in Hnd. apply NoDup_cons in Hnd as [Hfresh _].
  assert (Hother : forall name file, In (name, file) more -> name <> ref_band).
  { intros name file Hin ->. apply Hfresh, list_elem_of_In.
    change (In ref_band (map fst more)). apply in_map_iff.
    now exists (ref_band, file). }
  unfold check in Hrun.
  destruct (Nat.ltb_spec (py.len ((ref_band, ref_file) :: more)) 2) as [|_];
    [lia|].
  unfold py.items in Hrun.
  unfold io_bind at 1 in Hrun.
  destruct (get_info_files ref_file w) as [Hf1 Hs1].
  destruct (get_info ref_file w) as [w1 [ref_info|err]] eqn:E1; [|discriminate].
  cbn in Hf1, Hs1. io_step_in Hrun.
  apply bind_Ok_inv in Hrun as (w3 & b' & Hloop & Hend).
  set (w2 := mkWorld (files w1) (stdout w1 ++ [SpatialAlignmentCheck ref_band])
                     (calls w1)) in *.
  assert (Hext : forall f, (get_info f w2).2 = (get_info f w).2)
    by (intros; now apply get_info_result_ext).
  pose proof (check_bands_Ok_reads _ _ _ _ _ _ _ Hloop) as Hread.
  destruct (check_bands_report ref_band ref_info
              ((ref_band, ref_file) :: more) true w2 Hread)
    as (w3' & out & b'' & E & Hf & Hs & Hm & Ha & Hb).
  rewrite Hloop in E. injection E as <- <-.
  assert (Hall : Forall (fun file => exists info, (get_info file w).2 = Ok info)
                        (py.values more)).
  { apply List.Forall_forall. intros file Hin.
    apply in_map_iff in Hin as ([name file'] & <- & Hin).
    destruct (Hread name file' (or_intror Hin) (Hother _ _ Hin)) as [i Hi].
    exists i. now rewrite <- Hext. }
  assert (Hres : exists b, (check_alignment ((ref_band, ref_file) :: more) w).2
                           = Ok b).
  { unfold check_alignment.
    destruct (Nat.ltb_spec (py.len ((ref_band, ref_file) :: more)) 2) as [|_];
      [lia|].
    cbn [py.values map snd]. unfold io_bind. rewrite E1.
    apply others_match_Ok. eapply Forall_impl; [exact Hall|]. cbn.
    intros f [i Hi]. exists i. rewrite <- Hi. now apply get_info_result_ext. }
  destruct Hres as [b Hres].
  assert (Hiff : b = true <-> b' = true).
  { rewrite Hb.
    assert (Hbt : b = true <->
              (check_alignment ((ref_band, ref_file) :: more) w).2 = Ok true)
      by (rewrite Hres; split; congruence).
    rewrite Hbt.
    rewrite (check_alignment_true ((ref_band, ref_file) :: more) ref_file
               (py.values more) w Hlen eq_refl).
    rewrite E1. cbn [snd]. split.
    - intros (ri & [= <-] & HF). split; [reflexivity|].
      intros name (file & info & [[= -> ->]|Hin] & Hn & Hi & HP)%Hm;
        [congruence|].
      rewrite List.Forall_forall in HF.
      destruct (HF file) as (info' & Hi' & HP').
      { apply in_map_iff. now exists (name, file). }
      rewrite Hext, Hi' in Hi. injection Hi as <-. contradiction.
    - intros [_ Hno]. exists ref_info. split; [reflexivity|].
      apply List.Forall_forall. intros file Hin.
      apply in_map_iff in Hin as ([name file'] & <- & Hin). cbn.
      destruct (Hread name file' (or_intror Hin) (Hother _ _ Hin)) as [i Hi].
      exists i. split; [now rewrite <- Hext|].
      destruct (bounds_eq (bounds_wgs84 ref_info) (bounds_wgs84 i)
                && shape_eq (shape ref_info) (shape i)) eqn:P.
      + now apply passes_dec'.
      + exfalso. apply (Hno name), Hm. exists file', i.
        split; [now right|]. split; [eauto|]. split; [assumption|].
        intros HP%passes_dec'. congruence. }
  exists b. cbn in Hs.
  destruct b'.
  - unfold print in Hend. injection Hend as <-.
    exists ([SpatialAlignmentCheck ref_band] ++ out ++ [AllBandsAligned])%list.
    split; [exact Hres|]. cbn [stdout].
    split; [rewrite Hs, Hs1, <- !app_assoc; reflexivity|].
    rewrite Hiff. split; [|reflexivity]. intros _. cbn. right.
    apply in_app_iff. right. now left.
  - injection Hend as <-.
    exists ([SpatialAlignmentCheck ref_band] ++ out)%list.
    split; [exact Hres|].
    split; [rewrite Hs, Hs1, <- !app_assoc; reflexivity|].
    rewrite Hiff. split; [discriminate|]. cbn. intros [[=]|Hin]. tauto.
Qed.

(** X11.  [AlignmentChecker.check] and [SceneAnalyzer.check_alignment] agree:
    whenever [check] returns for two or more bands, [check_alignment]
    returns as well, and it returns [True] exactly when [check] has
    printed that all bands are spatially aligned. *)
Theorem checker_and_analyzer_agree (bands : py.dict string) (w w' : World) :
  2 <= py.len bands -> NoDup (py.keys bands) ->
  check bands w = (w', Ok tt) ->
  exists b out,
    (check_alignment bands w).2 = Ok b /\
    stdout w' = (stdout w ++ out)%list /\
    (b = true <-> In AllBandsAligned out).
Proof. apply check_agrees_with_check_alignment. Qed.

End agreement.

(** ** What a computation writes *)

Section writes_only_facts.

Context {A : Type} (P : string -> Prop).

Lemma writes_only_keeps (m : IO A) :
  (forall w, files (m w).1 = files w) -> writes_only P m.
Proof. intros H w p _. now rewrite H. Qed.

Lemma writes_only_ret (a : A) : writes_only P (io_ret a).
Proof. now apply writes_only_keeps. Qed.

Lemma writes_only_lift (r : result A) : writes_only P (lift r).
Proof. now apply writes_only_keeps. Qed.

Lemma writes_only_bind {B} (m : IO B) (k : B -> IO A) :
  writes_only P m -> (forall b, writes_only P (k b)) ->
  writes_only P (io_bind m k).
Proof.
  intros Hm Hk w p Hp. unfold io_bind.
  specialize (Hm w p Hp).
  destruct (m w) as [w1 [b|e]]; cbn in Hm; [|exact Hm].
  now rewrite (Hk b w1 p Hp).
Qed.

Lemma writes_only_if (b : bool) (m1 m2 : IO A) :
  writes_only P m1 -> writes_only P m2 -> writes_only P (if b then m1 else m2).
Proof. now destruct b. Qed.

Lemma writes_only_try (body : IO A) (handler : Exn -> IO A) :
  writes_only P body -> (forall e, writes_only P (handler e)) ->
  writes_only P (try_except body handler).
Proof.
  intros Hb Hh w p Hp. unfold try_except.
  specialize (Hb w p Hp).
  destruct (body w) as [w1 [a|e]]; cbn in Hb; [exact Hb|].
  now rewrite (Hh e w1 p Hp).
Qed.

Lemma writes_only_weaken (Q : string -> Prop) (m : IO A) :
  (forall p, Q p -> P p) -> writes_only Q m -> writes_only P m.
Proof. intros HQ Hm w p Hp. apply Hm. auto. Qed.

End writes_only_facts.

Lemma writes_only_print (P : string -> Prop) (m : Message) :
  writes_only P (print m).
Proof. now apply writes_only_keeps. Qed.

Lemma writes_only_called (P : string -> Prop) (c : Call) :
  writes_only P (called c).
Proof. now apply writes_only_keeps. Qed.

Lemma writes_only_open (P : string -> Prop) (path : string) :
  writes_only P (rasterio_open path).
Proof.
  apply writes_only_keeps. intros w. unfold rasterio_open.
  rewrite bind_called. now destruct (files _ !! path) as [[src|]|].
Qed.

Lemma writes_only_exists (P : string -> Prop) (path : string) :
  writes_only P (path_exists path).
Proof. now apply writes_only_keeps. Qed.

Lemma writes_only_listdir (P : string -> Prop) (dir : string) :
  writes_only P (listdir dir).
Proof. now apply writes_only_keeps. Qed.

Lemma writes_only_write `{W : rasterio.Warp} (P : string -> Prop)
    (path : string) (p : rasterio.Profile) (data : ndarray float) :
  P path -> writes_only P (rasterio_write path p data).
Proof.
  intros Hpath w q Hq. rewrite write_eq.
  destruct (write_refused _ _ _ _); cbn.
  - apply lookup_partial_alter_ne. intros <-. contradiction.
  - apply lookup_insert_ne. intros <-. contradiction.
Qed.


(** A computation that writes no file at all leaves the files as they
    are. *)
Lemma writes_nothing {A} (m : IO A) (w : World) :
  writes_only (fun _ => False) m -> files (m w).1 = files w.
Proof. intros H. apply map_eq. intros p. apply H. tauto. Qed.

Ltac writes_only_steps :=
  repeat first
    [ apply writes_only_ret | apply writes_only_lift | apply writes_only_called
    | apply writes_only_print | apply writes_only_open
    | apply writes_only_exists | apply writes_only_listdir
    | apply writes_only_bind; [|intros]
    | apply writes_only_if
    | apply writes_only_try; [|intros] ].

(** ** The test of a scene *)

Section checks_footprint.

Import rasterio georeference_analysis.
Context `{W : Warp}.

Lemma check_bands_files (ref_band : string) (ref_info : Info)
    (band_items : list (string * string)) (all_aligned : bool) (w : World) :
  files (check_bands ref_band ref_info band_items all_aligned w).1 = files w.
Proof.
  revert all_aligned w.
  induction band_items as [|[band_name band_file] rest IH]; intros acc w;
    [reflexivity|].
  cbn [check_bands]. destruct (String.eqb band_name ref_band); [apply IH|].
  unfold io_bind at 1.
  destruct (get_info_files band_file w) as [Hf _].
  destruct (get_info band_file w) as [w1 [info|err]]; cbn in Hf; [|exact Hf].
  destruct (negb _); [|now rewrite IH].
  cbn zeta. do 2 io_step. destruct (negb _); io_step; now rewrite IH.
Qed.

Lemma check_files (bands : py.dict string) (w : World) :
  files (check bands w).1 = files w.
Proof.
  unfold check. destruct (py.len bands <? 2); [reflexivity|].
  destruct (py.items bands) as [|[ref_band ref_file] rest]; [reflexivity|].
  unfold io_bind at 1.
  destruct (get_info_files ref_file w) as [Hf _].
  destruct (get_info ref_file w) as [w1 [info|err]]; cbn in Hf; [|exact Hf].
  io_step. unfold io_bind.
  match goal with |- context [check_bands ?r ?i ?l ?a ?w0] =>
    pose proof (check_bands_files r i l a w0) as Hf';
    destruct (check_bands r i l a w0) as [w2 [[]|err]] end;
    cbn in *; congruence.
Qed.

Lemma check_crs_bands_files (ref_band : string) (ref_crs : option CRS)
    (band_items : list (string * string)) (crs_consistent : bool) (w : World) :
  files (check_crs_bands ref_band ref_crs band_items crs_consistent w).1 = files w.
Proof.
  revert crs_consistent w.
  induction band_items as [|[band_name band_file] rest IH]; intros acc w;
    [reflexivity|].
  cbn [check_crs_bands]. destruct (String.eqb band_name ref_band); [apply IH|].
  unfold io_bind at 1.
  destruct (get_info_files band_file w) as [Hf _].
  destruct (get_info band_file w) as [w1 [info|err]]; cbn in Hf; [|exact Hf].
  destruct (negb _); io_step; now rewrite IH.
Qed.

Lemma check_crs_files (bands : py.dict string) (w : World) :
  files (check_crs bands w).1 = files w.
Proof.
  unfold check_crs. destruct (py.len bands <? 2); [reflexivity|].
  destruct (py.items bands) as [|[ref_band ref_file] rest]; [reflexivity|].
  unfold io_bind at 1.
  destruct (get_info_files ref_file w) as [Hf _].
  destruct (get_info ref_file w) as [w1 [info|err]]; cbn in Hf; [|exact Hf].
  do 2 io_step. unfold io_bind.
  match goal with |- context [check_crs_bands ?r ?i ?l ?a ?w0] =>
    pose proof (check_crs_bands_files r i l a w0) as Hf';
    destruct (check_crs_bands r i l a w0) as [w2 [[]|err]] end;
    cbn in *; congruence.
Qed.

Lemma get_info_prints_only (P : Message -> Prop) (filepath : string) :
  prints_only P (get_info filepath).
Proof. apply prints_only_silent. intros w. apply get_info_files. Qed.

Lemma check_crs_prints (P : Message -> Prop) (bands : py.dict string) :
  (forall m, m <> AllBandsAligned -> P m) ->
  prints_only P (check_crs bands).
Proof.
  intros HP. unfold check_crs.
  assert (Hloop : forall ref_band ref_crs band_items acc,
            prints_only P (check_crs_bands ref_band ref_crs band_items acc)).
  { intros ref_band ref_crs band_items.
    induction band_items as [|[band_name band_file] rest IH]; intros acc;
      cbn [check_crs_bands]; [apply prints_only_ret|].
    apply prints_only_if; [apply IH|].
    apply prints_only_bind; [apply get_info_prints_only|intros info].
    apply prints_only_if;
      (apply prints_only_bind; [apply prints_only_print, HP; discriminate|]);
      intros; apply IH. }
  apply prints_only_if; [apply prints_only_print, HP; discriminate|].
  destruct (py.items bands) as [|[ref_band ref_file] rest];
    [apply prints_only_ret|].
  apply prints_only_bind; [apply get_info_prints_only|intros info].
  apply prints_only_bind; [apply prints_only_print, HP; discriminate|intros].
  apply prints_only_bind; [apply prints_only_print, HP; discriminate|intros].
  apply prints_only_bind; [apply Hloop|intros b].
  apply prints_only_if; apply prints_only_print, HP; discriminate.
Qed.

Lemma check_raw_bounds_prints (P : Message -> Prop) (bands : py.dict string) :
  (forall m, m <> AllBandsAligned -> P m) ->
  prints_only P (check_raw_bounds bands).
Proof.
  intros HP. unfold check_raw_bounds.
  assert (Hloop : forall ref_band band_items rb,
            prints_only P (check_raw_bounds_bands ref_band band_items rb)).
  { intros ref_band band_items.
    induction band_items as [|[band_name band_file] rest IH]; intros rb;
      cbn [check_raw_bounds_bands]; [apply prints_only_ret|].
    apply prints_only_bind; [apply prints_only_open|intros src].
    do 3 (apply prints_only_bind;
            [apply prints_only_print, HP; discriminate|intros]).
    apply prints_only_bind.
    - apply prints_only_if; [apply prints_only_ret|].
      destruct rb; [|apply prints_only_ret].
      apply prints_only_bind; [apply prints_only_print, HP; discriminate|].
      intros; apply prints_only_ret.
    - intros rb'.
      apply prints_only_bind; [apply prints_only_print, HP; discriminate|].
      intros; apply IH. }
  apply prints_only_if; [apply prints_only_print, HP; discriminate|].
  do 2 (apply prints_only_bind;
          [apply prints_only_print, HP; discriminate|intros]).
  destruct (py.keys bands); [apply prints_only_lift|].
  apply prints_only_bind; [apply Hloop|intros].
  apply prints_only_print, HP; discriminate.
Qed.

Lemma check_raw_bounds_files (bands : py.dict string) (w : World) :
  files (check_raw_bounds bands w).1 = files w.
Proof.
  unfold check_raw_bounds. destruct (py.len bands <? 2); [reflexivity|].
  do 2 io_step. destruct (py.keys bands) as [|ref_band rest]; [reflexivity|].
  unfold io_bind.
  match goal with |- context [check_raw_bounds_bands ?r ?i ?b ?w0] =>
    destruct (check_raw_bounds_bands_reads r i b w0) as (n & Hf & _);
    destruct (check_raw_bounds_bands r i b w0) as [w1 [[]|err]] end;
    cbn in *; congruence.
Qed.

(** X12.  [TestSuite.test_scene_alignment] records what
    [SceneAnalyzer.check_alignment] returns for the scene, together with
    the band labels and their number, and returns it; it writes no file.
    For two or more bands the recorded value is [True] exactly when the
    line "All bands are spatially aligned" is among the lines printed.
    For fewer than two bands it is [True], and no file has been
    opened. *)
Theorem test_records_what_the_checker_prints
    (results results' : list alignment_testing.TestResult)
    (scene_bands : py.dict string) (is_aligned : bool) (w w' : World) :
  alignment_testing.test_scene_alignment results scene_bands w =
    (w', Ok (is_aligned, results')) ->
  results' =
    (results ++ [alignment_testing.mkTestResult
                   (py.keys scene_bands) is_aligned (py.len scene_bands)])%list /\
  files w' = files w /\
  (check_alignment scene_bands w).2 = Ok is_aligned /\
  (2 <= py.len scene_bands -> NoDup (py.keys scene_bands) ->
   exists out,
     stdout w' = (stdout w ++ out)%list /\
     (is_aligned = true <-> In AllBandsAligned out)) /\
  (py.len scene_bands < 2 -> is_aligned = true /\ calls w' = calls w).
Proof.
  intros Hrun0. pose proof Hrun0 as Hrun.
  unfold alignment_testing.test_scene_alignment in Hrun.
  do 2 io_step_in Hrun.
  apply bind_Ok_inv in Hrun as (w1 & b & Hca & Hrun).
  do 2 io_step_in Hrun.
  apply bind_Ok_inv in Hrun as (w2 & [] & Hcrs & Hrun).
  io_step_in Hrun.
  apply bind_Ok_inv in Hrun as (w3 & [] & Hchk & Hrun).
  io_step_in Hrun.
  apply bind_Ok_inv in Hrun as (w4 & [] & Hraw & Hrun).
  injection Hrun as <- <- <-.
  set (P := fun m : Message => m <> AllBandsAligned).
  match type of Hca with check_alignment _ ?w0 = _ =>
    destruct (check_alignment_files scene_bands w0) as [Hf1 Hs1];
    pose proof (check_alignment_result_ext scene_bands w0 w eq_refl) as Hr1;
    rewrite Hca in Hf1, Hs1, Hr1 end.
  cbn in Hf1, Hs1, Hr1.
  match type of Hcrs with check_crs _ ?w0 = _ =>
    pose proof (check_crs_files scene_bands w0) as Hf2;
    destruct (check_crs_prints P scene_bands (fun m H => H) w0) as (out2 & Hs2 & HP2);
    rewrite Hcrs in Hf2, Hs2 end.
  cbn in Hf2, Hs2.
  match type of Hchk with check _ ?w0 = _ =>
    pose proof (check_files scene_bands w0) as Hf3;
    rewrite Hchk in Hf3 end.
  cbn in Hf3.
  match type of Hraw with check_raw_bounds _ ?w0 = _ =>
    pose proof (check_raw_bounds_files scene_bands w0) as Hf4;
    destruct (check_raw_bounds_prints P scene_bands (fun m H => H) w0)
      as (out4 & Hs4 & HP4);
    rewrite Hraw in Hf4, Hs4 end.
  cbn in Hf4, Hs4.
  split; [reflexivity|].
  split; [congruence|].
  split; [congruence|].
  split.
  - intros Hlen Hnd.
    match type of Hchk with check _ ?w0 = _ =>
      destruct (check_agrees_with_check_alignment scene_bands w0 w3 Hlen Hnd Hchk)
        as (b3 & out3 & Hr3 & Hs3 & Hiff);
      rewrite (check_alignment_result_ext scene_bands w0 w) in Hr3
        by (cbn; congruence) end.
    cbn in Hs3. assert (b3 = b) as -> by congruence.
    exists ([TestingSceneAlignment; BandsTested (py.keys scene_bands);
             BasicAlignment b; CrsConsistencySection] ++ out2 ++
            [SpatialAlignmentSection] ++ out3 ++
            [RawBoundsCheckSection] ++ out4)%list.
    split.
    + rewrite Hs4, Hs3, Hs2, Hs1. now rewrite <- !app_assoc.
    + rewrite Hiff. rewrite !in_app_iff. cbn.
      rewrite List.Forall_forall in HP2, HP4.
      split; [tauto|].
      intros [[[=]|[[=]|[[=]|[[=]|[]]]]]|[Hin|[[[=]|[]]|[Hin|[[[=]|[]]|Hin]]]]];
        auto.
      * now apply HP2 in Hin.
      * now apply HP4 in Hin.
  - intros Hlt. clear - Hrun0 Hlt.
    unfold alignment_testing.test_scene_alignment, check_alignment, check_crs,
      check, check_raw_bounds in Hrun0.
    apply Nat.ltb_lt in Hlt. rewrite Hlt in Hrun0. cbn in Hrun0.
    injection Hrun0 as <- <- _. auto.
Qed.

End checks_footprint.

(** ** The two implementations of the alignment of a band *)

Section two_aligners.

Import rasterio.
Context `{W : Warp}.

(** An array of the profile's shape is refused by the open or not at
    all. *)
Lemma write_refused_by_open (fs : gmap string File) (path : string)
    (p : Profile) (data : ndarray float) :
  np.shape data = (height p, width p) ->
  write_refused fs path p data =
  match (create fs path p).2 with Ok _ => None | Raise e => Some e end.
Proof.
  intros Hshape. unfold write_refused.
  destruct (create fs path p).2; [|reflexivity].
  now destruct (decide _).
Qed.

(** All that [BandAligner.align_band_to_reference] does. *)
Lemma class_align_eq (band_file reference_file output_file : string)
    (w : World) :
  band_aligner.align_band_to_reference band_file reference_file output_file w =
  let out := (stdout w ++ [AligningToMatch (py.name band_file)
                                           (py.name reference_file)])%list in
  match files w !! reference_file with
  | Some (Raster ref) =>
      match files w !! band_file with
      | Some (Raster src) =>
          let cs := (calls w ++
                     [OpenRead reference_file; OpenRead band_file;
                      Reproject (samples src) (ds_transform src) (ds_crs src)
                                (ds_transform ref) (ds_crs ref)])%list in
          match reproject (samples src)
                  (np.zeros (ds_height ref) (ds_width ref))
                  (ds_transform src) (ds_crs src)
                  (ds_transform ref) (ds_crs ref) bilinear with
          | Ok filled =>
              let p := update_dtype (profile ref) (ds_dtype src) in
              match (create (files w) output_file p).2 with
              | Ok _ =>
                  (mkWorld
                     (<[output_file := Raster (aligned_dataset p ref filled)]>
                        (files w))
                     (out ++ [SavedFile (py.name output_file)])%list
                     (cs ++ [OpenWrite output_file])%list, Ok tt)
              | Raise err =>
                  (mkWorld
                     (partial_alter
                        (fun _ => (create (files w) output_file p).1)
                        output_file (files w))
                     out (cs ++ [OpenWrite output_file])%list, Raise err)
              end
          | Raise err => (mkWorld (files w) out cs, Raise err)
          end
      | _ =>
          (mkWorld (files w) out
                   (calls w ++ [OpenRead reference_file; OpenRead band_file])%list,
           Raise (RasterioIOError band_file))
      end
  | _ =>
      (mkWorld (files w) out (calls w ++ [OpenRead reference_file])%list,
       Raise (RasterioIOError reference_file))
  end.
Proof.
  unfold band_aligner.align_band_to_reference. cbn zeta. do 2 io_step.
  destruct (files w !! reference_file) as [[ref|]|]; try reflexivity.
  io_step.
  destruct (files w !! band_file) as [[src|]|];
    try (now rewrite <- app_assoc).
  do 2 io_step.
  destruct (reproject _ _ _ _ _ _ _) as [filled|];
    [|now rewrite <- !app_assoc].
  io_step.
  rewrite write_refused_by_open
    by apply (shape_tabulate_of_shape (samples ref)).
  destruct (create _ _ _).2; unfold print; cbn; now rewrite <- !app_assoc.
Qed.

(** All that [align_band_to_reference] of the script does. *)
Lemma script_align_eq (band_file reference_file output_file : string)
    (w : World) :
  vegetation_ortho_aligned.align_band_to_reference
    band_file reference_file output_file w =
  let out := (stdout w ++ [AligningToMatch (py.name band_file)
                                           (py.name reference_file)])%list in
  match files w !! reference_file with
  | Some (Raster ref) =>
      match files w !! band_file with
      | Some (Raster src) =>
          let cs := (calls w ++
                     [OpenRead reference_file; OpenRead band_file;
                      Reproject (samples src) (ds_transform src) (ds_crs src)
                                (ds_transform ref) (ds_crs ref)])%list in
          match reproject (samples src)
                  (np.zeros (ds_height ref) (ds_width ref))
                  (ds_transform src) (ds_crs src)
                  (ds_transform ref) (ds_crs ref) bilinear with
          | Ok filled =>
              let p := mkProfile "GTiff" (ds_dtype src) None
                                 (ds_width ref) (ds_height ref)
                                 (ds_crs ref) (ds_transform ref) in
              match (create (files w) output_file p).2 with
              | Ok _ =>
                  (mkWorld
                     (<[output_file := Raster (aligned_dataset p ref filled)]>
                        (files w))
                     (out ++ [SavedFile output_file])%list
                     (cs ++ [OpenWrite output_file])%list, Ok tt)
              | Raise err =>
                  (mkWorld
                     (partial_alter
                        (fun _ => (create (files w) output_file p).1)
                        output_file (files w))
                     out (cs ++ [OpenWrite output_file])%list, Raise err)
              end
          | Raise err => (mkWorld (files w) out cs, Raise err)
          end
      | _ =>
          (mkWorld (files w) out
                   (calls w ++ [OpenRead reference_file; OpenRead band_file])%list,
           Raise (RasterioIOError band_file))
      end
  | _ =>
      (mkWorld (files w) out (calls w ++ [OpenRead reference_file])%list,
       Raise (RasterioIOError reference_file))
  end.
Proof.
  unfold vegetation_ortho_aligned.align_band_to_reference. cbn zeta.
  do 2 io_step.
  destruct (files w !! reference_file) as [[ref|]|]; try reflexivity.
  io_step.
  destruct (files w !! band_file) as [[src|]|];
    try (now rewrite <- app_assoc).
  do 2 io_step.
  destruct (reproject _ _ _ _ _ _ _) as [filled|];
    [|now rewrite <- !app_assoc].
  io_step.
  rewrite write_refused_by_open
    by apply (shape_tabulate_of_shape (samples ref)).
  destruct (create _ _ _).2; unfold print; cbn; now rewrite <- !app_assoc.
Qed.


End two_aligners.

(** ** A reference band that no scene has *)

Section missing_reference.

Import rasterio band_aligner.
Context `{W : Warp}.

Lemma get_fold_set_None (names : list string)
    (acc : py.dict (option (py.dict string))) (n : string) :
  In n names \/ py.get acc n = Some None ->
  py.get (fold_left (fun acc n => py.set acc n None) names acc) n = Some None.
Proof.
  revert acc. induction names as [|n0 names IH]; intros acc; cbn [fold_left].
  - intros [[]|H]. exact H.
  - intros H. apply IH.
    destruct (string_dec n0 n) as [->|Hne].
    + right. apply get_set_eq.
    + destruct H as [[?|?]|?]; [congruence|auto|].
      right. now rewrite get_set_ne.
Qed.

Lemma align_each_missing (self : BandAligner) (reference_band : string)
    (scene_names : list string)
    (aligned_scenes : py.dict (option (py.dict string))) (w : World) :
  (forall scene_name, In scene_name scene_names ->
     exists scene_bands,
       py.get (scenes self) scene_name = Some scene_bands /\
       py.get scene_bands reference_band = None) ->
  exists out,
    align_each self reference_band scene_names aligned_scenes w =
      (mkWorld (files w) (stdout w ++ out)%list (calls w),
       Ok (fold_left (fun acc n => py.set acc n None) scene_names
                     aligned_scenes)) /\
    forall scene_name, In scene_name scene_names ->
      In (ReferenceBandNotFound reference_band scene_name) out /\
      In (SceneAligned scene_name) out.
Proof.
  revert aligned_scenes w.
  induction scene_names as [|scene_name rest IH]; intros acc w Hmiss.
  - exists []. cbn. rewrite app_nil_r. split; [now destruct w|]. intros ? [].
  - destruct (Hmiss scene_name (or_introl eq_refl)) as (bands & Hscene & Hband).
    cbn [align_each fold_left].
    assert (Hstep :
      try_except
        (io_bind (align_scene self scene_name reference_band) (fun aligned_files =>
           let aligned_scenes := py.set acc scene_name aligned_files in
           io_bind (print (SceneAligned scene_name))
                   (fun _ => io_ret aligned_scenes)))
        (fun e => io_bind (print (ErrorAligningScene scene_name e))
                          (fun _ => io_ret acc)) w =
      (mkWorld (files w)
         (stdout w ++ [ReferenceBandNotFound reference_band scene_name;
                       SceneAligned scene_name])%list
         (calls w),
       Ok (py.set acc scene_name None))).
    { unfold try_except, align_scene. rewrite Hscene, Hband.
      cbn. now rewrite <- app_assoc. }
    rewrite (bind_run _ _ _ _ _ Hstep).
    match goal with |- context [align_each _ _ _ ?a ?w0] =>
      destruct (IH a w0) as (out & E & Hout) end.
    { intros; apply Hmiss; now right. }
    exists ([ReferenceBandNotFound reference_band scene_name;
             SceneAligned scene_name] ++ out)%list.
    cbn [files stdout calls] in E. split.
    + rewrite E. now rewrite <- app_assoc.
    + intros n [<-|Hin].
      * split; [now left | right; now left].
      * destruct (Hout n Hin). split; apply in_app_iff; now right.
Qed.

(** X14.  A scene that the aligner does not know is reported and gives [None],
    without a file being opened.  So does a scene that lacks the
    reference band; and [align_all_scenes], given a reference band that
    no scene has, reports every scene as aligned successfully and maps it
    to [None], without opening or writing any file. *)
Theorem missing_reference_band_counts_as_aligned (self : BandAligner)
    (reference_band : string) (w : World) :
  (forall scene_name,
     py.get (scenes self) scene_name = None ->
     align_scene self scene_name reference_band w =
       (mkWorld (files w) (stdout w ++ [SceneNotFound scene_name])%list (calls w),
        Ok None)) /\
  ((forall scene_name scene_bands,
      In (scene_name, scene_bands) (scenes self) ->
      py.get scene_bands reference_band = None) ->
   exists w' out aligned_scenes,
     align_all_scenes self reference_band w = (w', Ok aligned_scenes) /\
     files w' = files w /\ calls w' = calls w /\
     stdout w' = (stdout w ++ out)%list /\
     forall scene_name, In scene_name (py.keys (scenes self)) ->
       py.get aligned_scenes scene_name = Some None /\
       In (ReferenceBandNotFound reference_band scene_name) out /\
       In (SceneAligned scene_name) out).
Proof.
  split.
  - intros scene_name Hnone. unfold align_scene. now rewrite Hnone.
  - intros Hmiss. unfold align_all_scenes. do 3 io_step.
    match goal with |- context [align_each _ _ ?l ?a ?w0] =>
      destruct (align_each_missing self reference_band l a w0)
        as (out & E & Hout) end.
    { intros scene_name Hin.
      destruct (py.get (scenes self) scene_name) as [bands|] eqn:Hget.
      - exists bands. split; [reflexivity|].
        eapply Hmiss, get_Some_In, Hget.
      - apply get_None_keys in Hget. contradiction. }
    cbn [files stdout calls] in E.
    eexists _, ([FoundScenesToAlign (py.len (scenes self));
                 OutputDirectory (output_dir self); Rule] ++ out)%list, _.
    split; [exact E|]. cbn.
    split; [reflexivity|]. split; [reflexivity|].
    split; [now rewrite <- !app_assoc|].
    intros scene_name Hin. split; [apply get_fold_set_None; now left|].
    destruct (Hout scene_name Hin). split; right; right; right; assumption.
Qed.

End missing_reference.

(** ** The files of an aligned scene *)

Section aligned_files.

Import rasterio band_aligner.
Context `{W : Warp}.

Lemma writes_only_class_align (P : string -> Prop)
    (band_file reference_file output_file : string) :
  P output_file ->
  writes_only P (align_band_to_reference band_file reference_file output_file).
Proof.
  intros Hout w p Hp. rewrite class_align_eq. cbn zeta.
  destruct (files w !! reference_file) as [[ref|]|]; try reflexivity.
  destruct (files w !! band_file) as [[src|]|]; try reflexivity.
  destruct (reproject _ _ _ _ _ _ _); [|reflexivity].
  destruct (create _ _ _).2; cbn;
    [apply lookup_insert_ne | apply lookup_partial_alter_ne];
    intros <-; contradiction.
Qed.

(** The loop of [align_scene] writes the aligned files of the bands it
    is given, and no other file. *)
Lemma writes_only_align_bands (self : BandAligner)
    (scene_name reference_band reference_file : string)
    (band_items : list (string * string)) (aligned_files : py.dict string) :
  writes_only
    (fun p => exists band_name band_file,
       In (band_name, band_file) band_items /\
       p = py.join (output_dir self) (aligned_name scene_name band_name))
    (align_bands self scene_name reference_band reference_file band_items
                 aligned_files).
Proof.
  revert aligned_files.
  induction band_items as [|[band_name band_file] rest IH]; intros acc;
    cbn [align_bands]; [apply writes_only_ret|].
  assert (Hhead : exists n f, In (n, f) ((band_name, band_file) :: rest) /\
            py.join (output_dir self) (aligned_name scene_name band_name) =
            py.join (output_dir self) (aligned_name scene_name n))
    by (exists band_name, band_file; split; [now left|reflexivity]).
  apply writes_only_bind.
  - apply writes_only_if.
    + apply writes_only_bind; [apply writes_only_print|intros].
      apply writes_only_bind; [apply writes_only_open|intros src].
      apply writes_only_bind; [|intros; apply writes_only_print].
      now apply writes_only_write.
    + now apply writes_only_class_align.
  - intros _. eapply writes_only_weaken; [|apply IH].
    intros p (n & f & Hin & ->). exists n, f. split; [now right|reflexivity].
Qed.

Lemma writes_only_align_scene (self : BandAligner)
    (scene_name reference_band : string) :
  writes_only
    (fun p => exists scene_bands band_name band_file,
       py.get (scenes self) scene_name = Some scene_bands /\
       In (band_name, band_file) scene_bands /\
       p = py.join (output_dir self) (aligned_name scene_name band_name))
    (align_scene self scene_name reference_band).
Proof.
  unfold align_scene.
  destruct (py.get (scenes self) scene_name) as [scene_bands|];
    [|writes_only_steps].
  destruct (py.get scene_bands reference_band); [|writes_only_steps].
  apply writes_only_bind; [apply writes_only_print|intros].
  apply writes_only_bind; [|intros; apply writes_only_ret].
  eapply writes_only_weaken; [|apply writes_only_align_bands].
  intros p (n & f & Hin & ->). exists scene_bands, n, f. auto.
Qed.

Lemma writes_only_align_each (self : BandAligner) (reference_band : string)
    (scene_names : list string)
    (aligned_scenes : py.dict (option (py.dict string))) :
  writes_only
    (fun p => exists scene_name scene_bands band_name band_file,
       py.get (scenes self) scene_name = Some scene_bands /\
       In (band_name, band_file) scene_bands /\
       p = py.join (output_dir self) (aligned_name scene_name band_name))
    (align_each self reference_band scene_names aligned_scenes).
Proof.
  revert aligned_scenes.
  induction scene_names as [|scene_name rest IH]; intros acc;
    cbn [align_each]; [apply writes_only_ret|].
  apply writes_only_bind; [|intros; apply IH].
  apply writes_only_try; [|intros; writes_only_steps].
  apply writes_only_bind; [|intros; writes_only_steps].
  eapply writes_only_weaken; [|apply writes_only_align_scene].
  intros p (b & n & f & H). exists scene_name, b, n, f. exact H.
Qed.

Lemma strip_prefix_app (prefix s : string) :
  py.strip_prefix prefix (prefix ++ s) = Some s.
Proof.
  induction prefix as [|ch prefix IH]; [reflexivity|].
  change (String ch prefix ++ s) with (String ch (prefix ++ s)).
  cbn [py.strip_prefix]. now rewrite Ascii.eqb_refl.
Qed.

(** X15.  Whether it ends normally for a scene or not, [align_all_scenes]
    writes only aligned files of bands of its scenes: every other path
    holds what it held before, and so does in particular every path
    outside the output directory. *)
Theorem alignment_writes_only_aligned_files (self : BandAligner)
    (reference_band : string) (w : World) (p : string) :
  (forall scene_name scene_bands band_name band_file,
     py.get (scenes self) scene_name = Some scene_bands ->
     In (band_name, band_file) scene_bands ->
     p <> py.join (output_dir self) (aligned_name scene_name band_name)) \/
  py.strip_prefix (output_dir self ++ "/") p = None ->
  files (align_all_scenes self reference_band w).1 !! p = files w !! p.
Proof.
  intros Hp. unfold align_all_scenes. do 3 io_step.
  rewrite (writes_only_align_each self reference_band _ _ _ p); [reflexivity|].
  intros (scene_name & scene_bands & band_name & band_file & Hget & Hin & ->).
  destruct Hp as [Hp|Hp].
  - now apply (Hp scene_name scene_bands band_name band_file).
  - unfold py.join in Hp. rewrite <- string_app_assoc in Hp.
    rewrite strip_prefix_app in Hp. discriminate.
Qed.

(** The dictionary that the loop of [align_scene] returns. *)
Lemma align_bands_result (self : BandAligner)
    (scene_name reference_band reference_file : string)
    (band_items : list (string * string))
    (aligned_files result : py.dict string) (w w' : World) :
  align_bands self scene_name reference_band reference_file band_items
              aligned_files w = (w', Ok result) ->
  result =
    fold_left (fun acc '(band_name, _) =>
                 py.set acc band_name
                   (py.join (output_dir self) (aligned_name scene_name band_name)))
              band_items aligned_files.
Proof.
  revert aligned_files w.
  induction band_items as [|[band_name band_file] rest IH]; intros acc w Hrun.
  - cbn in Hrun. now injection Hrun as _ <-.
  - cbn [align_bands] in Hrun.
    apply bind_Ok_inv in Hrun as (w1 & [] & _ & Hrest).
    cbn [fold_left]. eapply IH, Hrest.
Qed.

Lemma In_fold_set (dir scene_name : string) (band_items : list (string * string))
    (acc : py.dict string) (b f : string) :
  In (b, f)
     (fold_left (fun acc '(band_name, _) =>
                   py.set acc band_name
                     (py.join dir (aligned_name scene_name band_name)))
                band_items acc) ->
  In (b, f) acc \/
  (In b (map fst band_items) /\ f = py.join dir (aligned_name scene_name b)).
Proof.
  revert acc. induction band_items as [|[n x] rest IH]; intros acc;
    cbn [fold_left]; [auto|].
  intros [[[-> ->]|Hin]%In_set|[Hin ->]]%IH; cbn; auto.
Qed.

(** One turn of the loop of [align_scene] that ends normally has written
    the aligned file of the band, and nothing else; where the reference
    file is in place, what it wrote lies on the grid of the reference. *)
Lemma align_bands_step (self : BandAligner)
    (scene_name reference_band reference_file band_name band_file : string)
    (w w1 : World) :
  (if String.eqb band_name reference_band then
     io_bind (print (CopyingReference band_name)) (fun _ =>
     io_bind (rasterio_open band_file) (fun src =>
     io_bind (rasterio_write
                (py.join (output_dir self) (aligned_name scene_name band_name))
                (profile src) (samples src)) (fun _ =>
     print (SavedFile
              (py.name (py.join (output_dir self)
                                (aligned_name scene_name band_name)))))))
   else
     align_band_to_reference band_file reference_file
       (py.join (output_dir self) (aligned_name scene_name band_name))) w
    = (w1, Ok tt) ->
  exists d,
    files w1 =
      <[py.join (output_dir self) (aligned_name scene_name band_name)
          := Raster d]> (files w) /\
    forall ref,
      files w !! reference_file = Some (Raster ref) ->
      (band_name = reference_band -> band_file = reference_file) ->
      grid d = grid ref.
Proof.
  destruct (String.eqb_spec band_name reference_band) as [->|Hne].
  - do 2 io_step.
    destruct (files w !! band_file) as [[src|]|] eqn:Hsrc; try discriminate.
    io_step. destruct (write_refused _ _ _ _); [discriminate|].
    rewrite dataset_of_profile. cbn. intros [= <-].
    exists src. split; [reflexivity|].
    intros ref Href Hfile. rewrite (Hfile eq_refl) in Hsrc. congruence.
  - intros Hrun.
    apply class_align_Ok in Hrun
      as (ref & src & filled & Href & _ & _ & Hf & _).
    eexists. split; [exact Hf|].
    intros ref' Href' _. rewrite Href in Href'. injection Href' as <-.
    now apply aligned_dataset_grid.
Qed.

(** When the loop of [align_scene] returns, the aligned file of every
    band exists, and rasters that were there still are. *)
Lemma align_bands_written (self : BandAligner)
    (scene_name reference_band reference_file : string)
    (band_items : list (string * string))
    (aligned_files result : py.dict string) (w w' : World) :
  align_bands self scene_name reference_band reference_file band_items
              aligned_files w = (w', Ok result) ->
  (forall p d, files w !! p = Some (Raster d) ->
     exists d', files w' !! p = Some (Raster d')) /\
  (forall band_name, In band_name (map fst band_items) ->
     exists d,
       files w' !! py.join (output_dir self) (aligned_name scene_name band_name)
         = Some (Raster d)).
Proof.
  revert aligned_files w.
  induction band_items as [|[band_name band_file] rest IH]; intros acc w Hrun.
  - cbn in Hrun. injection Hrun as <- _. split; [eauto|intros ? []].
  - cbn [align_bands] in Hrun.
    apply bind_Ok_inv in Hrun as (w1 & [] & Hstep & Hrest).
    apply align_bands_step in Hstep as (d0 & Hf1 & _).
    destruct (IH _ _ Hrest) as [Hkeep Hnew].
    assert (Hkeep1 : forall p d, files w !! p = Some (Raster d) ->
              exists d', files w1 !! p = Some (Raster d')).
    { intros p d Hp. rewrite Hf1.
      destruct (decide
        (py.join (output_dir self) (aligned_name scene_name band_name) = p))
        as [<-|Hne].
      - rewrite lookup_insert_eq. eauto.
      - rewrite lookup_insert_ne by assumption. eauto. }
    split.
    + intros p d Hp. destruct (Hkeep1 p d Hp) as [d1 Hd1]. eauto.
    + intros n [<-|Hin]; [|auto]. cbn.
      apply (Hkeep _ d0). rewrite Hf1. apply lookup_insert_eq.
Qed.

(** With the reference file in place, all it wrote lies on the grid of
    the reference. *)
Lemma align_bands_on_grid (self : BandAligner)
    (scene_name reference_band reference_file : string) (ref : Dataset)
    (band_items : list (string * string))
    (aligned_files result : py.dict string) (w w' : World) :
  (forall band_name,
     reference_file <>
     py.join (output_dir self) (aligned_name scene_name band_name)) ->
  files w !! reference_file = Some (Raster ref) ->
  (forall file, In (reference_band, file) band_items -> file = reference_file) ->
  align_bands self scene_name reference_band reference_file band_items
              aligned_files w = (w', Ok result) ->
  forall band_name, In band_name (map fst band_items) ->
    exists d,
      files w' !! py.join (output_dir self) (aligned_name scene_name band_name)
        = Some (Raster d) /\
      grid d = grid ref.
Proof.
  intros reference_not_an_output. revert aligned_files w.
  induction band_items as [|[band_name band_file] rest IH];
    intros acc w Href Hfile Hrun; [intros ? []|].
  cbn [align_bands] in Hrun.
  apply bind_Ok_inv in Hrun as (w1 & [] & Hstep & Hrest).
  apply align_bands_step in Hstep as (d0 & Hf1 & Hgrid).
  specialize (Hgrid ref Href).
  assert (Href1 : files w1 !! reference_file = Some (Raster ref)).
  { rewrite Hf1, lookup_insert_ne; [exact Href|].
    apply not_eq_sym, reference_not_an_output. }
  assert (IH' := IH _ _ Href1 (fun file H => Hfile file (or_intror H)) Hrest).
  intros n Hn.
  destruct (in_dec string_dec n (map fst rest)) as [Hin|Hnotin]; [auto|].
  destruct Hn as [<-|Hin]; [|contradiction]. cbn in Hnotin |- *.
  exists d0. split.
  - match type of Hrest with align_bands _ _ _ _ _ ?acc' _ = _ =>
      pose proof (writes_only_align_bands self scene_name reference_band
                    reference_file rest acc' w1
                    (py.join (output_dir self)
                             (aligned_name scene_name band_name))) as Hframe
    end.
    rewrite Hrest in Hframe. cbn [fst] in Hframe. rewrite Hframe.
    + rewrite Hf1. apply lookup_insert_eq.
    + intros (n & f & Hin & E). apply aligned_path_inj in E. subst n.
      apply Hnotin. apply in_map_iff. now exists (band_name, f).
  - apply Hgrid. intros ->. apply Hfile. now left.
Qed.

End aligned_files.

(** ** Finding the aligned files again, and checking them *)

Section aligned_scene.

Import rasterio band_aligner georeference_analysis.
Context `{W : Warp}.

Lemma get_aligned_scene_paths_eq (self : BandAligner) (scene_name : string)
    (w : World) :
  get_aligned_scene_paths self scene_name w =
  (w, Ok (let b4 := py.join (output_dir self) (aligned_name scene_name "B4") in
          let b5 := py.join (output_dir self) (aligned_name scene_name "B5") in
          (if bool_decide (is_Some (files w !! b4)) then [("B4", b4)] else [])
          ++ (if bool_decide (is_Some (files w !! b5)) then [("B5", b5)]
              else []))%list).
Proof.
  unfold get_aligned_scene_paths. cbn [aligned_paths_of].
  do 2 io_step. cbn zeta.
  destruct (bool_decide _), (bool_decide _); reflexivity.
Qed.

(** What [align_scene] returns and what it has written. *)
Lemma align_scene_Ok (self : BandAligner) (scene_name reference_band : string)
    (aligned_files : py.dict string) (w w' : World) :
  align_scene self scene_name reference_band w = (w', Ok (Some aligned_files)) ->
  exists scene_bands reference_file w0,
    py.get (scenes self) scene_name = Some scene_bands /\
    py.get scene_bands reference_band = Some reference_file /\
    files w0 = files w /\
    align_bands self scene_name reference_band reference_file
      (py.items scene_bands) [] w0 = (w', Ok aligned_files).
Proof.
  unfold align_scene.
  destruct (py.get (scenes self) scene_name) as [scene_bands|];
    [|discriminate].
  destruct (py.get scene_bands reference_band) as [reference_file|] eqn:Hget;
    [|discriminate].
  io_step. intros Hrun.
  apply bind_Ok_inv in Hrun as (w1 & result & Hbands & Hret).
  injection Hret as <- <-.
  eexists scene_bands, reference_file, _.
  split; [reflexivity|]. split; [exact Hget|]. split; [|exact Hbands].
  reflexivity.
Qed.

(** X16.  Round trip: the aligned files that [align_scene] returns exist, under
    the names that [get_aligned_scene_paths] looks for.  Called after
    [align_scene], [get_aligned_scene_paths] finds the B4 and the B5 file
    that [align_scene] returned, and for a scene of these two bands it
    returns the same dictionary. *)
Theorem aligned_files_are_found_again (self : BandAligner)
    (scene_name reference_band : string) (aligned_files : py.dict string)
    (w w' : World) :
  align_scene self scene_name reference_band w = (w', Ok (Some aligned_files)) ->
  (forall band_name aligned_file,
     In (band_name, aligned_file) aligned_files ->
     aligned_file =
       py.join (output_dir self) (aligned_name scene_name band_name) /\
     exists d, files w' !! aligned_file = Some (Raster d)) /\
  exists paths,
    get_aligned_scene_paths self scene_name w' = (w', Ok paths) /\
    (forall band_name aligned_file,
       In (band_name, aligned_file) aligned_files ->
       band_name = "B4" \/ band_name = "B5" ->
       py.get paths band_name = Some aligned_file) /\
    (py.keys aligned_files = ["B4"; "B5"] -> paths = aligned_files).
Proof.
  intros Hrun.
  apply align_scene_Ok in Hrun
    as (scene_bands & reference_file & w0 & _ & _ & _ & Hbands).
  pose proof (align_bands_result _ _ _ _ _ _ _ _ _ Hbands) as Hres.
  destruct (align_bands_written _ _ _ _ _ _ _ _ _ Hbands) as [_ Hnew].
  assert (Hfiles : forall band_name aligned_file,
            In (band_name, aligned_file) aligned_files ->
            aligned_file =
              py.join (output_dir self) (aligned_name scene_name band_name) /\
            exists d, files w' !! aligned_file = Some (Raster d)).
  { intros b f Hin. rewrite Hres in Hin.
    apply In_fold_set in Hin as [[]|[Hb ->]]. split; [reflexivity|].
    now apply Hnew. }
  split; [exact Hfiles|].
  rewrite get_aligned_scene_paths_eq. eexists. split; [reflexivity|].
  cbn zeta. split.
  - intros b f Hin Hb. destruct (Hfiles b f Hin) as [-> [d Hd]].
    destruct Hb as [->| ->].
    + rewrite bool_decide_eq_true_2 by (rewrite Hd; eauto). reflexivity.
    + rewrite (bool_decide_eq_true_2 (is_Some (files w' !! py.join _
                 (aligned_name scene_name "B5")))) by (rewrite Hd; eauto).
      destruct (bool_decide _); reflexivity.
  - intros Hkeys.
    destruct aligned_files as [|[k4 f4] [|[k5 f5] [|]]]; try discriminate.
    cbn in Hkeys. injection Hkeys as -> ->.
    destruct (Hfiles "B4" f4 (or_introl eq_refl)) as [-> [d4 Hd4]].
    destruct (Hfiles "B5" f5 (or_intror (or_introl eq_refl))) as [-> [d5 Hd5]].
    rewrite !bool_decide_eq_true_2 by (rewrite ?Hd4, ?Hd5; eauto).
    reflexivity.
Qed.

(** X17.  End of the pipeline: the aligned files of a scene all lie on the grid
    of the reference file, and [SceneAnalyzer.check_alignment] called on
    what [align_scene] returned gives [True].  (The reference file is not
    one of the aligned files that are written; its WGS84 bounds can be
    computed and none of them is NaN.) *)
Theorem aligned_scene_passes_the_check (self : BandAligner)
    (scene_name reference_band : string) (scene_bands : py.dict string)
    (reference_file : string) (ref : Dataset) (ref_info : Info)
    (aligned_files : py.dict string) (w w' : World) :
  py.get (scenes self) scene_name = Some scene_bands ->
  py.get scene_bands reference_band = Some reference_file ->
  NoDup (py.keys scene_bands) ->
  files w !! reference_file = Some (Raster ref) ->
  (forall band_name,
     reference_file <>
     py.join (output_dir self) (aligned_name scene_name band_name)) ->
  (get_info reference_file w).2 = Ok ref_info ->
  bounds_are_numbers (bounds_wgs84 ref_info) ->
  align_scene self scene_name reference_band w = (w', Ok (Some aligned_files)) ->
  (forall band_name aligned_file,
     In (band_name, aligned_file) aligned_files ->
     exists d, files w' !! aligned_file = Some (Raster d) /\ grid d = grid ref) /\
  (check_alignment aligned_files w').2 = Ok true.
Proof.
  intros Hscene Hget Hnd Href Hout Hinfo Hnum Hrun.
  apply align_scene_Ok in Hrun
    as (scene_bands' & reference_file' & w0 & Hscene' & Hget' & Hf0 & Hbands).
  rewrite Hscene in Hscene'. injection Hscene' as <-.
  rewrite Hget in Hget'. injection Hget' as <-.
  pose proof (align_bands_result _ _ _ _ _ _ _ _ _ Hbands) as Hres.
  assert (Hgrid : forall band_name aligned_file,
            In (band_name, aligned_file) aligned_files ->
            exists d, files w' !! aligned_file = Some (Raster d) /\
                      grid d = grid ref).
  { intros b f Hin. rewrite Hres in Hin.
    apply In_fold_set in Hin as [[]|[Hb ->]].
    apply (align_bands_on_grid self scene_name reference_band reference_file
             ref (py.items scene_bands) [] aligned_files w0 w');
      [exact Hout | now rewrite Hf0 | | exact Hbands | exact Hb].
    intros file Hin. eapply get_In_NoDup; eauto. }
  split; [exact Hgrid|].
  assert (Hpass : forall band_name aligned_file,
            In (band_name, aligned_file) aligned_files ->
            exists info, (get_info aligned_file w').2 = Ok info /\
              bounds_wgs84 info = bounds_wgs84 ref_info /\
              shape info = shape ref_info).
  { intros b f Hin. destruct (Hgrid b f Hin) as (d & Hd & Hg).
    apply (get_info_same_grid reference_file f w w' ref d ref_info); auto. }
  destruct (Nat.ltb_spec (py.len aligned_files) 2) as [Hlt|Hge].
  - unfold check_alignment. apply Nat.ltb_lt in Hlt. now rewrite Hlt.
  - destruct aligned_files as [|[b1 f1] more]; [cbn in Hge; lia|].
    apply (check_alignment_true _ f1 (py.values more)); [exact Hge|reflexivity|].
    destruct (Hpass b1 f1 (or_introl eq_refl)) as (info1 & Hi1 & Hb1 & Hs1).
    exists info1. split; [exact Hi1|].
    apply List.Forall_forall. intros f Hin.
    apply in_map_iff in Hin as ([b f'] & <- & Hin). cbn.
    destruct (Hpass b f' (or_intror Hin)) as (info & Hi & Hb & Hs).
    exists info. split; [exact Hi|]. split; [|congruence].
    rewrite Hb, Hb1. now apply bounds_eq_refl.
Qed.

End aligned_scene.

(** ** What the index scripts write *)

Lemma strip_prefix_app_l (prefix s t : string) :
  py.strip_prefix (prefix ++ s) (prefix ++ t) = py.strip_prefix s t.
Proof.
  induction prefix as [|ch prefix IH]; [reflexivity|].
  change (String ch prefix ++ s) with (String ch (prefix ++ s)).
  change (String ch prefix ++ t) with (String ch (prefix ++ t)).
  cbn [py.strip_prefix]. now rewrite Ascii.eqb_refl.
Qed.

Lemma bind_listdir {B} (dir : string) (k : list string -> IO B) (w : World) :
  io_bind (listdir dir) k w = k (entries (files w) dir) w.
Proof. reflexivity. Qed.

Section scripts_footprint.

Import rasterio.
Context `{W : Warp}.

Lemma writes_only_script_align (P : string -> Prop)
    (band_file reference_file output_file : string) :
  P output_file ->
  writes_only P (vegetation_ortho_aligned.align_band_to_reference
                   band_file reference_file output_file).
Proof.
  intros Hout w p Hp. rewrite script_align_eq. cbn zeta.
  destruct (files w !! reference_file) as [[ref|]|]; try reflexivity.
  destruct (files w !! band_file) as [[src|]|]; try reflexivity.
  destruct (reproject _ _ _ _ _ _ _); [|reflexivity].
  destruct (create _ _ _).2; cbn;
    [apply lookup_insert_ne | apply lookup_partial_alter_ne];
    intros <-; contradiction.
Qed.

Lemma writes_only_process_scene (output_dir aligned_dir : string) (i n : nat)
    (red_path : string) :
  writes_only
    (fun p => exists name,
       p = py.join aligned_dir name \/ p = py.join output_dir name)
    (vegetation_ortho_aligned.process_scene output_dir aligned_dir i n red_path).
Proof.
  unfold vegetation_ortho_aligned.process_scene. cbn zeta.
  apply writes_only_bind; [apply writes_only_print|intros].
  apply writes_only_bind; [apply writes_only_exists|intros found].
  apply writes_only_if; [apply writes_only_print|].
  apply writes_only_bind; [apply writes_only_print|intros].
  apply writes_only_bind; [apply writes_only_script_align; eauto|intros].
  apply writes_only_bind; [apply writes_only_print|intros].
  apply writes_only_bind; [apply writes_only_open|intros src].
  apply writes_only_bind; [apply writes_only_write; eauto|intros].
  apply writes_only_bind; [apply writes_only_print|intros].
  apply writes_only_bind; [apply writes_only_open|intros red_src].
  apply writes_only_bind; [apply writes_only_open|intros nir_src].
  apply writes_only_bind; [apply writes_only_lift|intros ndvi].
  apply writes_only_bind; [apply writes_only_write; eauto|intros].
  apply writes_only_print.
Qed.

Lemma writes_only_process_scenes (output_dir aligned_dir : string) (i n : nat)
    (b4_files : list string) :
  writes_only
    (fun p => exists name,
       p = py.join aligned_dir name \/ p = py.join output_dir name)
    (vegetation_ortho_aligned.process_scenes output_dir aligned_dir i n b4_files).
Proof.
  revert i. induction b4_files as [|red_path rest IH]; intros i;
    cbn [vegetation_ortho_aligned.process_scenes]; [apply writes_only_ret|].
  apply writes_only_bind; [apply writes_only_process_scene|intros; apply IH].
Qed.

(** X18.  Whether it ends normally or with an exception, [process_aligned_ndvi]
    writes only below the [data] directory of the repository: every other
    path holds what it held before.  In particular no band file of
    [src/usgs_data] is modified. *)
Theorem aligned_ndvi_writes_under_data (ROOT : string) (w : World) :
  (forall p,
     py.strip_prefix (ROOT ++ "/data/") p = None ->
     files (vegetation_ortho_aligned.process_aligned_ndvi ROOT w).1 !! p =
     files w !! p) /\
  (forall name,
     files (vegetation_ortho_aligned.process_aligned_ndvi ROOT w).1
       !! py.join (py.join (py.join ROOT "src") "usgs_data") name =
     files w !! py.join (py.join (py.join ROOT "src") "usgs_data") name).
Proof.
  assert (Hframe : forall p,
            py.strip_prefix (ROOT ++ "/data/") p = None ->
            files (vegetation_ortho_aligned.process_aligned_ndvi ROOT w).1 !! p =
            files w !! p).
  { intros p Hp.
    unfold vegetation_ortho_aligned.process_aligned_ndvi. cbn zeta.
    rewrite bind_listdir. io_step.
    match goal with
    | |- files (vegetation_ortho_aligned.process_scenes ?o ?a ?i ?n ?l ?w0).1
           !! _ = _ =>
        rewrite (writes_only_process_scenes o a i n l w0 p); [reflexivity|]
    end.
    intros (name & [->| ->]).
    - assert (E : py.join (py.join (py.join ROOT "data") "aligned_bands") name
                  = (ROOT ++ "/data/") ++ ("aligned_bands/" ++ name))
        by (unfold py.join; rewrite !string_app_assoc; reflexivity).
      rewrite E, strip_prefix_app in Hp. discriminate.
    - assert (E : py.join (py.join ROOT "data") name = (ROOT ++ "/data/") ++ name)
        by (unfold py.join; rewrite !string_app_assoc; reflexivity).
      rewrite E, strip_prefix_app in Hp. discriminate. }
  split; [exact Hframe|].
  intros name. apply Hframe.
  assert (E : py.join (py.join (py.join ROOT "src") "usgs_data") name
              = ROOT ++ ("/src/usgs_data/" ++ name))
    by (unfold py.join; rewrite !string_app_assoc; reflexivity).
  rewrite E, strip_prefix_app_l. reflexivity.
Qed.

End scripts_footprint.

Section index_scripts_footprint.

Import rasterio.
Context `{W : Warp} `{P : plt.Pyplot}.









End index_scripts_footprint.

(** ** The further properties at sample inputs *)

Lemma clip_keeps_a_checked_index_witness :
  ndvi_clipped (sample.band [[300]]%Z) (sample.band [[100]]%Z) =
  Ok [[sample.half]].
Proof.
  apply (clip_keeps_a_checked_index (sample.band [[300]]%Z)
           (sample.band [[100]]%Z) [[sample.half]]).
  vm_compute. reflexivity.
Defined.

Lemma blank_scene_fails_the_assertion_witness :
  ndvi_asserted (np.zeros 2 2) (np.zeros 2 2) =
  Raise (AssertionError out_of_range).
Proof.
  refine (proj1 (blank_scene_fails_the_assertion
                   (np.zeros 2 2) (np.zeros 2 2) (np.zeros 2 2) eq_refl _)).
  intros v Hin. cbn in Hin.
  destruct Hin as [<-|[<-|[<-|[<-|[]]]]]; reflexivity.
Defined.

Lemma index_variants_differ_only_in_fill_witness :
  exists d zero_filled nan_filled,
    np.subtract sample.dark_nir sample.dark_red = Ok d /\
    ndvi_where sample.dark_nir sample.dark_red = Ok zero_filled /\
    ndvi_masked sample.dark_nir sample.dark_red = Ok nan_filled /\
    np.shape d = np.shape sample.dark_sum /\
    np.shape zero_filled = np.shape sample.dark_sum /\
    np.shape nan_filled = np.shape sample.dark_sum /\
    forall i j sum,
      np.cell sample.dark_sum i j = Some sum ->
      exists diff,
        np.cell d i j = Some diff /\
        if F64.eqb sum F64.zero
        then np.cell zero_filled i j = Some F64.zero /\
             np.cell nan_filled i j = Some F64.nan
        else np.cell zero_filled i j = Some (F64.div diff sum) /\
             np.cell nan_filled i j = Some (F64.div diff sum).
Proof.
  apply (index_variants_differ_only_in_fill
           sample.dark_nir sample.dark_red sample.dark_sum eq_refl).
Defined.

Lemma swapping_the_bands_negates_the_index_witness :
  exists zero_filled', ndvi_where sample.dark_red sample.dark_nir = Ok zero_filled'.
Proof.
  destruct (swapping_the_bands_negates_the_index
              sample.dark_nir sample.dark_red sample.dark_sum eq_refl)
    as (_ & zero_filled' & _ & _ & _ & H & _).
  exists zero_filled'. exact H.
Defined.

Lemma scene_bands_are_B4_then_B5_witness :
  exists file_name,
    In file_name (entries (files sample.usgs) "usgs_data") /\
    py.endswith file_name "_SR_B4.TIF" = true /\
    "LC08" = py.replace file_name "_SR_B4.TIF" "" /\
    ((is_Some (files sample.usgs
                 !! py.join "usgs_data" (py.replace file_name "B4.TIF" "B5.TIF")) /\
      sample.usgs_bands =
        [("B4", py.join "usgs_data" file_name);
         ("B5", py.join "usgs_data" (py.replace file_name "B4.TIF" "B5.TIF"))]) \/
     (files sample.usgs
        !! py.join "usgs_data" (py.replace file_name "B4.TIF" "B5.TIF") = None /\
      sample.usgs_bands = [("B4", py.join "usgs_data" file_name)])).
Proof.
  apply (scene_bands_are_B4_then_B5 (files sample.usgs) "usgs_data" "LC08"
                                    sample.usgs_bands).
  vm_compute. right. left. reflexivity.
Defined.

Lemma every_B4_file_names_a_scene_witness :
  is_Some (py.get (band_aligner._find_scenes (files sample.usgs) "usgs_data")
                  (py.replace "LC09_SR_B4.TIF" "_SR_B4.TIF" "")).
Proof.
  apply (proj1 (every_B4_file_names_a_scene (files sample.usgs) "usgs_data")
               "LC09_SR_B4.TIF").
  - vm_compute. auto.
  - reflexivity.
Defined.

Lemma summary_agrees_with_its_parts_witness :
  georeference_analysis.check_alignment (W := sample.cell_copy)
    [("B4", "nowhere/S_SR_B4.TIF")] sample.empty = (sample.empty, Ok true) /\
  (georeference_analysis.get_summary (W := sample.cell_copy)
     [("B4", "nowhere/S_SR_B4.TIF")] sample.empty).2 =
    Raise (RasterioIOError "nowhere/S_SR_B4.TIF").
Proof.
  apply (proj2 (proj2 (proj2 (proj2
           (summary_agrees_with_its_parts (W := sample.cell_copy)
              [("B4", "nowhere/S_SR_B4.TIF")] sample.empty))))
           "B4" "nowhere/S_SR_B4.TIF" eq_refl).
  intros src. vm_compute. discriminate.
Defined.

Lemma crs_check_reports_each_band_witness :
  (georeference_analysis.check_crs (W := sample.cell_copy)
     sample.usgs_bands sample.usgs).2 = Ok tt.
Proof.
  destruct (crs_check_reports_each_band (W := sample.cell_copy)
              sample.usgs_bands "B4" "usgs_data/LC08_SR_B4.TIF"
              [("B5", "usgs_data/LC08_SR_B5.TIF")] sample.b4 sample.usgs)
    as (out & H & _).
  - reflexivity.
  - cbn. lia.
  - apply (bool_decide_unpack _). vm_compute. exact I.
  - vm_compute. reflexivity.
  - intros name file [[= <- <-]|[[= <- <-]|[]]];
      eexists; vm_compute; reflexivity.
  - exact H.
Defined.

Lemma raw_bounds_check_only_reads_witness :
  (georeference_analysis.check_raw_bounds sample.usgs_bands sample.usgs).2 = Ok tt /\
  calls (georeference_analysis.check_raw_bounds sample.usgs_bands sample.usgs).1 =
    (calls sample.usgs ++ map OpenRead (py.values sample.usgs_bands))%list.
Proof.
  apply (proj2 (proj2 (raw_bounds_check_only_reads
                         sample.usgs_bands sample.usgs))).
  - cbn. lia.
  - apply (bool_decide_unpack _). vm_compute. exact I.
  - repeat constructor; eexists; vm_compute; reflexivity.
Defined.

Lemma raw_bounds_are_compared_with_first_band_witness :
  raw_bounds_lines "B4" (rasterio.bounds sample.b4) "B5" sample.b5 =
    [BandHeading "B5"; BandCrs (rasterio.ds_crs sample.b4);
     RawBounds (rasterio.bounds sample.b4);
     DifferenceFrom "B4" F64.zero; BlankLine].
Proof.
  destruct (raw_bounds_are_compared_with_first_band
              sample.usgs_bands "B4" "usgs_data/LC08_SR_B4.TIF"
              [("B5", "usgs_data/LC08_SR_B5.TIF")] sample.b4 sample.usgs)
    as (out & _ & H).
  - reflexivity.
  - cbn. lia.
  - apply (bool_decide_unpack _). vm_compute. exact I.
  - vm_compute. reflexivity.
  - repeat constructor; eexists; vm_compute; reflexivity.
  - apply (proj2 (H "B5" "usgs_data/LC08_SR_B5.TIF" sample.b5
                    (or_introl eq_refl) ltac:(vm_compute; reflexivity))).
    + reflexivity.
    + vm_compute. repeat split.
Defined.

Lemma checker_and_analyzer_agree_witness :
  exists b out,
    (georeference_analysis.check_alignment (W := sample.cell_copy)
       sample.usgs_bands sample.usgs).2 = Ok b /\
    stdout (georeference_analysis.check (W := sample.cell_copy)
              sample.usgs_bands sample.usgs).1 = (stdout sample.usgs ++ out)%list /\
    (b = true <-> In AllBandsAligned out).
Proof.
  apply (checker_and_analyzer_agree (W := sample.cell_copy)
           sample.usgs_bands sample.usgs).
  - cbn. lia.
  - apply (bool_decide_unpack _). vm_compute. exact I.
  - vm_compute. reflexivity.
Defined.

Lemma test_records_what_the_checker_prints_witness :
  (georeference_analysis.check_alignment (W := sample.cell_copy)
     sample.usgs_bands sample.usgs_shifted).2 = Ok false.
Proof.
  refine (proj1 (proj2 (proj2
           (test_records_what_the_checker_prints (W := sample.cell_copy)
              [] [alignment_testing.mkTestResult ["B4"; "B5"] false 2]
              sample.usgs_bands false sample.usgs_shifted
              (alignment_testing.test_scene_alignment (W := sample.cell_copy)
                 [] sample.usgs_bands sample.usgs_shifted).1 _)))).
  vm_compute. reflexivity.
Defined.

Lemma missing_reference_band_counts_as_aligned_witness :
  exists w' out aligned_scenes,
    band_aligner.align_all_scenes (W := sample.cell_copy)
      sample.aligner "B8" sample.usgs = (w', Ok aligned_scenes) /\
    files w' = files sample.usgs /\ calls w' = calls sample.usgs /\
    stdout w' = (stdout sample.usgs ++ out)%list /\
    forall scene_name,
      In scene_name (py.keys (band_aligner.scenes sample.aligner)) ->
      py.get aligned_scenes scene_name = Some None /\
      In (ReferenceBandNotFound "B8" scene_name) out /\
      In (SceneAligned scene_name) out.
Proof.
  apply (proj2 (missing_reference_band_counts_as_aligned
                  (W := sample.cell_copy) sample.aligner "B8" sample.usgs)).
  intros scene_name scene_bands Hin. vm_compute in Hin.
  destruct Hin as [[= <- <-]|[[= <- <-]|[]]]; reflexivity.
Defined.

Lemma alignment_writes_only_aligned_files_witness :
  files (band_aligner.align_all_scenes (W := sample.cell_copy)
           sample.aligner "B4" sample.usgs).1 !! "usgs_data/LC08_SR_B4.TIF" =
  files sample.usgs !! "usgs_data/LC08_SR_B4.TIF".
Proof.
  apply (alignment_writes_only_aligned_files (W := sample.cell_copy)).
  right. reflexivity.
Defined.

Lemma aligned_files_are_found_again_witness :
  exists paths,
    band_aligner.get_aligned_scene_paths sample.aligner "LC08"
      (band_aligner.align_scene (W := sample.cell_copy)
         sample.aligner "LC08" "B4" sample.usgs).1 =
      ((band_aligner.align_scene (W := sample.cell_copy)
          sample.aligner "LC08" "B4" sample.usgs).1, Ok paths) /\
    paths = [("B4", "out/LC08_B4_aligned.TIF"); ("B5", "out/LC08_B5_aligned.TIF")].
Proof.
  destruct (aligned_files_are_found_again (W := sample.cell_copy)
              sample.aligner "LC08" "B4"
              [("B4", "out/LC08_B4_aligned.TIF"); ("B5", "out/LC08_B5_aligned.TIF")]
              sample.usgs
              (band_aligner.align_scene (W := sample.cell_copy)
                 sample.aligner "LC08" "B4" sample.usgs).1)
    as (_ & paths & Hpaths & _ & Hsame).
  - vm_compute. reflexivity.
  - exists paths. split; [exact Hpaths|]. apply Hsame. reflexivity.
Defined.

Lemma aligned_scene_passes_the_check_witness :
  (georeference_analysis.check_alignment (W := sample.cell_copy)
     [("B4", "out/LC08_B4_aligned.TIF"); ("B5", "out/LC08_B5_aligned.TIF")]
     (band_aligner.align_scene (W := sample.cell_copy)
        sample.aligner "LC08" "B4" sample.usgs).1).2 = Ok true.
Proof.
  eapply (fun info H1 H2 H3 H4 H5 H6 H7 H8 =>
            proj2 (aligned_scene_passes_the_check (W := sample.cell_copy)
                     sample.aligner "LC08" "B4" sample.usgs_bands
                     "usgs_data/LC08_SR_B4.TIF" sample.b4 info
                     [("B4", "out/LC08_B4_aligned.TIF");
                      ("B5", "out/LC08_B5_aligned.TIF")]
                     sample.usgs
                     (band_aligner.align_scene (W := sample.cell_copy)
                        sample.aligner "LC08" "B4" sample.usgs).1
                     H1 H2 H3 H4 H5 H6 H7 H8)).
  - vm_compute. reflexivity.
  - reflexivity.
  - apply (bool_decide_unpack _). vm_compute. exact I.
  - vm_compute. reflexivity.
  - intros band_name. cbn. discriminate.
  - vm_compute. reflexivity.
  - vm_compute. repeat split.
  - vm_compute. reflexivity.
Defined.

Lemma aligned_ndvi_writes_under_data_witness :
  files (vegetation_ortho_aligned.process_aligned_ndvi (W := sample.cell_copy)
           "" sample.unreadable).1 !! "/src/usgs_data/LC08_SR_B4.TIF" =
  files sample.unreadable !! "/src/usgs_data/LC08_SR_B4.TIF".
Proof.
  apply (proj1 (aligned_ndvi_writes_under_data (W := sample.cell_copy)
                  "" sample.unreadable)).
  reflexivity.
Defined.

